(* ===== verification/_CoqProject ===== *)
-Q . S2P
Prelude.v
JsValue.v
JsString.v
ToolResult.v
Messages.v
AgentLoop.v
LoopSpec.v
Dispatch.v
History.v
AgentScenarios.v
Resources.v
McpMain.v
Rag.v
Config.v
Hello.v
SplitterScripts.v
RagPipeline.v
