(* ===== verification/Prelude.v ===== *)
(** * A verification development for the agent-beginer demonstration scripts

    The repository (src/) is a set of short Node.js scripts driving the
    LangChain library.  Almost every capability is delegated to external
    packages (chat model client, embeddings, vector store, document
    loader, text splitters, MCP client); the code the repository itself
    authors is a handful of loops and duck-typed conversions.  This
    development models that code, and models the external packages only
    through the interfaces the scripts call.

    ** The program and how its parts interact

    - src/tool-test/src/mcp-test.mjs is the core.  It
      (1) reads every MCP resource of every server and concatenates the
          first text part of each into [resourceContent] (lines 39-46);
      (2) lists the tools and binds them to the chat model (48-49);
      (3) runs [runWithTools] (51-104): a conversation loop that asks the
          model, appends its answer, stops when the answer requests no
          tool, and otherwise runs each requested tool found by name,
          normalises the tool's result to a string (79-95) and appends a
          [ToolMessage]; after [maxIterations] rounds it returns the
          content of the last message.
    - src/rag-test/src/loader-and-splitter.mjs builds a RAG prompt: it
      retrieves two chunks per question, looks up their scores, joins them
      into a numbered context and asks the model.
      Before that it loads the article, splits it, checks that one
      document was loaded, indexes the chunks in an in-memory vector
      store and makes a retriever (lines 15-57).
    - src/rag-test/src/LatexTextSplitter-test.mjs and
      MarkdownTextSplitter-test.mjs split one document built from a
      template literal and print each chunk with its length and token
      count; src/tool-test/src/hello-langchain.mjs configures a model and
      prints one answer.

    ** Files of the development (in dependency order)

    - [Prelude] (this file): the effect monad [M] of the scripts (a state
      that survives exceptions, as JavaScript side effects do), its
      notations in [agent_scope], the generic list and string lemmas the
      components share, the hint databases [agent] and [agent_rw], and the
      tactics [msimpl] and [inv_sum].
    - [JsValue]: the JavaScript values the scripts inspect
      ([jsval]: undefined, null, booleans, integer numbers, strings,
      arrays, plain objects), the exceptions they may raise ([js_exn]),
      and the language operations the code uses: truthiness, [typeof],
      property and index access (TypeError on null/undefined),
      [Array.isArray], ToString, [Array.prototype.join], [Object.entries]
      and [JSON.stringify] (both in the key order of
      OrdinaryOwnPropertyKeys, [js_entries]: array-index keys first,
      ascending) and the iteration of [for ... of].
    - [JsString]: JavaScript strings over UTF-8 bytes: [s.length] as
      UTF-16 code units ([js_length]) and the template value of a
      template literal ([cook_template]).
    - [ToolResult]: [normalizeToolResult] (mcp-test.mjs 79-95), written
      as the code probes the value, and the module [Shape], a tagged-union
      specification of the same conversion.
    - [Messages]: the LangChain message classes, tool calls, the tool
      registry and [tools.find] (line 76).
    - [AgentLoop]: the class [AgentWorld] of the two services of the loop
      (chat model, tools); [run_tool_calls] (lines 66-98), [iteration]
      (55-100), [loop] (54) and [runWithTools] (51-104) over a
      [LoopState] (the services' world and a trace of model calls, tool
      calls and console lines).
    - [LoopSpec]: the loop as the state machine of spec section 4
      ([step]: awaiting the model / awaiting tools / answered /
      exhausted / failed) over a configuration that pairs the phase with
      the services' world; each transition that calls a service takes
      the answer [invoke_model] or [invoke_tool] gives in that world, so
      the machine is deterministic.  The refinement of the machine by
      [runWithTools].
    - [Dispatch]: the reference reading of the dispatch loop of lines
      74-98, filter the calls of registered tools then map each to its
      tool message ([registered], [answer_call], [run_tool_calls_ref],
      with the monadic map [mmap] of this file), and its equivalence
      with [run_tool_calls].
    - [History]: the well-formedness of a conversation history
      ([answers_ok]: every tool message answers a call of the assistant
      message it follows), the prefix order on histories ([extends]),
      and their preservation by the loop.
    - [AgentScenarios]: concrete instances of [AgentWorld], the
      two-round scenario of the spec and the witnesses of the loop
      theorems.
    - [Resources]: the class [McpClient] and the gathering of the MCP
      resources into [resourceContent] (lines 39-46): [read_server],
      [read_all], [gather_resources].
    - [McpMain]: the main program of mcp-test.mjs ([mcp_main], lines
      39-49 and 106-112): gathering, [getTools], [bindTools], one run of
      [runWithTools] with the default budget 30, [close]; the class
      [McpHost] holds the three client calls the other classes lack.
    - [Rag]: the class [RagServices] (retriever, scored vector search,
      chat model) and the question loop of loader-and-splitter.mjs
      (59-107): [report_docs], [similarity_of], [rag_context],
      [rag_prompt], [answer_question], [answer_all]; and [decimal_value],
      the number a printed decimal literal denotes.
    - [Config]: the option objects every script builds from constants
      and from [process.env] (a stdpp [gmap]): the model and embeddings
      clients, the four MCP servers, the loader and the three splitters.
    - [Hello]: the class [ChatModel] and hello-langchain.mjs
      ([hello_main]): one model call on a fixed prompt with the client
      configured from the environment, and the printing of its answer.
    - [SplitterScripts]: the classes [TextSplitter] and [Tokenizer], the
      two literals byte for byte with their template values, and the
      scripts [latex_main] and [markdown_main].
    - [RagPipeline]: the class [RagSetup] (loader, vector store,
      retriever factory) and the whole RAG script [rag_main]: the setup
      of lines 15-57 followed by the question loop of Rag.v.

    ** What the theorems show

    - The loop (AgentLoop, LoopSpec, History, Dispatch): whatever the
      services do, the model is called at most [maxIterations] times; a
      round appends the answer the model gave and one [ToolMessage] per
      registered requested tool, in order, with the call ids; an answer
      without tool calls ends the run with its content; unknown tools are
      skipped silently; model and tool exceptions, and the TypeError of a
      tool result the normalisation rejects, propagate at once, aborting
      the round; without exceptions the run always returns a value (the
      final [message[message.length - 1]] never fails); a non-positive
      budget returns the query itself; against a model that always
      requests a tool the budget is spent to the end and the run returns
      the last tool message of the last round, not the assistant's
      answer, whenever a requested tool exists.  Every run of
      [runWithTools] refines the machine of LoopSpec: the machine,
      driven by the same service answers, reaches a terminal
      configuration, and every terminal path has the run's result, final
      world and service calls.  Every history sent to the model is well
      formed and extends the one sent before it (the conversation is
      append-only), and the dispatch loop equals the filter-then-map
      reference.
    - ToolResult: the duck-typed code computes the tagged-union
      specification; each branch (string, content array, text field,
      fallback) computes what the code computes, it throws exactly when a
      content part is null or undefined, and it returns a non-string
      exactly in the two cases the comment of line 79 overlooks.
    - Resources: the system prompt is the concatenation of the first text
      part of each resource, server by server; a part without text adds
      "undefined"; an empty content array aborts with a TypeError.
    - Rag: one question makes exactly the retrieval, the scored search
      with k = 2 and one model call on the prompt built from the
      retrieved chunks, in that order; the printed similarity is "N/A"
      exactly when no scored chunk has the same text, and otherwise a
      decimal literal within 0.00005 of [1 - score] of such a chunk.
    - Composition (McpMain, RagPipeline, Hello): once the resources are
      gathered, the service calls of the whole mcp program are a terminal
      path of the machine of LoopSpec from the gathered text, the query
      and 30 rounds, whose first model call carries that text as its
      system message; [close] runs only when the run returns, in the
      world the path ends in, and a gathering error stops the program
      before any model call.  The hello script calls the model once with
      the model name the environment selects.  The RAG script calls
      load, split, index and retriever in order and then answers the
      questions; with no document its [console.assert] only prints and
      the script dies on [documents[0].pageContent]; an exception of the
      retriever stops the question loop at that question.  A splitter
      script prints three lines per chunk, whatever the splitter does.

    ** Bounds and modelling choices

    - JavaScript numbers are modelled as integers ([Z]) where the code
      only compares, prints and counts them; printing follows
      Number::toString for integers below 10^21.  [maxIterations] is a
      [Z]; the loop runs [Z.to_nat maxIterations] rounds, which is
      exactly how many times [i < maxIterations] holds from [i = 0].
    - Similarity scores are rationals ([Q]); [1 - score] is then exact,
      as the double subtraction is for scores in [1/2, 2] (Sterbenz), and
      [toFixed] follows its ECMAScript definition on the exact value.
      A score that is not a number (NaN) is not representable.
    - Strings are byte strings ([string]); the scripts' non-ASCII
      literals, the no-break spaces (U+00A0) of the log lines and the
      prompt included, are written as their UTF-8 bytes.
      [JSON.stringify] leaves bytes >= 0x80 untouched, as it leaves
      non-ASCII code points; lone surrogates are not representable.
    - Objects are association lists in property creation order; a
      property read takes the first binding, and [Object.entries] and
      [JSON.stringify] list the members in OrdinaryOwnPropertyKeys
      order.  Prototype members (methods) and [toJSON] are not values
      of the model because the code only reads own data properties
      ([content], [text], [type], [uri], index 0).
    - [.length] is computed on the UTF-8 bytes of a string by counting
      UTF-16 code units: one per lead byte, two for a four-byte
      sequence; every string of the model is well-formed UTF-8 (literals
      are written in UTF-8 and services are modelled as returning Rocq
      strings).
    - No definition uses fuel: every loop of the code is structural in
      the model: [loop] on the number of rounds left, the tool calls,
      resources, questions and chunks on their lists, the template
      cooking on the string (recursing past several bytes at once).

    ** Not modelled

    The LangChain, OpenAI, MCP, cheerio, dotenv, textsplitters and
    tiktoken packages are external (not code of the repository): they
    appear only as the oracles of the interfaces above ([AgentWorld],
    [McpClient], [McpHost], [RagServices], [RagSetup], [ChatModel], [TextSplitter],
    [Tokenizer]) or as the configuration records they are given; the
    splitting and tokenising algorithms themselves are theirs.  The
    import statements and [dotenv] loading are not modelled: the
    environment is a parameter of the configurations.
    [console.log] is modelled by the list of its arguments: the text
    [util.inspect] makes of an object (a chunk [Document], a metadata
    object) and the colours of chalk are not, and the error stream of
    [console.assert] is not told apart from the output.
*)

From Stdlib Require Import String List ZArith Lia.
Import ListNotations.

Declare Scope agent_scope.
Delimit Scope agent_scope with agent.

Create HintDb agent.
Create Rewrite HintDb agent_rw.

(** ** The effect monad of the scripts

    A computation reads and updates a state [S] and may raise an
    exception of type [E].  Unlike a state-over-error monad, the state
    reached before an exception is kept: side effects already performed
    (calls to a model, lines written to the console) are not undone when
    a later statement throws. *)

Definition M (S E A : Type) : Type := S -> S * (E + A).

Definition mret {S E A} (a : A) : M S E A := fun s => (s, inr a).

Definition mbind {S E A B} (m : M S E A) (k : A -> M S E B) : M S E B :=
  fun s => match m s with
           | (s', inl e) => (s', inl e)
           | (s', inr a) => k a s'
           end.

Definition mthrow {S E A} (e : E) : M S E A := fun s => (s, inl e).

Definition mget {S E} : M S E S := fun s => (s, inr s).

Definition mput {S E} (s : S) : M S E unit := fun _ => (s, inr tt).

(** Lift a pure computation that may fail. *)
Definition mlift {S E A} (r : E + A) : M S E A := fun s => (s, r).

Notation "x <- c ;; k" := (mbind c (fun x => k))
  (at level 100, c at next level, right associativity) : agent_scope.
Notation "c ;;; k" := (mbind c (fun _ => k))
  (at level 100, right associativity) : agent_scope.

(** The pure exception monad, for code that cannot touch the state. *)
Definition sbind {E A B} (r : E + A) (k : A -> E + B) : E + B :=
  match r with
  | inl e => inl e
  | inr a => k a
  end.

Notation "'let?' x := c 'in' k" := (sbind c (fun x => k))
  (at level 10, x name, c at level 100, k at level 200) : agent_scope.

(** [Array.prototype.map] with a callback that may throw: the elements are
    visited left to right and the first exception aborts the map. *)
Fixpoint smap {E A B} (f : A -> E + B) (l : list A) : E + list B :=
  match l with
  | [] => inr []
  | x :: l' =>
      match f x with
      | inl e => inl e
      | inr y => match smap f l' with
                 | inl e => inl e
                 | inr ys => inr (y :: ys)
                 end
      end
  end.

(** [mmap f l]: run [f] on the elements of [l] in order, stopping at the
    first exception, as a [for ... of] loop over [await f(x)] does. *)
Fixpoint mmap {S E A B} (f : A -> M S E B) (l : list A) : M S E (list B) :=
  match l with
  | [] => mret []
  | x :: l' => mbind (f x) (fun y => mbind (mmap f l') (fun ys => mret (y :: ys)))
  end.

Local Open Scope agent_scope.

(** ** Laws of the monad (pointwise, no extensionality needed) *)

Lemma mbind_ret_l {S E A B} (a : A) (k : A -> M S E B) s :
  mbind (mret a) k s = k a s.
Proof. reflexivity. Qed.

Lemma mbind_assoc {S E A B C} (m : M S E A) (f : A -> M S E B)
      (g : B -> M S E C) s :
  mbind (mbind m f) g s = mbind m (fun x => mbind (f x) g) s.
Proof. unfold mbind. destruct (m s) as [s' [e|a]]; reflexivity. Qed.

Lemma mbind_throw {S E A B} (e : E) (k : A -> M S E B) s :
  mbind (mthrow e) k s = (s, inl e).
Proof. reflexivity. Qed.

Lemma mbind_inr {S E A B} (m : M S E A) (k : A -> M S E B) s s' a :
  m s = (s', inr a) -> mbind m k s = k a s'.
Proof. unfold mbind. intros ->. reflexivity. Qed.

Lemma mbind_inl {S E A B} (m : M S E A) (k : A -> M S E B) s s' e :
  m s = (s', inl e) -> mbind m k s = (s', inl e).
Proof. unfold mbind. intros ->. reflexivity. Qed.

#[export] Hint Rewrite @mbind_ret_l @mbind_assoc @mbind_throw : agent_rw.

Lemma sbind_inr {E A B} (a : A) (k : A -> E + B) : sbind (inr a) k = k a.
Proof. reflexivity. Qed.

Lemma sbind_inl {E A B} (e : E) (k : A -> E + B) : sbind (inl e) k = inl e.
Proof. reflexivity. Qed.

#[export] Hint Rewrite @sbind_inr @sbind_inl : agent_rw.

(** [smap] succeeds exactly when the callback succeeds on every element,
    and then it is the ordinary [map]. *)
Lemma smap_inr {E A B} (f : A -> B) (l : list A) :
  @smap E A B (fun x => inr (f x)) l = inr (map f l).
Proof. induction l as [|x l IH]; simpl; [|rewrite IH]; reflexivity. Qed.

Lemma smap_ext {E A B} (f g : A -> E + B) (l : list A) :
  (forall x, In x l -> f x = g x) -> smap f l = smap g l.
Proof.
  induction l as [|x l IH]; intros H; simpl; [reflexivity|].
  rewrite (H x (or_introl eq_refl)), IH by (intros; apply H; right; assumption).
  reflexivity.
Qed.

Lemma smap_inl_iff {E A B} (f : A -> E + B) (l : list A) :
  (exists e, smap f l = inl e) <-> (exists x e, In x l /\ f x = inl e).
Proof.
  induction l as [|x l IH]; simpl.
  - split; [intros [e H]; discriminate | intros (y & e & [] & _)].
  - destruct (f x) as [e|y] eqn:Hf.
    + split; [intros _; exists x, e; auto | intros _; exists e; reflexivity].
    + destruct (smap f l) as [e|ys] eqn:Hl.
      * split; [|intros _; exists e; reflexivity].
        intros _. destruct (proj1 IH (ex_intro _ e eq_refl)) as (z & e' & Hin & Hz).
        exists z, e'. auto.
      * split; [intros [e H]; discriminate|].
        intros (z & e & [<- | Hin] & Hz); [congruence|].
        destruct (proj2 IH (ex_intro _ z (ex_intro _ e (conj Hin Hz)))) as [e' H'].
        discriminate.
Qed.

Lemma smap_inl {E A B} (f : A -> E + B) (l : list A) e :
  smap f l = inl e -> exists x, In x l /\ f x = inl e.
Proof.
  induction l as [|x l IH]; simpl; [discriminate|].
  destruct (f x) as [e'|y] eqn:Hf.
  - intros H. injection H as <-. eauto.
  - destruct (smap f l) as [e'|ys]; intros H; [|discriminate].
    injection H as <-. destruct (IH eq_refl) as (z & Hz & Hfz). eauto.
Qed.

Lemma smap_map {E A B C} (f : B -> E + C) (g : A -> B) (l : list A) :
  smap f (map g l) = smap (fun x => f (g x)) l.
Proof. induction l as [|x l IH]; simpl; [|rewrite IH]; reflexivity. Qed.

#[export] Hint Rewrite @smap_map @smap_inr : agent_rw.

(** ** Generic lemmas on lists and strings *)

(** The last element of a non-empty list does not depend on the
    default. *)
Lemma last_cons_default {A} (l : list A) (y d : A) : last (y :: l) d = last l y.
Proof.
  revert y d. induction l as [|z l IH]; intros y d; [reflexivity|].
  change (last (z :: l) d = last (z :: l) y). rewrite !IH. reflexivity.
Qed.

Lemma nth_error_last_app {A} (l : list A) (x : A) :
  nth_error (l ++ [x]) (length (l ++ [x]) - 1) = Some x.
Proof.
  rewrite length_app. simpl.
  replace (length l + 1 - 1) with (length l) by lia.
  rewrite nth_error_app2 by lia. rewrite Nat.sub_diag. reflexivity.
Qed.

Lemma string_append_assoc (a b c : string) :
  ((a ++ b) ++ c)%string = (a ++ (b ++ c))%string.
Proof. induction a as [|ch a IH]; simpl; [|rewrite IH]; reflexivity. Qed.

Lemma string_append_empty_r (a : string) : (a ++ "")%string = a.
Proof. induction a as [|ch a IH]; simpl; [|rewrite IH]; reflexivity. Qed.

#[export] Hint Rewrite string_append_assoc string_append_empty_r : agent_rw.

Lemma string_append_inj_l (p a b : string) :
  (p ++ a)%string = (p ++ b)%string -> a = b.
Proof.
  induction p as [|ch p IH]; simpl; [auto|].
  intros H. injection H as H. auto.
Qed.

(** ** Tactics shared by the components *)

(** Simplify monadic glue and rewrite with the component lemmas. *)
Ltac msimpl := repeat (autorewrite with agent_rw in *; simpl in *).

(** Invert an equation between sums or pairs produced by a run. *)
Ltac inv_sum :=
  repeat match goal with
         | H : inl _ = inl _ |- _ => injection H as H; subst
         | H : inr _ = inr _ |- _ => injection H as H; subst
         | H : inl _ = inr _ |- _ => discriminate H
         | H : inr _ = inl _ |- _ => discriminate H
         | H : (_, _) = (_, _) |- _ => injection H as; subst
         end.

(** [lia], after turning divisions and remainders by constants into
    equations when it needs them. *)
Ltac zlia := first [lia | Z.div_mod_to_equations; lia].

(** Case on the first integer comparison of the goal or of a hypothesis,
    closing the branches that contradict the arithmetic context. *)
Ltac zcase :=
  match goal with
  | |- context [Z.ltb ?a ?b] => destruct (Z.ltb_spec a b)
  | |- context [Z.leb ?a ?b] => destruct (Z.leb_spec a b)
  | |- context [Z.eqb ?a ?b] => destruct (Z.eqb_spec a b)
  | H : context [Z.ltb ?a ?b] |- _ => destruct (Z.ltb_spec a b)
  | H : context [Z.leb ?a ?b] |- _ => destruct (Z.leb_spec a b)
  | H : context [Z.eqb ?a ?b] |- _ => destruct (Z.eqb_spec a b)
  end; cbn [andb orb negb] in *; try discriminate; try zlia.
