(* ===== verification/JsValue.v ===== *)
(** * JavaScript values and the language operations the scripts use

    The scripts of src/ inspect values whose shape is only known at run
    time (a tool's result, an MCP resource, a model's answer).  This file
    gives those values a type, [jsval], and defines the operations of the
    language that the code applies to them, each as the ECMAScript
    specification defines it on the values of the model:
    truthiness (ToBoolean), [typeof], property and index reads (which
    throw a TypeError on [null] and [undefined]), [Array.isArray],
    ToString, [Array.prototype.join], [Array.prototype.map] with a
    throwing callback, [Object.entries] and [JSON.stringify] with its
    string escaping; both list the members of an object in the order of
    OrdinaryOwnPropertyKeys ([js_entries]). *)

From Stdlib Require Import String Ascii List ZArith NArith Lia DecimalString Permutation.
From S2P Require Import Prelude.
Import ListNotations.
Local Open Scope string_scope.
Local Open Scope agent_scope.

(** ** Values *)

#[warnings="-register-all"]
Inductive jsval : Type :=
| JUndefined
| JNull
| JBool (b : bool)
| JNum (n : Z)
| JStr (s : string)
| JArr (xs : list jsval)
| JObj (props : list (string * jsval)).

(** Exceptions: a [TypeError] raised by the language itself, or any
    value thrown by a library (a failed HTTP request, a tool error). *)
Inductive js_exn : Type :=
| TypeError (msg : string)
| Thrown (v : jsval).

(** Characters the code writes as escapes in its literals. *)
Definition ch (n : nat) : string := String (ascii_of_nat n) EmptyString.
Definition nl : string := ch 10.
Definition dq : string := ch 34.
Definition bs : string := ch 92.

(** ** Truthiness, typeof, Array.isArray *)

(** ToBoolean: [undefined], [null], [false], [0] and [""] are falsy;
    every object and array is truthy. *)
Definition truthy (v : jsval) : bool :=
  match v with
  | JUndefined | JNull => false
  | JBool b => b
  | JNum n => negb (Z.eqb n 0)
  | JStr s => negb (String.eqb s "")
  | JArr _ | JObj _ => true
  end.

Definition typeof (v : jsval) : string :=
  match v with
  | JUndefined => "undefined"
  | JNull | JArr _ | JObj _ => "object"
  | JBool _ => "boolean"
  | JNum _ => "number"
  | JStr _ => "string"
  end.

Definition is_array (v : jsval) : bool :=
  match v with JArr _ => true | _ => false end.

(** [v === "lit"] against a string literal. *)
Definition strict_eq_str (v : jsval) (lit : string) : bool :=
  match v with JStr s => String.eqb s lit | _ => false end.

(** ** Property and index reads *)

Fixpoint assoc_get (k : string) (ps : list (string * jsval)) : option jsval :=
  match ps with
  | [] => None
  | (k', x) :: ps' => if String.eqb k k' then Some x else assoc_get k ps'
  end.

(** An own data property of a plain object, [undefined] when absent. *)
Definition obj_get (ps : list (string * jsval)) (k : string) : jsval :=
  match assoc_get k ps with Some x => x | None => JUndefined end.

Definition read_error (base p : string) : js_exn :=
  TypeError ("Cannot read properties of " ++ base ++ " (reading '" ++ p ++ "')").

(** [v.p]: reading a property of [undefined] or [null] throws; the names
    the code reads are not properties of primitives or arrays. *)
Definition get_prop (v : jsval) (p : string) : js_exn + jsval :=
  match v with
  | JUndefined => inl (read_error "undefined" p)
  | JNull => inl (read_error "null" p)
  | JObj ps => inr (obj_get ps p)
  | _ => inr JUndefined
  end.

(** [v[i]] for an integer index: an array's element or [undefined] past
    its end, an object's property named by the index, a string's
    character; a TypeError on [undefined] and [null]. *)
Definition get_index (v : jsval) (i : nat) : js_exn + jsval :=
  match v with
  | JUndefined => inl (read_error "undefined" (NilZero.string_of_int (Nat.to_int i)))
  | JNull => inl (read_error "null" (NilZero.string_of_int (Nat.to_int i)))
  | JArr xs => inr (match nth_error xs i with Some x => x | None => JUndefined end)
  | JObj ps => inr (obj_get ps (NilZero.string_of_int (Nat.to_int i)))
  | JStr s => inr (match String.get i s with Some c => JStr (String c EmptyString) | None => JUndefined end)
  | _ => inr JUndefined
  end.

(** ** Object.entries and iteration *)

(** The value of a decimal numeral without leading zeros. *)
Fixpoint digits_value (s : string) (acc : N) : option N :=
  match s with
  | EmptyString => Some acc
  | String c rest =>
      let n := nat_of_ascii c in
      if andb (Nat.leb 48 n) (Nat.leb n 57)
      then digits_value rest (acc * 10 + N.of_nat (n - 48))%N
      else None
  end.

(** An array index: the canonical numeral of an integer below 2^32 - 1. *)
Definition array_index (k : string) : option N :=
  match k with
  | EmptyString => None
  | String c rest =>
      if Nat.eqb (nat_of_ascii c) 48 then
        match rest with EmptyString => Some 0%N | _ => None end
      else match digits_value k 0 with
           | Some n => if N.ltb n 4294967295 then Some n else None
           | None => None
           end
  end.

Definition is_index_key {A} (kv : string * A) : bool :=
  match array_index (fst kv) with Some _ => true | None => false end.

Definition index_of {A} (kv : string * A) : N :=
  match array_index (fst kv) with Some n => n | None => 0%N end.

Fixpoint insert_by_index {A} (kv : string * A) (l : list (string * A)) : list (string * A) :=
  match l with
  | [] => [kv]
  | kv' :: l' => if N.leb (index_of kv) (index_of kv') then kv :: l
                 else kv' :: insert_by_index kv l'
  end.

(** OrdinaryOwnPropertyKeys: the array-index keys in ascending numeric
    order, then the other keys in the order they were created. *)
Definition js_entries {A} (ps : list (string * A)) : list (string * A) :=
  fold_right insert_by_index [] (filter is_index_key ps)
  ++ filter (fun kv => negb (is_index_key kv)) ps.

Definition index_key (i : nat) : string := NilZero.string_of_int (Nat.to_int i).

(** [Object.entries(v)]. *)
Definition object_entries (v : jsval) : js_exn + list (string * jsval) :=
  match v with
  | JUndefined | JNull => inl (TypeError "Cannot convert undefined or null to object")
  | JObj ps => inr (js_entries ps)
  | JArr xs => inr (combine (map index_key (seq 0 (length xs))) xs)
  | JStr s => inr (combine (map index_key (seq 0 (String.length s)))
                           (map (fun c => JStr (String c EmptyString)) (list_ascii_of_string s)))
  | _ => inr []
  end.

(** The values a [for ... of] loop visits: an array's elements, a
    string's characters; anything else is not iterable. *)
Definition js_iterate (v : jsval) : js_exn + list jsval :=
  match v with
  | JArr xs => inr xs
  | JStr s => inr (map (fun c => JStr (String c EmptyString)) (list_ascii_of_string s))
  | _ => inl (TypeError "object is not iterable")
  end.

(** ** Numbers and ToString *)

(** Number::toString on an integer (below 10^21 in magnitude). *)
Definition number_to_string (n : Z) : string :=
  NilZero.string_of_int (Z.to_int n).

(** The element conversion of [Array.prototype.join]: [undefined] and
    [null] become the empty string. *)
Definition join_elem (to_s : jsval -> string) (v : jsval) : string :=
  match v with
  | JUndefined | JNull => ""
  | _ => to_s v
  end.

Fixpoint to_js_string (v : jsval) : string :=
  match v with
  | JUndefined => "undefined"
  | JNull => "null"
  | JBool true => "true"
  | JBool false => "false"
  | JNum n => number_to_string n
  | JStr s => s
  | JArr xs => String.concat "," (map (join_elem to_js_string) xs)
  | JObj _ => "[object Object]"
  end.

(** [xs.join(sep)]. *)
Definition array_join (sep : string) (xs : list jsval) : string :=
  String.concat sep (map (join_elem to_js_string) xs).

(** [v.map(f)]: a TypeError when [v] is not an array (it has no [map]
    method, or it is [null]/[undefined]); otherwise the callback runs on
    each element in order and the first exception aborts. *)
Definition array_map (f : jsval -> js_exn + jsval) (v : jsval)
  : js_exn + list jsval :=
  match v with
  | JArr xs => smap f xs
  | JUndefined => inl (read_error "undefined" "map")
  | JNull => inl (read_error "null" "map")
  | _ => inl (TypeError "map is not a function")
  end.

(** ** JSON.stringify *)

Definition hex_digit (n : nat) : ascii :=
  if Nat.ltb n 10 then ascii_of_nat (48 + n) else ascii_of_nat (87 + n).

(** QuoteJSONString, one code unit: the two-character escapes, a [\u00xx]
    escape (lower-case hex) for the other control characters, and the
    character itself otherwise. *)
Definition escape_char (c : ascii) : string :=
  let n := nat_of_ascii c in
  if Nat.eqb n 34 then bs ++ dq
  else if Nat.eqb n 92 then bs ++ bs
  else if Nat.eqb n 8 then bs ++ "b"
  else if Nat.eqb n 12 then bs ++ "f"
  else if Nat.eqb n 10 then bs ++ "n"
  else if Nat.eqb n 13 then bs ++ "r"
  else if Nat.eqb n 9 then bs ++ "t"
  else if Nat.ltb n 32 then
    bs ++ "u00" ++ String (hex_digit (n / 16)) (String (hex_digit (n mod 16)) EmptyString)
  else String c EmptyString.

Fixpoint escape_string (s : string) : string :=
  match s with
  | EmptyString => EmptyString
  | String c s' => escape_char c ++ escape_string s'
  end.

Definition json_quote (s : string) : string := dq ++ escape_string s ++ dq.

(** [JSON.stringify(v)]: [None] stands for the [undefined] it returns on
    [undefined]; inside an array such an element prints as [null], inside
    an object the member is left out.  The members are written in the
    order of OrdinaryOwnPropertyKeys ([js_entries]); each value is
    stringified on its own, so it does not matter that the model
    stringifies them before ordering them. *)
Fixpoint json_stringify (v : jsval) : option string :=
  match v with
  | JUndefined => None
  | JNull => Some "null"
  | JBool true => Some "true"
  | JBool false => Some "false"
  | JNum n => Some (number_to_string n)
  | JStr s => Some (json_quote s)
  | JArr xs =>
      Some ("[" ++ String.concat ","
                 (map (fun x => match json_stringify x with
                                | Some s => s
                                | None => "null"
                                end) xs) ++ "]")
  | JObj ps =>
      Some ("{" ++ String.concat ","
                 (flat_map (fun kv => match snd kv with
                                      | Some s => [json_quote (fst kv) ++ ":" ++ s]
                                      | None => []
                                      end)
                    (js_entries (map (fun kv => (fst kv, json_stringify (snd kv))) ps)))
            ++ "}")
  end.

(** ** Hexadecimal digits (of the escapes of template literals) *)

Definition hex_value (c : ascii) : option nat :=
  let n := nat_of_ascii c in
  if andb (Nat.leb 48 n) (Nat.leb n 57) then Some (n - 48)
  else if andb (Nat.leb 97 n) (Nat.leb n 102) then Some (n - 87)
  else if andb (Nat.leb 65 n) (Nat.leb n 70) then Some (n - 55)
  else None.

(** ** Structural induction on values

    [jsval] is nested through [list] and [prod]; the generated principle
    gives no hypothesis for the elements, so the principle below does,
    in the style of the JSON models of verified query compilers. *)

Section JsvalInd.
Variable P : jsval -> Prop.
Hypothesis P_undef : P JUndefined.
Hypothesis P_null : P JNull.
Hypothesis P_bool : forall b, P (JBool b).
Hypothesis P_num : forall n, P (JNum n).
Hypothesis P_str : forall s, P (JStr s).
Hypothesis P_arr : forall xs, Forall P xs -> P (JArr xs).
Hypothesis P_obj : forall ps, Forall (fun kv => P (snd kv)) ps -> P (JObj ps).

Fixpoint jsval_ind' (v : jsval) : P v :=
  match v with
  | JUndefined => P_undef
  | JNull => P_null
  | JBool b => P_bool b
  | JNum n => P_num n
  | JStr s => P_str s
  | JArr xs =>
      P_arr xs ((fix go (l : list jsval) : Forall P l :=
                   match l with
                   | [] => Forall_nil _
                   | x :: l' => Forall_cons _ (jsval_ind' x) (go l')
                   end) xs)
  | JObj ps =>
      P_obj ps ((fix go (l : list (string * jsval)) : Forall (fun kv => P (snd kv)) l :=
                   match l with
                   | [] => Forall_nil _
                   | kv :: l' => Forall_cons _ (jsval_ind' (snd kv)) (go l')
                   end) ps)
  end.
End JsvalInd.

(** ** Lemmas on the operations *)

Lemma get_prop_obj ps p : get_prop (JObj ps) p = inr (obj_get ps p).
Proof. reflexivity. Qed.

(** Reading a property of a truthy value never throws. *)
Lemma get_prop_truthy v p :
  truthy v = true -> exists x, get_prop v p = inr x.
Proof. destruct v; simpl; try discriminate; eauto. Qed.

Lemma get_prop_inl v p e :
  get_prop v p = inl e -> v = JUndefined \/ v = JNull.
Proof. destruct v; simpl; intros H; try discriminate; auto. Qed.

#[export] Hint Rewrite get_prop_obj : agent_rw.

(** [JSON.stringify] returns a string for every value but [undefined]. *)
Lemma json_stringify_None v : json_stringify v = None <-> v = JUndefined.
Proof. destruct v as [| | [] | | | |]; simpl; split; congruence. Qed.

Lemma json_stringify_defined v :
  v <> JUndefined -> exists s, json_stringify v = Some s.
Proof.
  intros H. destruct (json_stringify v) as [s|] eqn:E; [eauto|].
  apply json_stringify_None in E. contradiction.
Qed.

Lemma length_append (a b : string) :
  String.length (a ++ b) = String.length a + String.length b.
Proof. induction a as [|c a IH]; simpl; [|rewrite IH]; reflexivity. Qed.

(** ** Object.entries *)

Lemma insert_by_index_perm {A} (kv : string * A) l : Permutation (insert_by_index kv l) (kv :: l).
Proof.
  induction l as [|kv' l IH]; simpl; [reflexivity|].
  destruct (N.leb _ _); [reflexivity|].
  rewrite IH. apply perm_swap.
Qed.

Lemma fold_insert_perm {A} (l : list (string * A)) : Permutation (fold_right insert_by_index [] l) l.
Proof.
  induction l as [|kv l IH]; simpl; [reflexivity|].
  rewrite insert_by_index_perm, IH. reflexivity.
Qed.

Lemma filter_split_perm {A} (f : A -> bool) (l : list A) :
  Permutation (filter f l ++ filter (fun x => negb (f x)) l) l.
Proof.
  induction l as [|x l IH]; simpl; [reflexivity|].
  destruct (f x); simpl; [rewrite IH; reflexivity|].
  rewrite <- Permutation_middle, IH. reflexivity.
Qed.

(** The entries of an object are its properties, reordered. *)
Lemma js_entries_perm {A} (ps : list (string * A)) : Permutation (js_entries ps) ps.
Proof.
  unfold js_entries. rewrite fold_insert_perm. apply filter_split_perm.
Qed.

(** An object none of whose keys is an array index lists its entries in
    the order its properties were created. *)
Lemma js_entries_no_index {A} (ps : list (string * A)) :
  forallb (fun kv => negb (is_index_key kv)) ps = true -> js_entries ps = ps.
Proof.
  intros H. unfold js_entries.
  assert (E : filter is_index_key ps = []).
  { induction ps as [|kv ps IH]; simpl in *; [reflexivity|].
    apply andb_prop in H. destruct H as [H1 H2].
    destruct (is_index_key kv); [discriminate|]. exact (IH H2). }
  rewrite E. simpl. apply forallb_filter_id. exact H.
Qed.
