(* ===== verification/JsString.v ===== *)
(** * JavaScript strings over UTF-8 bytes: [length] and template literals

    The development writes strings as byte strings: every non-ASCII
    character of a script is written as its UTF-8 bytes.  A JavaScript
    string, however, is a sequence of UTF-16 code units, and two language
    operations the scripts use see that difference:

    - [s.length] (the [character length] printed by the two splitter
      scripts, line 29 and line 87, and the [Total characters] of
      loader-and-splitter.mjs line 44) counts UTF-16 code units.
      [js_length] computes it by scanning the bytes: one unit for each
      lead byte, two for the lead byte of a four-byte sequence (a code
      point above U+FFFF, a surrogate pair in UTF-16), none for the
      continuation bytes.
    - A template literal without substitutions (the [latexText] and
      [readmeText] constants) denotes its template value: the raw source
      text with its escape sequences replaced and its line terminators
      normalised.  [cook_template] computes that value, or [None] where
      the literal would be a syntax error. *)

From Stdlib Require Import String Ascii List ZArith Lia.
From S2P Require Import Prelude JsValue.
Import ListNotations.
Local Open Scope Z_scope.
Local Open Scope bool_scope.

(** ** Bytes *)

Definition byte (c : ascii) : Z := Z.of_nat (nat_of_ascii c).

Definition of_byte (z : Z) : ascii := ascii_of_nat (Z.to_nat z).

(** A UTF-8 continuation byte, [10xxxxxx]. *)
Definition is_cont (c : ascii) : bool := (128 <=? byte c) && (byte c <? 192).

(** ** [String.prototype.length] *)

(** The scan: one code unit for every lead byte, two for the lead byte of
    a four-byte sequence (a code point above U+FFFF, written in UTF-16 as
    a surrogate pair), none for continuation bytes. *)
Fixpoint js_length (s : string) : nat :=
  match s with
  | EmptyString => O
  | String c s' =>
      Nat.add (if is_cont c then O else if 240 <=? byte c then 2%nat else 1%nat) (js_length s')
  end.

(** ** UTF-8 encoding of a code point (the [\u] escapes) *)

(** A Unicode scalar value: a code point that is not a surrogate. *)
Definition is_scalar (cp : Z) : bool :=
  (0 <=? cp) && (cp <? 55296) || (57344 <=? cp) && (cp <=? 1114111).

Definition utf8_encode_cp (cp : Z) : string :=
  if cp <? 128 then String (of_byte cp) EmptyString
  else if cp <? 2048 then
    String (of_byte (192 + cp / 64)) (String (of_byte (128 + cp mod 64)) EmptyString)
  else if cp <? 65536 then
    String (of_byte (224 + cp / 4096))
      (String (of_byte (128 + (cp / 64) mod 64)) (String (of_byte (128 + cp mod 64)) EmptyString))
  else
    String (of_byte (240 + cp / 262144))
      (String (of_byte (128 + (cp / 4096) mod 64))
         (String (of_byte (128 + (cp / 64) mod 64)) (String (of_byte (128 + cp mod 64)) EmptyString))).

(** ** Template literals *)

(** The single-character escapes [\b \t \n \v \f \r]. *)
Definition single_escape (e : ascii) : option ascii :=
  match nat_of_ascii e with
  | 98 => Some (ascii_of_nat 8)
  | 116 => Some (ascii_of_nat 9)
  | 110 => Some (ascii_of_nat 10)
  | 118 => Some (ascii_of_nat 11)
  | 102 => Some (ascii_of_nat 12)
  | 114 => Some (ascii_of_nat 13)
  | _ => None
  end%nat.

Definition is_decimal (c : ascii) : bool := (48 <=? byte c) && (byte c <=? 57).

Definition hex2 (h1 h2 : ascii) : option Z :=
  match hex_value h1, hex_value h2 with
  | Some a, Some b => Some (Z.of_nat a * 16 + Z.of_nat b)
  | _, _ => None
  end.

(** The template value (TV) of the body of a template literal without
    substitutions, as ECMAScript 2024 section 12.9.6 defines it:
    - [\] followed by [b t n v f r] gives the control character, by
      [0] (not before a digit) NUL, by [xHH] and [uHHHH] the code point
      (written in UTF-8), by a line terminator nothing (a line
      continuation), and by any other character that character itself;
      [\1]-[\9], [\0] before a digit and malformed [\x] and [\u] escapes
      are syntax errors;
    - a CR or CR LF in the source becomes LF;
    - an unescaped backquote would end the literal and [${] would start
      a substitution: neither belongs to the body of a literal without
      substitutions.
    [\u{...}] escapes and [\u] escapes of lone surrogates (not
    representable in UTF-8) are rejected; no literal of the scripts has
    one. *)
Fixpoint cook_template (s : string) : option string :=
  match s with
  | EmptyString => Some EmptyString
  | String c r =>
      let b := byte c in
      if b =? 92 then
        match r with
        | EmptyString => None
        | String e r' =>
            let be := byte e in
            match single_escape e with
            | Some x => option_map (String x) (cook_template r')
            | None =>
                if be =? 48 then
                  match r' with
                  | String d _ => if is_decimal d then None
                                  else option_map (String (ascii_of_nat 0)) (cook_template r')
                  | EmptyString => option_map (String (ascii_of_nat 0)) (cook_template r')
                  end
                else if (49 <=? be) && (be <=? 57) then None
                else if be =? 120 then
                  match r' with
                  | String h1 (String h2 r'') =>
                      match hex2 h1 h2 with
                      | Some v => option_map (append (utf8_encode_cp v)) (cook_template r'')
                      | None => None
                      end
                  | _ => None
                  end
                else if be =? 117 then
                  match r' with
                  | String h1 (String h2 (String h3 (String h4 r''))) =>
                      match hex2 h1 h2, hex2 h3 h4 with
                      | Some hi, Some lo =>
                          let v := hi * 256 + lo in
                          if is_scalar v then option_map (append (utf8_encode_cp v)) (cook_template r'')
                          else None
                      | _, _ => None
                      end
                  | _ => None
                  end
                else if be =? 10 then cook_template r'
                else if be =? 13 then
                  match r' with
                  | String d r'' => if byte d =? 10 then cook_template r'' else cook_template r'
                  | EmptyString => cook_template r'
                  end
                else if be =? 226 then
                  (* U+2028 and U+2029, E2 80 A8 / E2 80 A9 *)
                  match r' with
                  | String d1 (String d2 r'') =>
                      if (byte d1 =? 128) && ((byte d2 =? 168) || (byte d2 =? 169))
                      then cook_template r''
                      else option_map (String e) (cook_template r')
                  | _ => option_map (String e) (cook_template r')
                  end
                else option_map (String e) (cook_template r')
            end
        end
      else if b =? 13 then
        match r with
        | String d r' => if byte d =? 10 then option_map (String (ascii_of_nat 10)) (cook_template r')
                         else option_map (String (ascii_of_nat 10)) (cook_template r)
        | EmptyString => Some (String (ascii_of_nat 10) EmptyString)
        end
      else if b =? 96 then None
      else if b =? 36 then
        match r with
        | String d _ => if byte d =? 123 then None else option_map (String c) (cook_template r)
        | EmptyString => Some (String c EmptyString)
        end
      else option_map (String c) (cook_template r)
  end.

(** The value of a literal the scripts contain (each is checked to cook). *)
Definition cooked (raw : string) : string :=
  match cook_template raw with Some s => s | None => EmptyString end.

(** Occurrences of a byte. *)
Fixpoint count_byte (n : Z) (s : string) : nat :=
  match s with
  | EmptyString => O
  | String c s' => Nat.add (if byte c =? n then 1%nat else O) (count_byte n s')
  end.

(** ** Lemmas on bytes *)

Lemma byte_range c : 0 <= byte c < 256.
Proof. unfold byte. pose proof (nat_ascii_bounded c). lia. Qed.

Lemma byte_of_byte z : 0 <= z < 256 -> byte (of_byte z) = z.
Proof.
  intros Hz. unfold byte, of_byte. rewrite nat_ascii_embedding by lia. lia.
Qed.

#[export] Hint Rewrite byte_of_byte using lia : agent_rw.

Lemma js_length_app s t : js_length (s ++ t) = (js_length s + js_length t)%nat.
Proof. induction s as [|c s IH]; cbn; [reflexivity|]. rewrite IH. lia. Qed.

(** ** Template literals *)

(** A byte the cooking copies unchanged: not a backslash, CR, backquote
    or dollar sign. *)
Definition plain_byte (c : ascii) : bool :=
  negb ((byte c =? 92) || (byte c =? 13) || (byte c =? 96) || (byte c =? 36)).

Fixpoint all_bytes (p : ascii -> bool) (s : string) : bool :=
  match s with
  | EmptyString => true
  | String c s' => p c && all_bytes p s'
  end.

(** A literal body without backslashes, CRs, backquotes or dollar
    signs denotes its source text unchanged. *)
Theorem cook_template_plain s :
  all_bytes plain_byte s = true -> cook_template s = Some s.
Proof.
  induction s as [|c s IH]; cbn [all_bytes cook_template]; [reflexivity|].
  intros H. apply andb_prop in H as [Hc Hs]. unfold plain_byte in Hc.
  repeat zcase. rewrite IH by exact Hs. reflexivity.
Qed.

(** ** Examples *)

Lemma cook_template_plain_witness :
  all_bytes plain_byte "MIT License"%string = true /\ cook_template "MIT License"%string = Some "MIT License"%string.
Proof. split; [vm_compute; reflexivity | apply cook_template_plain; vm_compute; reflexivity]. Defined.
