(* ===== verification/ToolResult.v ===== *)
(** * Normalisation of a tool's result (mcp-test.mjs, lines 79-95)

    [runWithTools] wraps the result of every tool call in a
    [ToolMessage], after turning it into a string "to make sure content
    is a string" (the comment of line 79).  The code probes the value in
    sequence: a string is kept; an object whose [content] is an array
    has the [text] of its text parts joined by newlines; an object with a
    truthy [text] gives that [text]; anything else is JSON-encoded.

    [normalizeToolResult] is that code, statement by statement.  The
    module [Shape] is the abstract specification the design notes of the
    spec (section 9) ask for: a tagged union of result shapes with one
    conversion per shape.  The theorem [normalize_refines_shape] proves
    that the probing code computes exactly the tagged-union conversion. *)

From Stdlib Require Import String Ascii List ZArith Lia.
From S2P Require Import Prelude JsValue.
Import ListNotations.
Local Open Scope string_scope.
Local Open Scope agent_scope.

(** ** The code *)

(** The callback of line 89: [(c) => (c.type === "text" ? c.text : "")]. *)
Definition text_part (c : jsval) : js_exn + jsval :=
  let? t := get_prop c "type" in
  if strict_eq_str t "text" then get_prop c "text" else inr (JStr "").

(** The truthiness of [v && v.p]: [v.p] is read only when [v] is truthy. *)
Definition truthy_prop (v : jsval) (p : string) : js_exn + bool :=
  if truthy v then
    let? x := get_prop v p in inr (truthy x)
  else inr false.

(** Lines 80-95.  The result is the final value of [contentStr]. *)
Definition normalizeToolResult (toolResult : jsval) : js_exn + jsval :=
  if String.eqb (typeof toolResult) "string" then inr toolResult
  else
    (* toolResult && toolResult.content && Array.isArray(toolResult.content) *)
    let? has_content := truthy_prop toolResult "content" in
    let? parts_case :=
      (if has_content then
         let? c := get_prop toolResult "content" in inr (is_array c)
       else inr false) in
    if parts_case then
      let? c := get_prop toolResult "content" in
      let? mapped := array_map text_part c in
      inr (JStr (array_join nl mapped))
    else
      let? has_text := truthy_prop toolResult "text" in
      if has_text then get_prop toolResult "text"
      else inr (match json_stringify toolResult with
                | Some s => JStr s
                | None => JUndefined
                end).

(** ** The abstract specification: a tagged union of result shapes *)

Module Shape.

Inductive t : Type :=
| StringResult (s : string)
| ContentPartsResult (parts : list jsval)
| TextFieldResult (text : jsval)
| Opaque (v : jsval).

(** Which shape a value has: only plain objects carry [content] or
    [text]; a truthy [text] counts only when [content] is not an array. *)
Definition classify (v : jsval) : t :=
  match v with
  | JStr s => StringResult s
  | JObj ps =>
      match obj_get ps "content" with
      | JArr parts => ContentPartsResult parts
      | _ => if truthy (obj_get ps "text") then TextFieldResult (obj_get ps "text")
             else Opaque v
      end
  | _ => Opaque v
  end.

(** The string a content part contributes: the text of a text part
    (empty when it has none), the empty string for any other part, and
    an error for a part that is [null] or [undefined]. *)
Definition part_text (ps : list (string * jsval)) : string :=
  if strict_eq_str (obj_get ps "type") "text"
  then join_elem to_js_string (obj_get ps "text")
  else "".

Definition part_string (c : jsval) : js_exn + string :=
  match c with
  | JUndefined => inl (read_error "undefined" "type")
  | JNull => inl (read_error "null" "type")
  | JObj ps => inr (part_text ps)
  | _ => inr ""
  end.

Definition encode (v : jsval) : jsval :=
  match json_stringify v with Some s => JStr s | None => JUndefined end.

(** One conversion per shape. *)
Definition normalize (sh : t) : js_exn + jsval :=
  match sh with
  | StringResult s => inr (JStr s)
  | ContentPartsResult parts =>
      let? ss := smap part_string parts in inr (JStr (String.concat nl ss))
  | TextFieldResult x => inr x
  | Opaque v => inr (encode v)
  end.

End Shape.

(** ** Lemmas *)

Lemma text_part_string (c : jsval) :
  sbind (text_part c) (fun x => inr (join_elem to_js_string x)) = Shape.part_string c.
Proof.
  destruct c; try reflexivity. unfold text_part, Shape.part_string, Shape.part_text.
  cbn -[obj_get]. destruct (strict_eq_str _ "text"); reflexivity.
Qed.

Lemma smap_text_part (parts : list jsval) :
  sbind (smap text_part parts) (fun ys => inr (JStr (array_join nl ys)))
  = sbind (smap Shape.part_string parts) (fun ss => inr (JStr (String.concat nl ss))).
Proof.
  unfold array_join.
  assert (H : forall l : list jsval,
             sbind (smap text_part l) (fun ys => inr (map (join_elem to_js_string) ys))
             = smap Shape.part_string l).
  { induction l as [|c l IH]; [reflexivity|].
    simpl. rewrite <- text_part_string.
    destruct (text_part c) as [e|y]; [reflexivity|]. simpl.
    destruct (smap text_part l); simpl in *; rewrite <- IH; reflexivity. }
  rewrite <- H. destruct (smap text_part parts); reflexivity.
Qed.

Lemma truthy_prop_obj ps p : truthy_prop (JObj ps) p = inr (truthy (obj_get ps p)).
Proof. reflexivity. Qed.

#[export] Hint Rewrite truthy_prop_obj : agent_rw.

(** ** Theorems *)

(** The probing code and the tagged-union conversion agree on every
    value. *)
Lemma normalize_eq_shape (v : jsval) :
  normalizeToolResult v = Shape.normalize (Shape.classify v).
Proof.
  destruct v as [| | [] | [|p|p] | s | xs | ps]; try reflexivity.
  unfold normalizeToolResult, Shape.classify.
  cbn -[obj_get json_stringify smap array_join].
  destruct (obj_get ps "content") as [| | b | n | s | parts | qs];
    cbn -[obj_get json_stringify smap array_join];
    try apply smap_text_part;
    repeat match goal with |- context [if ?c then _ else _] => destruct c end;
    reflexivity.
Qed.

(** C5: the normalisation, written as the code probes the value, computes
    exactly the conversion of the tagged-union specification: classify
    the result's shape, then apply that shape's conversion. *)
Theorem normalize_refines_shape (v : jsval) :
  normalizeToolResult v = Shape.normalize (Shape.classify v).
Proof. apply normalize_eq_shape. Qed.

Lemma part_string_inl c e :
  Shape.part_string c = inl e ->
  (c = JUndefined \/ c = JNull) /\ exists msg, e = TypeError msg.
Proof. destruct c; simpl; intros H; inv_sum; try discriminate; split; auto; eexists; reflexivity. Qed.

Lemma classify_obj_parts ps parts :
  obj_get ps "content" = JArr parts ->
  Shape.classify (JObj ps) = Shape.ContentPartsResult parts.
Proof. intros H. unfold Shape.classify. rewrite H. reflexivity. Qed.

Lemma classify_obj_other ps :
  is_array (obj_get ps "content") = false ->
  Shape.classify (JObj ps) =
  if truthy (obj_get ps "text") then Shape.TextFieldResult (obj_get ps "text")
  else Shape.Opaque (JObj ps).
Proof. intros H. unfold Shape.classify. destruct (obj_get ps "content"); try discriminate; reflexivity. Qed.

(** A result that is already a string is passed through unchanged. *)
Theorem normalize_string (s : string) :
  normalizeToolResult (JStr s) = inr (JStr s).
Proof. reflexivity. Qed.

(** C25: for a result whose [content] is an array of objects, the
    normalised string is the newline-separated list of one entry per
    part: the text of a text part, the empty string for any other part.
    Non-text parts are not dropped: they leave an empty line. *)
Theorem normalize_content_parts (ps : list (string * jsval))
        (pss : list (list (string * jsval))) :
  obj_get ps "content" = JArr (map JObj pss) ->
  normalizeToolResult (JObj ps) = inr (JStr (String.concat nl (map Shape.part_text pss))).
Proof.
  intros H. rewrite normalize_eq_shape, (classify_obj_parts _ _ H).
  simpl. msimpl. reflexivity.
Qed.

Lemma normalize_content_parts_witness :
  obj_get [("content", JArr (map JObj [[("type", JStr "text"); ("text", JStr "A")]]))] "content"
  = JArr (map JObj [[("type", JStr "text"); ("text", JStr "A")]]) /\
  normalizeToolResult (JObj [("content", JArr (map JObj [[("type", JStr "text"); ("text", JStr "A")]]))])
  = inr (JStr (String.concat nl (map Shape.part_text [[("type", JStr "text"); ("text", JStr "A")]]))).
Proof. split; [reflexivity | apply normalize_content_parts; reflexivity]. Defined.

(** An object whose [content] is not an array and whose [text] is
    truthy normalises to that [text] value, whatever its type. *)
Theorem normalize_text_field (ps : list (string * jsval)) :
  is_array (obj_get ps "content") = false ->
  truthy (obj_get ps "text") = true ->
  normalizeToolResult (JObj ps) = inr (obj_get ps "text").
Proof.
  intros Ha Ht. rewrite normalize_eq_shape, (classify_obj_other _ Ha), Ht.
  reflexivity.
Qed.

(** C33: an object with neither an array [content] nor a truthy [text]
    (an empty [text] included) normalises to its JSON encoding. *)
Theorem normalize_fallback (ps : list (string * jsval)) (s : string) :
  is_array (obj_get ps "content") = false ->
  truthy (obj_get ps "text") = false ->
  json_stringify (JObj ps) = Some s ->
  normalizeToolResult (JObj ps) = inr (JStr s).
Proof.
  intros Ha Ht Hs. rewrite normalize_eq_shape, (classify_obj_other _ Ha), Ht.
  simpl. unfold Shape.encode. rewrite Hs. reflexivity.
Qed.

Lemma normalize_fallback_witness :
  is_array (obj_get [("text", JStr "")] "content") = false /\
  truthy (obj_get [("text", JStr "")] "text") = false /\
  json_stringify (JObj [("text", JStr "")]) = Some ("{" ++ json_quote "text" ++ ":" ++ json_quote "" ++ "}") /\
  normalizeToolResult (JObj [("text", JStr "")])
  = inr (JStr ("{" ++ json_quote "text" ++ ":" ++ json_quote "" ++ "}")).
Proof.
  split; [reflexivity|]. split; [reflexivity|]. split; [reflexivity|].
  apply normalize_fallback; reflexivity.
Defined.

(** C27: the normalisation throws exactly when the result is an object
    whose [content] array holds a [null] or [undefined] part, and what it
    throws is a TypeError (reading [type] of that part). *)
Theorem normalize_throws_iff (v : jsval) :
  (exists e, normalizeToolResult v = inl e) <->
  exists ps parts, v = JObj ps /\ obj_get ps "content" = JArr parts /\
                   (In JUndefined parts \/ In JNull parts).
Proof.
  rewrite normalize_eq_shape. split.
  - intros [e He].
    destruct v as [| | b | n | s | xs | ps]; cbn -[obj_get smap] in He; try discriminate.
    destruct (obj_get ps "content") as [| | b | n | s | parts | qs] eqn:Hc;
      cbn -[obj_get smap] in He; try (destruct (truthy _); discriminate).
    destruct (smap Shape.part_string parts) as [e'|ss] eqn:Hs; [|discriminate].
    destruct (smap_inl _ _ _ Hs) as (c & Hin & Hc').
    destruct (part_string_inl _ _ Hc') as [[-> | ->] _]; eauto 7.
  - intros (ps & parts & -> & Hc & Hin). rewrite (classify_obj_parts _ _ Hc). simpl.
    destruct (smap Shape.part_string parts) as [e|ss] eqn:Hs; [simpl; eauto|].
    exfalso. assert (Hl : exists x e, In x parts /\ Shape.part_string x = inl e)
      by (destruct Hin; eexists _, _; split; eauto; reflexivity).
    apply smap_inl_iff in Hl. destruct Hl as [e1 He1]. congruence.
Qed.

(** The exceptions of the normalisation are TypeErrors. *)
Lemma normalize_throws_TypeError (v : jsval) e :
  normalizeToolResult v = inl e -> exists msg, e = TypeError msg.
Proof.
  rewrite normalize_eq_shape.
  destruct (Shape.classify v); simpl; try discriminate.
  destruct (smap Shape.part_string parts) eqn:Hs; intros H; simpl in H; inv_sum.
  destruct (smap_inl _ _ _ Hs) as (c & _ & Hc). apply (part_string_inl _ _ Hc).
Qed.

(** C26: contrary to the comment of line 79 ("make sure content is a
    string"), the normalised value is not a string in two cases: the tool
    returned [undefined] ([JSON.stringify] then returns [undefined]), or
    the result is an object whose truthy [text] is not a string (it is
    returned as it is).  In every other successful case it is a string. *)
Theorem normalize_nonstring_iff (v : jsval) :
  (exists r, normalizeToolResult v = inr r /\ typeof r <> "string") <->
  v = JUndefined \/
  exists ps, v = JObj ps /\ is_array (obj_get ps "content") = false /\
             truthy (obj_get ps "text") = true /\ typeof (obj_get ps "text") <> "string".
Proof.
  rewrite normalize_eq_shape. split.
  - intros (r & Hr & Ht).
    destruct v as [| | [] | n | s | xs | ps]; cbn -[obj_get smap] in Hr; inv_sum;
      try (left; reflexivity); try (exfalso; apply Ht; reflexivity).
    right. exists ps.
    destruct (obj_get ps "content") as [| | b | n | s | parts | qs] eqn:Hc;
      cbn -[obj_get smap] in Hr;
      [..| destruct (smap Shape.part_string parts); simpl in Hr; inv_sum;
           exfalso; apply Ht; reflexivity |];
      destruct (truthy (obj_get ps "text")) eqn:Htx; simpl in Hr; inv_sum;
      try (exfalso; apply Ht; reflexivity); rewrite ?Hc; auto.
  - intros [-> | (ps & -> & Ha & Ht & Hs)].
    + exists JUndefined. split; [reflexivity | discriminate].
    + rewrite (classify_obj_other _ Ha), Ht. exists (obj_get ps "text"). auto.
Qed.
