(* ===== verification/Messages.v ===== *)
(** * Messages, tool calls and the tool registry (mcp-test.mjs)

    The conversation of [runWithTools] is an array of LangChain message
    objects: a [SystemMessage] holding the MCP resources, the
    [HumanMessage] of the query, the [AIMessage]s the model returns (with
    their optional [tool_calls]) and the [ToolMessage]s the loop builds.
    A tool call carries a name, an arguments object and an optional
    identifier.  The registry is the array [tools] fetched once by
    [mcpClient.getTools()] (line 48) and searched with
    [tools.find((t) => t.name === toolCall.name)] (line 76). *)

From Stdlib Require Import String List ZArith Lia.
From S2P Require Import Prelude JsValue.
Import ListNotations.
Local Open Scope string_scope.
Local Open Scope agent_scope.

(** A tool-call request of an assistant message. *)
Record ToolCall : Type := mkToolCall {
  tc_name : string;
  tc_args : jsval;
  tc_id : option string
}.

(** The message classes the script uses, with the fields it reads. *)
Inductive Message : Type :=
| SystemMessage (content : jsval)
| HumanMessage (content : jsval)
| AIMessage (content : jsval) (tool_calls : option (list ToolCall))
| ToolMessage (content : jsval) (tool_call_id : option string).

(** [m.content]. *)
Definition content (m : Message) : jsval :=
  match m with
  | SystemMessage c | HumanMessage c | AIMessage c _ | ToolMessage c _ => c
  end.

(** A tool of the registry: its [name] and a handle standing for the
    object whose [invoke] method runs it. *)
Record Tool : Type := mkTool {
  tool_name : string;
  tool_handle : nat
}.

(** Line 76: the first tool whose name is the requested one. *)
Definition find_tool (tools : list Tool) (name : string) : option Tool :=
  find (fun t => String.eqb (tool_name t) name) tools.

(** Line 60: [!response.tool_calls || response.tool_calls.length === 0]. *)
Definition has_no_tool_calls (tool_calls : option (list ToolCall)) : bool :=
  match tool_calls with
  | None => true
  | Some l => Nat.eqb (length l) 0
  end.

(** The calls a response requests, [[]] when it has none. *)
Definition requested_calls (tool_calls : option (list ToolCall)) : list ToolCall :=
  match tool_calls with Some l => l | None => [] end.

(** The calls of a response that name a tool of the registry. *)
Definition dispatched (tools : list Tool) (tcs : list ToolCall) : list ToolCall :=
  filter (fun tc => match find_tool tools (tc_name tc) with Some _ => true | None => false end) tcs.

Definition is_tool_message (m : Message) : bool :=
  match m with ToolMessage _ _ => true | _ => false end.

Definition tool_call_id_of (m : Message) : option (option string) :=
  match m with ToolMessage _ id => Some id | _ => None end.

(** ** Lemmas *)

Lemma find_tool_name tools name t :
  find_tool tools name = Some t -> tool_name t = name /\ In t tools.
Proof.
  unfold find_tool. intros H. split.
  - apply find_some in H. destruct H as [_ H]. apply String.eqb_eq in H. exact H.
  - apply find_some in H. tauto.
Qed.

Lemma find_tool_None tools name :
  find_tool tools name = None -> forall t, In t tools -> tool_name t <> name.
Proof.
  unfold find_tool. intros H t Hin Heq. apply (find_none _ _ H) in Hin.
  rewrite Heq, String.eqb_refl in Hin. discriminate.
Qed.

Lemma has_no_tool_calls_false tool_calls :
  has_no_tool_calls tool_calls = false -> requested_calls tool_calls <> [].
Proof. destruct tool_calls as [[|]|]; simpl; congruence. Qed.

Lemma has_no_tool_calls_true tool_calls :
  has_no_tool_calls tool_calls = true -> requested_calls tool_calls = [].
Proof. destruct tool_calls as [[|]|]; simpl; congruence. Qed.

Lemma length_dispatched tools tcs : length (dispatched tools tcs) <= length tcs.
Proof. unfold dispatched. induction tcs as [|tc tcs IH]; simpl; [lia|]. destruct (find_tool _ _); simpl; lia. Qed.
