(* ===== verification/AgentLoop.v ===== *)
(** * The tool-calling conversation loop [runWithTools] (mcp-test.mjs 51-104)

    The loop talks to two external services: the chat model
    ([modelWithTools.invoke], line 56) and the tools of the registry
    ([tool.invoke], line 78).  Both are reached through the type class
    [AgentWorld]: an instance is any world whose state the services read
    and update, and whose calls may throw.  Every theorem of this file
    holds for every instance.

    The computation runs in the monad [M] of the prelude over a
    [LoopState]: the external world and the trace of observable events
    (each model call with the history it was given, each tool call with
    its arguments, each console line).  The message array [message] of
    the source is threaded as an explicit argument, since only the loop
    uses it. *)

From Stdlib Require Import String List ZArith Lia.
From S2P Require Import Prelude JsValue ToolResult Messages.
Import ListNotations.
Local Open Scope string_scope.
Local Open Scope agent_scope.

(** ** The interface of the external services *)

Class AgentWorld (W : Type) : Type := {
  (** [await modelWithTools.invoke(message)]: the response's [content]
      and [tool_calls], or the exception the client throws. *)
  invoke_model : W -> list Message -> W * (js_exn + (jsval * option (list ToolCall)));
  (** [await tool.invoke(toolCall.args)]. *)
  invoke_tool : W -> Tool -> jsval -> W * (js_exn + jsval)
}.

(** Observable events, in the order they happen. *)
Inductive Event : Type :=
| EvModel (history : list Message)
| EvTool (t : Tool) (args : jsval)
| EvLog (line : string).

Record LoopState (W : Type) : Type := mkLoopState {
  world : W;
  trace : list Event
}.
Arguments mkLoopState {W}.
Arguments world {W}.
Arguments trace {W}.

Section Loop.
Context {W : Type} `{AgentWorld W}.

Abbreviation LM := (M (LoopState W) js_exn).

(** ** Primitive effects *)

Definition console_log (line : string) : LM unit :=
  fun st => (mkLoopState (world st) (trace st ++ [EvLog line])%list, inr tt).

Definition call_model (message : list Message) : LM (jsval * option (list ToolCall)) :=
  fun st => let (w', r) := invoke_model (world st) message in
            (mkLoopState w' (trace st ++ [EvModel message])%list, r).

Definition call_tool (t : Tool) (args : jsval) : LM jsval :=
  fun st => let (w', r) := invoke_tool (world st) t args in
            (mkLoopState w' (trace st ++ [EvTool t args])%list, r).

(** ** Console lines (their text; chalk's colouring is not modelled) *)

Definition log_thinking : string := "⏳ 正在等待 AI 思考...".
Definition log_final (c : jsval) : string :=
  nl ++ "✨ AI 最终回复:" ++ nl ++ to_js_string c ++ nl.
Definition log_detected (n : nat) : string :=
  "🔍 检测到 " ++ number_to_string (Z.of_nat n) ++ " 个工具调用".
Definition log_calls (tcs : list ToolCall) : string :=
  "🔍 工具调用: " ++ String.concat ", " (map tc_name tcs).

(** ** The loop *)

(** Lines 75-100: the tool calls of one response, in order.  A call
    whose tool is not in the registry is skipped without a message. *)
Fixpoint run_tool_calls (tools : list Tool) (tcs : list ToolCall)
         (message : list Message) : LM (list Message) :=
  match tcs with
  | [] => mret message
  | toolCall :: rest =>
      match find_tool tools (tc_name toolCall) with
      | Some tool =>
          toolResult <- call_tool tool (tc_args toolCall) ;;
          contentStr <- mlift (normalizeToolResult toolResult) ;;
          run_tool_calls tools rest
            (message ++ [ToolMessage contentStr (tc_id toolCall)])%list
      | None => run_tool_calls tools rest message
      end
  end.

(** The outcome of one round: the [return] of line 62, or the history
    the next round starts from. *)
Inductive Outcome : Type :=
| Returned (answer : jsval) (message : list Message)
| Continue (message : list Message).

(** Lines 55-100: one round of the loop body. *)
Definition iteration (tools : list Tool) (message : list Message) : LM Outcome :=
  console_log log_thinking ;;;
  response <- call_model message ;;
  let message := (message ++ [AIMessage (fst response) (snd response)])%list in
  if has_no_tool_calls (snd response) then
    console_log (log_final (fst response)) ;;;
    mret (Returned (fst response) message)
  else
    let tcs := requested_calls (snd response) in
    console_log (log_detected (length tcs)) ;;;
    console_log (log_calls tcs) ;;;
    message' <- run_tool_calls tools tcs message ;;
    mret (Continue message').

(** Line 54: [for (let i = 0; i < maxIterations; i++)] with [n] the
    number of rounds left, [maxIterations - i]. *)
Fixpoint loop (tools : list Tool) (n : nat) (message : list Message) : LM Outcome :=
  match n with
  | O => mret (Continue message)
  | S n' =>
      o <- iteration tools message ;;
      match o with
      | Returned _ _ => mret o
      | Continue message' => loop tools n' message'
      end
  end.

(** Line 103: [message[message.length - 1].content]; reading [content]
    of [undefined] would throw on an empty array. *)
Definition last_content (message : list Message) : js_exn + jsval :=
  match nth_error message (length message - 1) with
  | Some m => inr (content m)
  | None => inl (read_error "undefined" "content")
  end.

(** Lines 51-104.  [resourceContent] is the text gathered at lines
    39-46 and [tools] the registry of line 48; the loop runs
    [maxIterations] rounds, none when [maxIterations] is negative. *)
Definition runWithTools (resourceContent : string) (tools : list Tool)
           (query : string) (maxIterations : Z) : LM jsval :=
  let message := [SystemMessage (JStr resourceContent); HumanMessage (JStr query)] in
  o <- loop tools (Z.to_nat maxIterations) message ;;
  match o with
  | Returned answer _ => mret answer
  | Continue message' => mlift (last_content message')
  end.

End Loop.


(** ** Counting events *)

Definition is_model_event (e : Event) : bool :=
  match e with EvModel _ => true | _ => false end.

Definition is_tool_event (e : Event) : bool :=
  match e with EvTool _ _ => true | _ => false end.

Definition model_calls (tr : list Event) : nat := length (filter is_model_event tr).

Definition tool_calls_made (tr : list Event) : nat := length (filter is_tool_event tr).

(** The tool events of a round whose calls all succeed: one per
    dispatched call, in the order of the response. *)
Definition tool_events (tools : list Tool) (tcs : list ToolCall) : list Event :=
  flat_map (fun tc => match find_tool tools (tc_name tc) with
                      | Some t => [EvTool t (tc_args tc)]
                      | None => []
                      end) tcs.

Lemma model_calls_app a b : model_calls (a ++ b) = model_calls a + model_calls b.
Proof. unfold model_calls. rewrite filter_app, length_app. reflexivity. Qed.

Lemma tool_calls_made_app a b : tool_calls_made (a ++ b) = tool_calls_made a + tool_calls_made b.
Proof. unfold tool_calls_made. rewrite filter_app, length_app. reflexivity. Qed.

#[export] Hint Rewrite model_calls_app tool_calls_made_app : agent_rw.

Section LoopFacts.
Context {W : Type} `{AgentWorld W}.

Lemma trace_app_assoc (st : LoopState W) a b :
  ((trace st ++ a) ++ b)%list = (trace st ++ (a ++ b))%list.
Proof. rewrite app_assoc. reflexivity. Qed.

(** Unfold one primitive effect of the loop, given what the service
    answers. *)
Lemma call_model_eq (message : list Message) (st : LoopState W) w' r :
  invoke_model (world st) message = (w', r) ->
  call_model message st = (mkLoopState w' (trace st ++ [EvModel message]), r).
Proof. intros E. unfold call_model. rewrite E. reflexivity. Qed.

Lemma call_tool_eq (t : Tool) (args : jsval) (st : LoopState W) w' r :
  invoke_tool (world st) t args = (w', r) ->
  call_tool t args st = (mkLoopState w' (trace st ++ [EvTool t args]), r).
Proof. intros E. unfold call_tool. rewrite E. reflexivity. Qed.

(** A round of tool calls only adds tool events to the trace. *)
Lemma run_tool_calls_trace tools tcs message (st : LoopState W) :
  exists ev, trace (fst (run_tool_calls tools tcs message st)) = (trace st ++ ev)%list /\
             model_calls ev = 0.
Proof.
  revert message st. induction tcs as [|tc tcs IH]; intros message st; simpl.
  - exists []. rewrite app_nil_r. auto.
  - destruct (find_tool tools (tc_name tc)) as [t|]; [|apply IH].
    destruct (invoke_tool (world st) t (tc_args tc)) as [w' [e|r]] eqn:Ht;
      unfold mbind; rewrite (call_tool_eq _ _ _ _ _ Ht); simpl;
      [exists [EvTool t (tc_args tc)]; auto|].
    destruct (normalizeToolResult r) as [e|s]; simpl; [exists [EvTool t (tc_args tc)]; auto|].
    destruct (IH (message ++ [ToolMessage s (tc_id tc)])%list
                 (mkLoopState w' (trace st ++ [EvTool t (tc_args tc)])))
      as (ev & Hev & Hc).
    exists (EvTool t (tc_args tc) :: ev). simpl in Hev. rewrite Hev, <- app_assoc.
    split; [reflexivity | exact Hc].
Qed.

(** A round calls the model exactly once, after the waiting line. *)
Lemma iteration_trace tools message (st : LoopState W) :
  exists ev, trace (fst (iteration tools message st))
             = (trace st ++ [EvLog log_thinking; EvModel message] ++ ev)%list /\
             model_calls ev = 0.
Proof.
  unfold iteration, mbind at 1, console_log at 1. cbn [fst snd world trace].
  destruct (invoke_model (world st) message) as [w' [e|[c tcs]]] eqn:Hm;
    unfold mbind; erewrite (call_model_eq message) by exact Hm; cbn [fst snd trace];
    [exists []; rewrite <- app_assoc, app_nil_r; auto|].
  destruct (has_no_tool_calls tcs).
  - exists [EvLog (log_final c)]. cbn. rewrite <- !app_assoc. auto.
  - cbn [console_log fst snd trace world].
    match goal with
    | |- context [run_tool_calls ?a ?b ?c ?d] =>
        destruct (run_tool_calls_trace a b c d) as (ev & Hev & Hc);
        destruct (run_tool_calls a b c d) as [st'' r]
    end.
    exists ([EvLog (log_detected (length (requested_calls tcs)));
             EvLog (log_calls (requested_calls tcs))] ++ ev)%list.
    cbn [fst trace] in Hev.
    destruct r; cbn -[model_calls]; rewrite Hev; rewrite <- !app_assoc; cbn -[model_calls];
      (split; [reflexivity | exact Hc]).
Qed.

(** [n] rounds call the model at most [n] times. *)
Lemma loop_trace tools n message (st : LoopState W) :
  exists ev, trace (fst (loop tools n message st)) = (trace st ++ ev)%list /\
             model_calls ev <= n.
Proof.
  revert message st. induction n as [|n IH]; intros message st; cbn [loop].
  - exists []. rewrite app_nil_r. cbn. auto.
  - unfold mbind. destruct (iteration_trace tools message st) as (ev & Hev & Hc).
    destruct (iteration tools message st) as [st1 [e|[a m'|m']]]; cbn [fst mret] in Hev |- *.
    + rewrite Hev. eexists; split; [reflexivity|]. rewrite !model_calls_app in *. cbn. lia.
    + rewrite Hev. eexists; split; [reflexivity|]. rewrite !model_calls_app in *. cbn. lia.
    + destruct (IH m' st1) as (ev' & Hev' & Hc'). rewrite Hev', Hev, <- app_assoc.
      eexists; split; [reflexivity|]. rewrite !model_calls_app in *. cbn in *. lia.
Qed.

(** A round of tool calls that succeeds answers each dispatched call
    with one tool message carrying the call's identifier, in order, and
    invokes the dispatched tools in that order. *)
Lemma run_tool_calls_ok tools tcs message (st st' : LoopState W) m' :
  run_tool_calls tools tcs message st = (st', inr m') ->
  trace st' = (trace st ++ tool_events tools tcs)%list /\
  exists rs, m' = (message ++ rs)%list /\
             map tool_call_id_of rs = map (fun tc => Some (tc_id tc)) (dispatched tools tcs).
Proof.
  revert message st. induction tcs as [|tc tcs IH]; intros message st; cbn [run_tool_calls].
  - intros E. injection E as <- <-. split; [rewrite app_nil_r; reflexivity|].
    exists []. rewrite app_nil_r. auto.
  - unfold tool_events, dispatched. cbn [flat_map filter].
    destruct (find_tool tools (tc_name tc)) as [t|] eqn:Hf; [|apply IH].
    destruct (invoke_tool (world st) t (tc_args tc)) as [w' [e|r]] eqn:Ht;
      unfold mbind; rewrite (call_tool_eq _ _ _ _ _ Ht); cbn [mlift]; [discriminate|].
    destruct (normalizeToolResult r) as [e|s]; [discriminate|].
    intros E. destruct (IH _ _ E) as (Htr & rs & -> & Hids).
    split; [rewrite Htr; cbn; rewrite <- app_assoc; reflexivity|].
    exists (ToolMessage s (tc_id tc) :: rs). rewrite <- app_assoc. split; [reflexivity|].
    cbn. f_equal. exact Hids.
Qed.

(** How a round that does not throw ends: the model answered, and
    either the answer requests no tool and is returned, or the tool
    calls ran and the loop continues. *)
Lemma iteration_ok tools message (st st' : LoopState W) o :
  iteration tools message st = (st', inr o) ->
  exists w1 c tcs,
    invoke_model (world st) message = (w1, inr (c, tcs)) /\
    if has_no_tool_calls tcs then
      o = Returned c (message ++ [AIMessage c tcs])%list
    else exists m', o = Continue m' /\
      run_tool_calls tools (requested_calls tcs) (message ++ [AIMessage c tcs])%list
        (mkLoopState w1 (trace st ++ [EvLog log_thinking; EvModel message;
                                       EvLog (log_detected (length (requested_calls tcs)));
                                       EvLog (log_calls (requested_calls tcs))]))%list
      = (st', inr m').
Proof.
  unfold iteration, mbind at 1, console_log at 1. cbn [fst snd world trace].
  destruct (invoke_model (world st) message) as [w1 [e|[c tcs]]] eqn:Hm;
    unfold mbind; erewrite (call_model_eq message) by exact Hm; cbn [fst snd]; [discriminate|].
  intros E. exists w1, c, tcs. split; [reflexivity|].
  destruct (has_no_tool_calls tcs); cbn in E.
  - injection E as _ <-. reflexivity.
  - rewrite <- !app_assoc in E. cbn in E.
    destruct (run_tool_calls _ _ _ _) as [st1 [e|m']] eqn:Hr; [discriminate|].
    injection E as -> <-. eauto.
Qed.

(** The history a loop ends with extends the one it started from. *)
Lemma loop_extends tools n message (st st' : LoopState W) o :
  loop tools n message st = (st', inr o) ->
  exists suffix, match o with
                 | Returned _ m' | Continue m' => m' = (message ++ suffix)%list
                 end.
Proof.
  revert message st. induction n as [|n IH]; intros message st; cbn [loop].
  - intros E. injection E as _ <-. exists []. rewrite app_nil_r. reflexivity.
  - unfold mbind. destruct (iteration tools message st) as [st1 [e|o1]] eqn:Hi; [discriminate|].
    destruct (iteration_ok _ _ _ _ _ Hi) as (w1 & c & tcs & _ & Ho).
    destruct (has_no_tool_calls tcs).
    + subst o1. intros E. injection E as _ <-. eauto.
    + destruct Ho as (m' & -> & Hr). intros E.
      destruct (run_tool_calls_ok _ _ _ _ _ _ Hr) as (_ & rs & -> & _).
      destruct (IH _ _ E) as [suffix Hs].
      exists ([AIMessage c tcs] ++ rs ++ suffix)%list.
      destruct o; rewrite Hs, !app_assoc; reflexivity.
Qed.

(** A round whose calls name no registered tool changes nothing. *)
Lemma run_tool_calls_none_dispatched tools tcs message (st : LoopState W) :
  dispatched tools tcs = [] -> run_tool_calls tools tcs message st = (st, inr message).
Proof.
  induction tcs as [|tc tcs IH]; [reflexivity|]. unfold dispatched. cbn.
  destruct (find_tool tools (tc_name tc)); [discriminate|]. exact IH.
Qed.

(** Rounds of tool calls, rounds and loops do not throw when the
    services do not. *)
Section Total.
Hypothesis model_total : forall w h, exists w' r, invoke_model w h = (w', inr r).
Hypothesis tool_total : forall w t a, exists w' r,
    invoke_tool w t a = (w', inr r) /\ exists s, normalizeToolResult r = inr s.

Lemma run_tool_calls_total tools tcs message (st : LoopState W) :
  exists st' m', run_tool_calls tools tcs message st = (st', inr m').
Proof.
  revert message st. induction tcs as [|tc tcs IH]; intros message st; cbn [run_tool_calls].
  - do 2 eexists; reflexivity.
  - destruct (find_tool tools (tc_name tc)) as [t|]; [|apply IH].
    destruct (tool_total (world st) t (tc_args tc)) as (w' & r & Ht & s & Hs).
    unfold mbind. rewrite (call_tool_eq _ _ _ _ _ Ht). cbn [mlift]. rewrite Hs. apply IH.
Qed.

Lemma iteration_total tools message (st : LoopState W) :
  exists st' o, iteration tools message st = (st', inr o).
Proof.
  unfold iteration, mbind at 1, console_log at 1. cbn [fst snd world trace].
  destruct (model_total (world st) message) as (w1 & [c tcs] & Hm).
  unfold mbind. erewrite (call_model_eq message) by exact Hm. cbn [fst snd].
  destruct (has_no_tool_calls tcs); cbn; [do 2 eexists; reflexivity|].
  match goal with |- context [run_tool_calls ?a ?b ?c ?d] =>
    destruct (run_tool_calls_total a b c d) as (st' & m' & ->) end.
  do 2 eexists; reflexivity.
Qed.

Lemma loop_total tools n message (st : LoopState W) :
  exists st' o, loop tools n message st = (st', inr o).
Proof.
  revert message st. induction n as [|n IH]; intros message st; cbn [loop];
    [do 2 eexists; reflexivity|].
  unfold mbind. destruct (iteration_total tools message st) as (st1 & o & ->).
  destruct o; [do 2 eexists; reflexivity | apply IH].
Qed.
End Total.
End LoopFacts.

Lemma last_content_app (m : list Message) (x : Message) :
  last_content (m ++ [x])%list = inr (content x).
Proof. unfold last_content. rewrite nth_error_last_app. reflexivity. Qed.

Lemma last_content_nonempty (m : list Message) :
  m <> [] -> exists v, last_content m = inr v.
Proof.
  intros Hm. destruct (exists_last Hm) as (m0 & x & ->). rewrite last_content_app. eauto.
Qed.

(** The last message of a history that ends with [x] followed by [rs]:
    the last of [rs], or [x] itself. *)
Lemma last_content_last (h rs : list Message) (x : Message) :
  last_content (h ++ x :: rs)%list = inr (content (last rs x)).
Proof.
  revert h x. induction rs as [|y rs IH]; intros h x; [apply last_content_app|].
  replace (h ++ x :: y :: rs)%list with ((h ++ [x]) ++ y :: rs)%list
    by (rewrite <- app_assoc; reflexivity).
  rewrite IH, last_cons_default. reflexivity.
Qed.

(** Rounds against a model that always requests a tool, with services
    that never throw: every round continues. *)
Section Exhaust.
Context {W : Type} `{AgentWorld W}.
Hypothesis model_requests : forall w h, exists w' c tcs,
    invoke_model w h = (w', inr (c, tcs)) /\ has_no_tool_calls tcs = false.
Hypothesis tool_total : forall w t a, exists w' r,
    invoke_tool w t a = (w', inr r) /\ exists s, normalizeToolResult r = inr s.

Lemma iteration_continues tools message (st : LoopState W) :
  exists st' w c tcs rs,
    invoke_model (world st) message = (w, inr (c, tcs)) /\
    iteration tools message st = (st', inr (Continue (message ++ AIMessage c tcs :: rs)%list)) /\
    map tool_call_id_of rs = map (fun tc => Some (tc_id tc)) (dispatched tools (requested_calls tcs)).
Proof.
  assert (Hm : forall w h, exists w' r, invoke_model w h = (w', inr r)).
  { intros w h. destruct (model_requests w h) as (w' & c & tcs & E & _). eauto. }
  destruct (iteration_total Hm tool_total tools message st) as (st' & o & Ei).
  destruct (iteration_ok _ _ _ _ _ Ei) as (w1 & c & tcs & Hc & Ho).
  destruct (model_requests (world st) message) as (w' & c' & tcs' & Hc' & Hn).
  rewrite Hc in Hc'. injection Hc' as <- <- <-. rewrite Hn in Ho.
  destruct Ho as (m' & -> & Hr). destruct (run_tool_calls_ok _ _ _ _ _ _ Hr) as (_ & rs & -> & Hids).
  exists st', w1, c, tcs, rs. rewrite <- app_assoc in Ei. auto.
Qed.

(** [n] such rounds call the model exactly [n] times, and the history
    they end with is the one the last round built. *)
Lemma loop_exhausted tools n message (st : LoopState W) :
  exists st' m ev,
    loop tools n message st = (st', inr (Continue m)) /\
    trace st' = (trace st ++ ev)%list /\ model_calls ev = n /\
    (n <> 0 -> exists st_n m_n w c tcs rs,
       invoke_model (world st_n) m_n = (w, inr (c, tcs)) /\
       iteration tools m_n st_n = (st', inr (Continue m)) /\
       m = (m_n ++ AIMessage c tcs :: rs)%list /\
       map tool_call_id_of rs = map (fun tc => Some (tc_id tc)) (dispatched tools (requested_calls tcs))).
Proof.
  revert message st. induction n as [|n IH]; intros message st; cbn [loop].
  - exists st, message, []. rewrite app_nil_r. repeat split; auto. intros []. reflexivity.
  - unfold mbind.
    destruct (iteration_trace tools message st) as (ev1 & Hev1 & Hc1).
    destruct (iteration_continues tools message st) as (st1 & w & c & tcs & rs & Hm & Ei & Hids).
    rewrite Ei in Hev1 |- *. cbn [fst] in Hev1.
    destruct (IH (message ++ AIMessage c tcs :: rs)%list st1) as (st' & m & ev & El & Htr & Hc & Hlast).
    exists st', m, ([EvLog log_thinking; EvModel message] ++ ev1 ++ ev)%list.
    split; [exact El|]. split; [rewrite Htr, Hev1, <- !app_assoc; reflexivity|].
    split; [rewrite !model_calls_app, Hc1, Hc; reflexivity|].
    intros _. destruct n as [|n'].
    + cbn [loop] in El. injection El as <- <-. exists st, message, w, c, tcs, rs. auto.
    + apply Hlast. discriminate.
Qed.
End Exhaust.

(** ** Theorems of the loop *)

Section LoopTheorems.
Context {W : Type} `{AgentWorld W}.

(** C1: whatever the model and the tools do, [runWithTools] calls the
    model at most [maxIterations] times: it only appends to the trace,
    and the events it appends contain at most [maxIterations] model
    calls (none when [maxIterations] is negative). *)
Theorem runWithTools_model_calls_bounded resourceContent tools query maxIterations
        (st : LoopState W) :
  exists ev,
    trace (fst (runWithTools resourceContent tools query maxIterations st))
    = (trace st ++ ev)%list /\
    model_calls ev <= Z.to_nat maxIterations.
Proof.
  unfold runWithTools, mbind.
  match goal with |- context [loop ?a ?b ?c ?d] =>
    destruct (loop_trace a b c d) as (ev & Hev & Hc); destruct (loop a b c d) as [st1 r]
  end.
  cbn [fst] in Hev. exists ev.
  destruct r as [e|[a m|m]]; cbn; rewrite Hev; auto.
Qed.

(** C3: one round that does not throw appends to the history exactly
    the answer the model gave for that history (its content [c] and
    tool calls [tcs]) followed by one tool message per requested call
    whose tool is in the registry, in the order of the calls and
    carrying their identifiers; it returns [c] when the answer requests
    no tool and continues otherwise. *)
Theorem iteration_appends tools message (st st' : LoopState W) o :
  iteration tools message st = (st', inr o) ->
  exists w1 c tcs rs,
    invoke_model (world st) message = (w1, inr (c, tcs)) /\
    map tool_call_id_of rs
      = map (fun tc => Some (tc_id tc)) (dispatched tools (requested_calls tcs)) /\
    match o with
    | Returned answer m' =>
        has_no_tool_calls tcs = true /\ answer = c /\ rs = [] /\
        m' = (message ++ [AIMessage c tcs])%list
    | Continue m' =>
        has_no_tool_calls tcs = false /\ m' = (message ++ AIMessage c tcs :: rs)%list
    end.
Proof.
  intros E. destruct (iteration_ok _ _ _ _ _ E) as (w1 & c & tcs & Hm & Ho).
  destruct (has_no_tool_calls tcs) eqn:Hn.
  - subst o. exists w1, c, tcs, []. rewrite (has_no_tool_calls_true _ Hn). split; [exact Hm | auto].
  - destruct Ho as (m' & -> & Hr).
    destruct (run_tool_calls_ok _ _ _ _ _ _ Hr) as (_ & rs & -> & Hids).
    exists w1, c, tcs, rs. rewrite <- app_assoc. split; [exact Hm | auto].
Qed.

(** C4: when the model's first answer requests no tool, the loop makes
    exactly one model call, with the system and human messages, and
    returns that answer's content verbatim. *)
Theorem runWithTools_first_answer resourceContent tools query maxIterations
        (st : LoopState W) w1 c tcs :
  (0 < maxIterations)%Z ->
  invoke_model (world st) [SystemMessage (JStr resourceContent); HumanMessage (JStr query)]
    = (w1, inr (c, tcs)) ->
  has_no_tool_calls tcs = true ->
  runWithTools resourceContent tools query maxIterations st
  = (mkLoopState w1 (trace st ++
       [EvLog log_thinking;
        EvModel [SystemMessage (JStr resourceContent); HumanMessage (JStr query)];
        EvLog (log_final c)])%list, inr c).
Proof.
  intros Hpos Hm Hn. unfold runWithTools.
  destruct (Z.to_nat maxIterations) as [|n] eqn:Hz; [lia|].
  cbn [loop]. unfold iteration, mbind, console_log. cbn [fst snd world trace].
  erewrite (call_model_eq _) by exact Hm. cbn. rewrite Hn. cbn.
  rewrite <- !app_assoc. reflexivity.
Qed.

(** C8: an exception of the model is not caught or retried: the run
    stops at once and throws it. *)
Theorem runWithTools_model_error resourceContent tools query maxIterations
        (st : LoopState W) w1 e :
  (0 < maxIterations)%Z ->
  invoke_model (world st) [SystemMessage (JStr resourceContent); HumanMessage (JStr query)]
    = (w1, inl e) ->
  runWithTools resourceContent tools query maxIterations st
  = (mkLoopState w1 (trace st ++
       [EvLog log_thinking;
        EvModel [SystemMessage (JStr resourceContent); HumanMessage (JStr query)]])%list,
     inl e).
Proof.
  intros Hpos Hm. unfold runWithTools.
  destruct (Z.to_nat maxIterations) as [|n] eqn:Hz; [lia|].
  cbn [loop]. unfold iteration, mbind, console_log. cbn [fst snd world trace].
  erewrite (call_model_eq _) by exact Hm. cbn. rewrite <- !app_assoc. reflexivity.
Qed.

(** C9: a tool that throws aborts the whole round: the calls after it
    are not run and the exception propagates (no partial-failure
    isolation between sibling calls). *)
Theorem iteration_tool_error tools message (st : LoopState W) w1 c tc rest t w2 e :
  invoke_model (world st) message = (w1, inr (c, Some (tc :: rest))) ->
  find_tool tools (tc_name tc) = Some t ->
  invoke_tool w1 t (tc_args tc) = (w2, inl e) ->
  iteration tools message st
  = (mkLoopState w2 (trace st ++
       [EvLog log_thinking; EvModel message;
        EvLog (log_detected (length (tc :: rest))); EvLog (log_calls (tc :: rest));
        EvTool t (tc_args tc)])%list, inl e).
Proof.
  intros Hm Hf Ht. unfold iteration, mbind, console_log. cbn [fst snd world trace].
  erewrite (call_model_eq _) by exact Hm. cbn. rewrite Hf.
  unfold mbind. erewrite (call_tool_eq _ _) by exact Ht. cbn.
  rewrite <- !app_assoc. reflexivity.
Qed.

(** C17: a tool result the normalisation of lines 80-95 rejects (a
    content array holding [null] or [undefined]) aborts the round like a
    throwing tool: the exception of [normalizeToolResult] propagates and
    the later calls of the answer are not run. *)
Theorem iteration_normalize_error tools message (st : LoopState W) w1 c tc rest t w2 r e :
  invoke_model (world st) message = (w1, inr (c, Some (tc :: rest))) ->
  find_tool tools (tc_name tc) = Some t ->
  invoke_tool w1 t (tc_args tc) = (w2, inr r) ->
  normalizeToolResult r = inl e ->
  iteration tools message st
  = (mkLoopState w2 (trace st ++
       [EvLog log_thinking; EvModel message;
        EvLog (log_detected (length (tc :: rest))); EvLog (log_calls (tc :: rest));
        EvTool t (tc_args tc)])%list, inl e).
Proof.
  intros Hm Hf Ht Hn. unfold iteration, mbind, console_log. cbn [fst snd world trace].
  erewrite (call_model_eq _) by exact Hm. cbn. rewrite Hf.
  unfold mbind. erewrite (call_tool_eq _ _) by exact Ht. cbn [mlift]. rewrite Hn. cbn.
  rewrite <- !app_assoc. reflexivity.
Qed.

(** C7: a round whose requested tools are all missing from the
    registry appends only the model's answer, invokes no tool, and lets
    the loop continue: the calls are skipped silently, and the model is
    not told (spec section 9, open question). *)
Theorem iteration_unknown_tools tools message (st : LoopState W) w1 c tcs :
  invoke_model (world st) message = (w1, inr (c, Some tcs)) ->
  tcs <> [] ->
  dispatched tools tcs = [] ->
  iteration tools message st
  = (mkLoopState w1 (trace st ++
       [EvLog log_thinking; EvModel message;
        EvLog (log_detected (length tcs)); EvLog (log_calls tcs)])%list,
     inr (Continue (message ++ [AIMessage c (Some tcs)])%list)).
Proof.
  intros Hm Hne Hd. unfold iteration, mbind, console_log. cbn [fst snd world trace].
  erewrite (call_model_eq _) by exact Hm. cbn [fst snd].
  destruct tcs as [|tc tcs]; [contradiction|]. cbn [has_no_tool_calls length Nat.eqb].
  cbn [requested_calls]. rewrite run_tool_calls_none_dispatched by exact Hd.
  cbn. rewrite <- !app_assoc. reflexivity.
Qed.

(** C6: when neither the model nor any tool throws and every tool
    result normalises, [runWithTools] returns a value: in particular the
    final read [message[message.length - 1].content] never fails, since
    the history always holds the system and human messages. *)
Theorem runWithTools_total resourceContent tools query maxIterations (st : LoopState W) :
  (forall w h, exists w' r, invoke_model w h = (w', inr r)) ->
  (forall w t a, exists w' r,
      invoke_tool w t a = (w', inr r) /\ exists s, normalizeToolResult r = inr s) ->
  exists st' v, runWithTools resourceContent tools query maxIterations st = (st', inr v).
Proof.
  intros Hm Ht. unfold runWithTools, mbind.
  match goal with |- context [loop ?a ?b ?c ?d] =>
    destruct (loop_total Hm Ht a b c d) as (st1 & o & Hl); rewrite Hl end.
  destruct (loop_extends _ _ _ _ _ _ Hl) as [suffix Hs].
  destruct o as [a m|m]; [do 2 eexists; reflexivity|].
  subst m. destruct (last_content_nonempty
                       ([SystemMessage (JStr resourceContent); HumanMessage (JStr query)] ++ suffix))
    as [v Hv]; [discriminate|].
  exists st1, v. cbn in Hv |- *. rewrite Hv. reflexivity.
Qed.

(** C32: with a budget of zero or less the loop body never runs, and
    [message[message.length - 1]] is the human message: [runWithTools]
    returns the user's own query as the answer, without calling the
    model. *)
Theorem runWithTools_no_budget resourceContent tools query maxIterations
        (st : LoopState W) :
  (maxIterations <= 0)%Z ->
  runWithTools resourceContent tools query maxIterations st = (st, inr (JStr query)).
Proof.
  intros Hle. unfold runWithTools.
  destruct maxIterations as [|p|p]; [reflexivity | lia | reflexivity].
Qed.
(** C12: budget exhaustion.  Against a model that requests a tool in
    every answer, with services that never throw, a positive budget is
    spent to the end: the model is called exactly [maxIterations] times,
    and the run returns the content of the last message of the last
    round, that is, of the last tool message [rs] of that round, or of
    the assistant message ([c], [tcs], the answer the model gave in that
    round) when none of its calls reached a registered tool.  So the
    spec's scenario (the content of the second assistant message) holds
    only when the requested tools are missing. *)
Theorem runWithTools_exhausted resourceContent tools query maxIterations (st : LoopState W) :
  (forall w h, exists w' c tcs,
      invoke_model w h = (w', inr (c, tcs)) /\ has_no_tool_calls tcs = false) ->
  (forall w t a, exists w' r,
      invoke_tool w t a = (w', inr r) /\ exists s, normalizeToolResult r = inr s) ->
  (0 < maxIterations)%Z ->
  exists st' ev st_n m_n w c tcs rs,
    runWithTools resourceContent tools query maxIterations st
      = (st', inr (content (last rs (AIMessage c tcs)))) /\
    trace st' = (trace st ++ ev)%list /\ model_calls ev = Z.to_nat maxIterations /\
    invoke_model (world st_n) m_n = (w, inr (c, tcs)) /\
    iteration tools m_n st_n = (st', inr (Continue (m_n ++ AIMessage c tcs :: rs)%list)) /\
    map tool_call_id_of rs = map (fun tc => Some (tc_id tc)) (dispatched tools (requested_calls tcs)).
Proof.
  intros Hm Ht Hpos. unfold runWithTools, mbind.
  match goal with |- context [loop tools (Z.to_nat maxIterations) ?m st] =>
    destruct (loop_exhausted Hm Ht tools (Z.to_nat maxIterations) m st)
      as (st' & m' & ev & El & Htr & Hc & Hlast) end.
  rewrite El. destruct (Hlast ltac:(lia)) as (st_n & m_n & w & c & tcs & rs & Hmn & Ei & -> & Hids).
  cbn [mlift]. rewrite last_content_last.
  exists st', ev, st_n, m_n, w, c, tcs, rs. repeat split; auto.
Qed.
End LoopTheorems.
