(* ===== verification/LoopSpec.v ===== *)
(** * The conversation loop as a state machine driven by the services, and refinement

    Section 4 of the spec describes [runWithTools] as a machine that
    alternates between awaiting the model and awaiting tool results until
    a tool-free answer (success) or the end of the budget.  [step] is that
    machine over a configuration: its phase and the world of the services
    ([AgentWorld]).  A transition that talks to a service takes the
    service's answer from [invoke_model] or [invoke_tool] on the current
    world, so the machine is deterministic ([step_det]); its labels are
    the service calls.  Tool results are converted by the tagged-union
    specification [Shape] of ToolResult.v, not by the duck-typed code.

    The theorem of this file is that [runWithTools] refines the machine:
    from the initial configuration the machine reaches a terminal one
    whose outcome is what the run returns, whose world is the run's final
    world and whose labels are the run's service calls in order; and,
    the machine being deterministic, every terminal path is that one. *)

From Stdlib Require Import String List ZArith Lia.
From S2P Require Import Prelude JsValue ToolResult Messages AgentLoop.
Import ListNotations.
Local Open Scope agent_scope.

Inductive Phase : Type :=
| AwaitingModel (history : list Message) (rounds_left : nat)
| AwaitingTools (history : list Message) (pending : list ToolCall) (rounds_left : nat)
| Answered (answer : jsval)
| Exhausted (history : list Message)
| Failed (e : js_exn).

(** A call to a service. *)
Inductive Label : Type :=
| LModel (history : list Message)
| LTool (t : Tool) (args : jsval).

Section Machine.
Context {W : Type} `{AgentWorld W}.
Variable tools : list Tool.

Inductive step : Phase * W -> option Label -> Phase * W -> Prop :=
| step_exhausted h w :
    step (AwaitingModel h 0, w) None (Exhausted h, w)
| step_model_error h n w w' e :
    invoke_model w h = (w', inl e) ->
    step (AwaitingModel h (S n), w) (Some (LModel h)) (Failed e, w')
| step_answer h n w w' c tcs :
    invoke_model w h = (w', inr (c, tcs)) ->
    has_no_tool_calls tcs = true ->
    step (AwaitingModel h (S n), w) (Some (LModel h)) (Answered c, w')
| step_request h n w w' c tcs :
    invoke_model w h = (w', inr (c, tcs)) ->
    has_no_tool_calls tcs = false ->
    step (AwaitingModel h (S n), w) (Some (LModel h))
         (AwaitingTools (h ++ [AIMessage c tcs]) (requested_calls tcs) n, w')
| step_skip h tc rest n w :
    find_tool tools (tc_name tc) = None ->
    step (AwaitingTools h (tc :: rest) n, w) None (AwaitingTools h rest n, w)
| step_tool_error h tc rest n w w' t e :
    find_tool tools (tc_name tc) = Some t ->
    invoke_tool w t (tc_args tc) = (w', inl e) ->
    step (AwaitingTools h (tc :: rest) n, w) (Some (LTool t (tc_args tc))) (Failed e, w')
| step_tool_result h tc rest n w w' t r :
    find_tool tools (tc_name tc) = Some t ->
    invoke_tool w t (tc_args tc) = (w', inr r) ->
    step (AwaitingTools h (tc :: rest) n, w) (Some (LTool t (tc_args tc)))
         (match Shape.normalize (Shape.classify r) with
          | inl e => Failed e
          | inr s => AwaitingTools (h ++ [ToolMessage s (tc_id tc)]) rest n
          end, w')
| step_round_done h n w :
    step (AwaitingTools h [] n, w) None (AwaitingModel h n, w).

(** Paths, with the labels of their service calls in order. *)
Inductive steps : Phase * W -> list Label -> Phase * W -> Prop :=
| steps_refl s : steps s [] s
| steps_silent s s' ls s'' : step s None s' -> steps s' ls s'' -> steps s ls s''
| steps_label s l s' ls s'' : step s (Some l) s' -> steps s' ls s'' -> steps s (l :: ls) s''.

End Machine.

Definition terminal (s : Phase) : bool :=
  match s with Answered _ | Exhausted _ | Failed _ => true | _ => false end.

(** What [runWithTools] returns in a terminal state. *)
Definition outcome (s : Phase) : option (js_exn + jsval) :=
  match s with
  | Answered c => Some (inr c)
  | Exhausted h => Some (last_content h)
  | Failed e => Some (inl e)
  | _ => None
  end.

(** ** The machine is deterministic *)

Section MachineFacts.
Context {W : Type} `{AgentWorld W}.
Variable tools : list Tool.

Lemma steps_trans (s : Phase * W) ls s' ls' s'' :
  steps tools s ls s' -> steps tools s' ls' s'' -> steps tools s (ls ++ ls') s''.
Proof. induction 1; intros H'; simpl; eauto using steps. Qed.

(** Two answers of a service to the same call are the same answer. *)
Ltac same_answer :=
  repeat match goal with
  | H1 : ?x = _, H2 : ?x = _ |- _ =>
      match x with
      | find_tool _ _ => idtac | invoke_model _ _ => idtac | invoke_tool _ _ _ => idtac
      end;
      rewrite H1 in H2; first [discriminate H2 | injection H2; intros; subst; clear H2]
  end.

Lemma step_det (s : Phase * W) l1 s1 l2 s2 :
  step tools s l1 s1 -> step tools s l2 s2 -> l1 = l2 /\ s1 = s2.
Proof. intros H1 H2. destruct H1; inversion H2; subst; same_answer; split; congruence. Qed.

Lemma step_not_terminal (s : Phase * W) l s' : step tools s l s' -> terminal (fst s) = false.
Proof. destruct 1; reflexivity. Qed.

(** Two paths from one configuration to terminal configurations are the
    same path. *)
Lemma steps_det (s : Phase * W) ls1 s1 ls2 s2 :
  steps tools s ls1 s1 -> steps tools s ls2 s2 ->
  terminal (fst s1) = true -> terminal (fst s2) = true -> ls1 = ls2 /\ s1 = s2.
Proof.
  intros P1. revert ls2 s2.
  induction P1 as [s|s s' ls s'' Hs P1 IH|s l s' ls s'' Hs P1 IH]; intros ls2 s2 P2 T1 T2;
    destruct P2 as [|? s2' ? ? Hs2 P2|? l2 s2' ? ? Hs2 P2];
    repeat match goal with
           | H : step _ ?x _ _, T : terminal (fst ?x) = true |- _ =>
               rewrite (step_not_terminal _ _ _ H) in T; discriminate T
           | H1 : step _ ?x _ _, H2 : step _ ?x _ _ |- _ =>
               destruct (step_det _ _ _ _ _ H1 H2) as [El <-]; clear H2; try discriminate El
           end; auto.
  injection El as <-. destruct (IH _ _ P2 T1 T2) as [-> ->]. auto.
Qed.
End MachineFacts.

(** ** Refinement: [runWithTools] runs the machine *)

Definition label_event (l : Label) : Event :=
  match l with LModel h => EvModel h | LTool t a => EvTool t a end.

(** The trace without its console lines: the calls to the services. *)
Definition service_events (tr : list Event) : list Event :=
  filter (fun e => match e with EvLog _ => false | _ => true end) tr.

Lemma service_events_app a b :
  service_events (a ++ b) = service_events a ++ service_events b.
Proof. apply filter_app. Qed.

#[export] Hint Rewrite service_events_app : agent_rw.

(** Close an equation between service-event lists built by appending. *)
Ltac events_eq :=
  cbn [trace]; rewrite ?service_events_app, ?map_app; cbn [service_events filter map label_event];
  rewrite <- ?app_assoc; cbn [app]; reflexivity.

Section Refinement.
Context {W : Type} `{AgentWorld W}.
Variable tools : list Tool.

(** The simulation of a piece of code by the machine: a path from [s0]
    to a configuration [final] paired with the code's final world, with
    the code's new service calls as labels. *)
Definition simulates {A} (s0 : Phase * W) (c : M (LoopState W) js_exn A) (st : LoopState W)
           (final_of : js_exn + A -> Phase) : Prop :=
  exists ls,
    steps tools s0 ls (final_of (snd (c st)), world (fst (c st))) /\
    service_events (trace (fst (c st))) = service_events (trace st) ++ map label_event ls.

Lemma run_tool_calls_sim tcs h n (st : LoopState W) :
  simulates (AwaitingTools h tcs n, world st) (run_tool_calls tools tcs h) st
    (fun r => match r with inr h' => AwaitingModel h' n | inl e => Failed e end).
Proof.
  unfold simulates. revert h st. induction tcs as [|tc rest IH]; intros h st; cbn [run_tool_calls].
  - exists []. split; [eauto using steps, step|]. cbn. rewrite app_nil_r. reflexivity.
  - destruct (find_tool tools (tc_name tc)) as [t|] eqn:Hf.
    + destruct (invoke_tool (world st) t (tc_args tc)) as [w' [e|r]] eqn:Ht;
        unfold mbind; rewrite (call_tool_eq _ _ _ _ _ Ht); cbn [fst snd mlift].
      * exists [LTool t (tc_args tc)]. split; [eauto using steps, step|]. events_eq.
      * pose proof (step_tool_result tools h tc rest n _ _ t r Hf Ht) as Hst.
        rewrite <- normalize_eq_shape in Hst.
        destruct (normalizeToolResult r) as [e|s]; cbn [fst snd].
        -- exists [LTool t (tc_args tc)]. split; [eauto using steps|]. events_eq.
        -- destruct (IH (h ++ [ToolMessage s (tc_id tc)])
                       (mkLoopState w' (trace st ++ [EvTool t (tc_args tc)])))
             as (ls & Hp & He).
           exists (LTool t (tc_args tc) :: ls). split; [eauto using steps|].
           rewrite He. events_eq.
    + destruct (IH h st) as (ls & Hp & He). exists ls. split; [eauto using steps, step|]. exact He.
Qed.

Lemma iteration_sim h n (st : LoopState W) :
  simulates (AwaitingModel h (S n), world st) (iteration tools h) st
    (fun r => match r with
              | inl e => Failed e
              | inr (Returned c _) => Answered c
              | inr (Continue h') => AwaitingModel h' n
              end).
Proof.
  unfold simulates, iteration, mbind, console_log. cbn [fst snd world trace].
  destruct (invoke_model (world st) h) as [w1 [e|[c tcs]]] eqn:Hm;
    erewrite (call_model_eq h) by exact Hm; cbn [fst snd trace world].
  - exists [LModel h]. split; [eauto using steps, step|]. events_eq.
  - destruct (has_no_tool_calls tcs) eqn:Hn.
    + exists [LModel h]. split; [eauto using steps, step|]. cbn -[service_events]. events_eq.
    + cbn [console_log fst snd trace world].
      match goal with |- context [run_tool_calls ?a ?b ?c ?d] =>
        destruct (run_tool_calls_sim b c n d) as (ls & Hp & He);
        destruct (run_tool_calls a b c d) as [st2 r] end.
      exists (LModel h :: ls). cbn [fst snd trace world] in Hp, He.
      destruct r as [e|h']; cbn -[service_events];
        (split; [eauto using steps, step|]); rewrite He; events_eq.
Qed.

Lemma loop_sim n h (st : LoopState W) :
  simulates (AwaitingModel h n, world st) (loop tools n h) st
    (fun r => match r with
              | inl e => Failed e
              | inr (Returned c _) => Answered c
              | inr (Continue h') => Exhausted h'
              end).
Proof.
  unfold simulates. revert h st. induction n as [|n IH]; intros h st; cbn [loop].
  - exists []. split; [eauto using steps, step|]. cbn. rewrite app_nil_r. reflexivity.
  - unfold mbind.
    destruct (iteration_sim h n st) as (ls & Hp & He).
    destruct (iteration tools h st) as [st1 [e|[c m|h']]]; cbn [fst snd mret] in Hp, He |- *;
      [eauto | eauto |].
    destruct (IH h' st1) as (ls' & Hp' & He').
    exists (ls ++ ls'). split; [exact (steps_trans _ _ _ _ _ _ Hp Hp')|].
    rewrite He', He, map_app, app_assoc. reflexivity.
Qed.

(** The initial configuration of a run. *)
Definition initial (resourceContent query : string) (maxIterations : Z) (w : W) : Phase * W :=
  (AwaitingModel [SystemMessage (JStr resourceContent); HumanMessage (JStr query)]
                 (Z.to_nat maxIterations), w).

(** What a run returns after the loop: the answer, or the content of
    the last message of an exhausted history (line 103). *)
Definition run_result (r : js_exn + Outcome) : js_exn + jsval :=
  match r with
  | inl e => inl e
  | inr (Returned a _) => inr a
  | inr (Continue m) => last_content m
  end.

(** A loop reaches, along a path of the machine, a terminal
    configuration with the run's result, its world and its service
    calls. *)
Lemma loop_terminal_sim n h (st : LoopState W) :
  let r := loop tools n h st in
  exists ls final,
    steps tools (AwaitingModel h n, world st) ls (final, world (fst r)) /\
    terminal final = true /\ outcome final = Some (run_result (snd r)) /\
    service_events (trace (fst r)) = service_events (trace st) ++ map label_event ls.
Proof.
  cbv zeta. destruct (loop_sim n h st) as (ls & Hp & He).
  destruct (loop tools n h st) as [st1 [e|[ans m|h2]]]; cbn [fst snd] in Hp, He |- *;
    exists ls; eexists; eauto.
Qed.

(** C2: [runWithTools] refines the machine: for every instance of the
    services, the machine has a path from the initial configuration
    (system and human messages, [maxIterations] rounds, the run's
    world) to a terminal configuration, and every such path ends with
    what the run returns and the world the run leaves, and its labels
    are the run's calls to the model and the tools, in order. *)
Theorem runWithTools_refines resourceContent query maxIterations (st : LoopState W) :
  let r := runWithTools resourceContent tools query maxIterations st in
  (exists ls final, steps tools (initial resourceContent query maxIterations (world st)) ls final /\
                    terminal (fst final) = true) /\
  forall ls final w,
    steps tools (initial resourceContent query maxIterations (world st)) ls (final, w) ->
    terminal final = true ->
    outcome final = Some (snd r) /\ w = world (fst r) /\
    service_events (trace (fst r)) = service_events (trace st) ++ map label_event ls.
Proof.
  cbv zeta. unfold runWithTools, mbind.
  match goal with |- context [loop ?a ?b ?c ?d] =>
    destruct (loop_terminal_sim b c d) as (ls0 & final0 & Hp0 & Ht0 & Ho0 & He0);
    destruct (loop a b c d) as [st1 [e|[ans m|h2]]] end;
  cbn [fst snd run_result mret mlift] in Hp0, Ho0, He0 |- *;
    [| | destruct (last_content h2) eqn:El; cbn [fst snd] ]; unfold initial;
  (split; [exists ls0; eexists; split; [exact Hp0 | exact Ht0]|]);
  intros ls final w Hp Ht;
  destruct (steps_det _ _ _ _ _ _ Hp Hp0 Ht Ht0) as [-> E]; injection E as -> ->; auto.
Qed.
End Refinement.
