(* ===== verification/Dispatch.v ===== *)
(** * Tool dispatch as filter-then-map (mcp-test.mjs 74-98)

    The loop of lines 74-98 walks the requested calls, skips those whose
    tool is not registered ([if (tool)], line 77), and for the others
    calls the tool, normalises its result and pushes a [ToolMessage].
    [run_tool_calls_ref] is the reference reading of that loop: first
    select the calls whose tool is registered, paired with their tool
    ([registered]), then map each pair to its tool message with the
    monadic map [mmap], which stops at the first exception, and append
    the messages to the history.  The theorem of this file is that the
    loop and the reference are the same computation, state and
    exceptions included. *)

From Stdlib Require Import String List ZArith Lia.
From S2P Require Import Prelude JsValue ToolResult Messages AgentLoop.
Import ListNotations.
Local Open Scope agent_scope.

(** The calls whose tool is registered, with that tool, in call order. *)
Definition registered (tools : list Tool) (tcs : list ToolCall) : list (Tool * ToolCall) :=
  flat_map (fun tc => match find_tool tools (tc_name tc) with
                      | Some t => [(t, tc)]
                      | None => []
                      end) tcs.

Section Reference.
Context {W : Type} `{AgentWorld W}.

Abbreviation LM := (M (LoopState W) js_exn).

(** The tool message answering one call of a registered tool. *)
Definition answer_call (p : Tool * ToolCall) : LM Message :=
  toolResult <- call_tool (fst p) (tc_args (snd p)) ;;
  contentStr <- mlift (normalizeToolResult toolResult) ;;
  mret (ToolMessage contentStr (tc_id (snd p))).

Definition run_tool_calls_ref (tools : list Tool) (tcs : list ToolCall) (message : list Message)
  : LM (list Message) :=
  rs <- mmap answer_call (registered tools tcs) ;;
  mret (message ++ rs)%list.

End Reference.

Lemma registered_cons tools tc tcs :
  registered tools (tc :: tcs) =
  match find_tool tools (tc_name tc) with
  | Some t => (t, tc) :: registered tools tcs
  | None => registered tools tcs
  end.
Proof. cbn. destruct (find_tool tools (tc_name tc)); reflexivity. Qed.

Section Equivalence.
Context {W : Type} `{AgentWorld W}.

(** C13: the dispatch loop is the reference filter-then-map: for every
    registry, every list of calls, every history and every state, it
    computes the same state and the same result (or exception) as
    mapping the registered calls to their tool messages and appending
    them. *)
Theorem run_tool_calls_equiv tools tcs message (st : LoopState W) :
  run_tool_calls tools tcs message st = run_tool_calls_ref tools tcs message st.
Proof.
  unfold run_tool_calls_ref. revert message st.
  induction tcs as [|tc tcs IH]; intros message st.
  - cbn. rewrite app_nil_r. reflexivity.
  - rewrite registered_cons. cbn [run_tool_calls].
    destruct (find_tool tools (tc_name tc)) as [t|]; [|apply IH].
    cbn [mmap]. unfold answer_call at 1. rewrite !mbind_assoc. cbn [fst snd].
    destruct (call_tool t (tc_args tc) st) as [st1 [e|r]] eqn:Ec;
      [rewrite !(mbind_inl _ _ _ _ _ Ec); reflexivity | rewrite !(mbind_inr _ _ _ _ _ Ec)].
    rewrite mbind_assoc.
    destruct (normalizeToolResult r) as [e|s]; [reflexivity|].
    rewrite !(mbind_inr (mlift (inr s)) _ st1 st1 s eq_refl), mbind_ret_l, IH, mbind_assoc.
    unfold mbind. destruct (mmap answer_call (registered tools tcs) st1) as [st2 [e|rs]];
      [reflexivity|].
    cbn. rewrite <- app_assoc. reflexivity.
Qed.
End Equivalence.
