(* ===== verification/History.v ===== *)
(** * Well-formed conversation histories (mcp-test.mjs 51-104)

    A chat-completion API accepts a tool message only as the answer to a
    tool call of the assistant message it follows.  [answers_ok] is that
    condition on a history: every [ToolMessage] carries the id of a call
    requested by the last [AIMessage] before it (with no system or human
    message in between).  The first theorem of this file is that [runWithTools]
    only ever sends well-formed histories to the model, whatever the
    model and the tools do; the converse (every call is answered) does
    not hold, since calls of unknown tools are skipped (AgentLoop.v).
    The second theorem is that the conversation is append-only: each
    history sent to the model extends the one sent before it
    ([extends], [model_histories]). *)

From Stdlib Require Import String List ZArith Lia Sorted.
From S2P Require Import Prelude JsValue ToolResult Messages AgentLoop.
Import ListNotations.
Local Open Scope agent_scope.
Local Open Scope bool_scope.

Definition opt_str_eqb (a b : option string) : bool :=
  match a, b with
  | Some x, Some y => String.eqb x y
  | None, None => true
  | _, _ => false
  end.

(** [ids] are the call ids the next tool message may answer. *)
Fixpoint answers_ok (ids : list (option string)) (h : list Message) : bool :=
  match h with
  | [] => true
  | AIMessage _ tcs :: rest => answers_ok (map tc_id (requested_calls tcs)) rest
  | ToolMessage _ id :: rest => existsb (opt_str_eqb id) ids && answers_ok ids rest
  | (SystemMessage _ | HumanMessage _) :: rest => answers_ok [] rest
  end.

(** The ids a tool message may answer after the history [h]. *)
Fixpoint pending_after (ids : list (option string)) (h : list Message) : list (option string) :=
  match h with
  | [] => ids
  | AIMessage _ tcs :: rest => pending_after (map tc_id (requested_calls tcs)) rest
  | ToolMessage _ _ :: rest => pending_after ids rest
  | (SystemMessage _ | HumanMessage _) :: rest => pending_after [] rest
  end.

(** Every history of a model call in a trace is well formed. *)
Definition models_ok (ev : list Event) : bool :=
  forallb (fun e => match e with EvModel h => answers_ok [] h | _ => true end) ev.

(** The histories of the model calls of a trace, in order. *)
Definition model_histories (ev : list Event) : list (list Message) :=
  flat_map (fun e => match e with EvModel h => [h] | _ => [] end) ev.

(** [h2] is [h1] with messages appended. *)
Definition extends (h1 h2 : list Message) : Prop := exists suffix, h2 = (h1 ++ suffix)%list.

(** ** Lemmas *)

Lemma extends_refl h : extends h h.
Proof. exists []. rewrite app_nil_r. reflexivity. Qed.

Lemma extends_trans h1 h2 h3 : extends h1 h2 -> extends h2 h3 -> extends h1 h3.
Proof. intros [s1 ->] [s2 ->]. exists (s1 ++ s2)%list. rewrite app_assoc. reflexivity. Qed.

Lemma model_histories_app a b : model_histories (a ++ b) = model_histories a ++ model_histories b.
Proof. apply flat_map_app. Qed.

Lemma model_histories_silent ev : model_calls ev = 0%nat -> model_histories ev = [].
Proof.
  induction ev as [|e ev IH]; [reflexivity|].
  destruct e; cbn; unfold model_calls in *; cbn; intros H; [discriminate | apply IH; exact H..].
Qed.

#[export] Hint Resolve extends_refl : agent.


Lemma opt_str_eqb_refl a : opt_str_eqb a a = true.
Proof. destruct a; cbn; [apply String.eqb_refl | reflexivity]. Qed.

Lemma answers_ok_app ids h1 h2 :
  answers_ok ids (h1 ++ h2) = answers_ok ids h1 && answers_ok (pending_after ids h1) h2.
Proof.
  revert ids. induction h1 as [|m h1 IH]; intros ids; [reflexivity|].
  destruct m; cbn; rewrite ?IH; [reflexivity | reflexivity | reflexivity |].
  rewrite Bool.andb_assoc. reflexivity.
Qed.

Lemma existsb_id_in id (ids : list (option string)) :
  In id ids -> existsb (opt_str_eqb id) ids = true.
Proof. intros Hin. apply existsb_exists. exists id. split; [exact Hin | apply opt_str_eqb_refl]. Qed.

Lemma dispatched_incl tools tcs : incl (dispatched tools tcs) tcs.
Proof. intros tc Hin. unfold dispatched in Hin. apply filter_In in Hin. tauto. Qed.

(** Tool messages that carry the ids of calls among [tcs] answer them. *)
Lemma tool_messages_ok (rs : list Message) (l tcs : list ToolCall) :
  map tool_call_id_of rs = map (fun tc => Some (tc_id tc)) l -> incl l tcs ->
  answers_ok (map tc_id tcs) rs = true.
Proof.
  revert l. induction rs as [|r rs IH]; intros l Hids Hincl; [reflexivity|].
  destruct l as [|tc l]; [discriminate|]. cbn in Hids. injection Hids as Hr Hids.
  destruct r; try discriminate Hr. injection Hr as ->. cbn.
  rewrite existsb_id_in by (apply in_map, Hincl; left; reflexivity).
  apply (IH l Hids). intros x Hx. apply Hincl. right. exact Hx.
Qed.

Lemma models_ok_app a b : models_ok (a ++ b) = models_ok a && models_ok b.
Proof. apply forallb_app. Qed.

Lemma models_ok_silent ev : model_calls ev = 0%nat -> models_ok ev = true.
Proof.
  induction ev as [|e ev IH]; [reflexivity|].
  destruct e; cbn; unfold model_calls in *; cbn; intros H; [discriminate | apply IH; exact H..].
Qed.

#[export] Hint Rewrite answers_ok_app models_ok_app : agent_rw.

Section Invariant.
Context {W : Type} `{AgentWorld W}.

(** A round that continues keeps the history well formed. *)
Lemma iteration_answers_ok tools message (st st' : LoopState W) m' :
  answers_ok [] message = true ->
  iteration tools message st = (st', inr (Continue m')) ->
  answers_ok [] m' = true.
Proof.
  intros Hok E. destruct (iteration_ok _ _ _ _ _ E) as (w1 & c & tcs & _ & Ho).
  destruct (has_no_tool_calls tcs); [discriminate Ho|].
  destruct Ho as (m & Hm & Hr). injection Hm as <-.
  destruct (run_tool_calls_ok _ _ _ _ _ _ Hr) as (_ & rs & -> & Hids).
  rewrite <- app_assoc, answers_ok_app, Hok. cbn [app answers_ok].
  exact (tool_messages_ok rs _ _ Hids (dispatched_incl _ _)).
Qed.

Lemma loop_models_ok tools n message (st : LoopState W) :
  answers_ok [] message = true ->
  exists ev, trace (fst (loop tools n message st)) = (trace st ++ ev)%list /\
             models_ok ev = true.
Proof.
  revert message st. induction n as [|n IH]; intros message st Hok; cbn [loop].
  - exists []. rewrite app_nil_r. auto.
  - unfold mbind. destruct (iteration_trace tools message st) as (ev & Hev & Hc).
    assert (Hm : models_ok ([EvLog log_thinking; EvModel message] ++ ev) = true).
    { rewrite models_ok_app, (models_ok_silent ev Hc). cbn. rewrite Hok. reflexivity. }
    destruct (iteration tools message st) as [st1 [e|[a m'|m']]] eqn:Ei;
      cbn [fst mret] in Hev |- *; try (rewrite Hev; eauto; fail).
    destruct (IH m' st1 (iteration_answers_ok _ _ _ _ _ Hok Ei)) as (ev' & Hev' & Hm').
    rewrite Hev', Hev, <- app_assoc. eexists; split; [reflexivity|].
    rewrite models_ok_app, Hm, Hm'. reflexivity.
Qed.

(** C15: whatever the model and the tools do, every history [runWithTools]
    sends to the model is well formed: each tool message answers a call
    of the assistant message it follows. *)
Theorem runWithTools_histories_ok resourceContent tools query maxIterations (st : LoopState W) :
  exists ev,
    trace (fst (runWithTools resourceContent tools query maxIterations st)) = (trace st ++ ev)%list /\
    forall h, In (EvModel h) ev -> answers_ok [] h = true.
Proof.
  unfold runWithTools, mbind.
  match goal with |- context [loop ?a ?b ?c ?d] =>
    destruct (loop_models_ok a b c d eq_refl) as (ev & Hev & Hm); destruct (loop a b c d) as [st1 r]
  end.
  cbn [fst] in Hev. exists ev. split.
  - destruct r as [e|[a m|m]]; cbn; [exact Hev | exact Hev | destruct (last_content m); exact Hev].
  - intros h Hin. unfold models_ok in Hm. rewrite forallb_forall in Hm. exact (Hm _ Hin).
Qed.
(** The history a round continues with extends the one it was given. *)
Lemma iteration_extends tools message (st st' : LoopState W) m' :
  iteration tools message st = (st', inr (Continue m')) -> extends message m'.
Proof.
  intros E. destruct (iteration_ok _ _ _ _ _ E) as (w1 & c & tcs & _ & Ho).
  destruct (has_no_tool_calls tcs); [discriminate Ho|].
  destruct Ho as (m & Hm & Hr). injection Hm as <-.
  destruct (run_tool_calls_ok _ _ _ _ _ _ Hr) as (_ & rs & -> & _).
  exists (AIMessage c tcs :: rs). rewrite <- app_assoc. reflexivity.
Qed.

Lemma loop_append_only tools n message (st : LoopState W) :
  exists ev, trace (fst (loop tools n message st)) = (trace st ++ ev)%list /\
             Forall (extends message) (model_histories ev) /\ Sorted extends (model_histories ev).
Proof.
  revert message st. induction n as [|n IH]; intros message st; cbn [loop].
  - exists []. rewrite app_nil_r. auto.
  - unfold mbind. destruct (iteration_trace tools message st) as (ev & Hev & Hc).
    assert (Hh : model_histories ([EvLog log_thinking; EvModel message] ++ ev) = [message]).
    { rewrite model_histories_app, (model_histories_silent ev Hc). reflexivity. }
    destruct (iteration tools message st) as [st1 [e|[a m'|m']]] eqn:Ei;
      cbn [fst mret] in Hev |- *;
      try (rewrite Hev; eexists; split; [reflexivity|]; rewrite Hh; auto with agent; fail).
    destruct (IH m' st1) as (ev' & Hev' & Hf & Hs). pose proof (iteration_extends _ _ _ _ _ Ei) as Hx.
    rewrite Hev', Hev, <- app_assoc. eexists; split; [reflexivity|].
    rewrite model_histories_app, Hh. cbn [app]. split.
    + constructor; [apply extends_refl|]. eapply Forall_impl; [|exact Hf].
      intros h. apply extends_trans. exact Hx.
    + constructor; [exact Hs|]. destruct (model_histories ev') as [|h hs]; constructor.
      inversion Hf; subst. eapply extends_trans; eassumption.
Qed.

(** C16: the conversation is append-only: every history [runWithTools]
    sends to the model starts with the system and human messages, and
    each one extends the one sent before it; no message is ever removed,
    replaced or reordered between rounds. *)
Theorem runWithTools_append_only resourceContent tools query maxIterations (st : LoopState W) :
  exists ev,
    trace (fst (runWithTools resourceContent tools query maxIterations st)) = (trace st ++ ev)%list /\
    Forall (extends [SystemMessage (JStr resourceContent); HumanMessage (JStr query)]) (model_histories ev) /\
    Sorted extends (model_histories ev).
Proof.
  unfold runWithTools, mbind.
  match goal with |- context [loop ?a ?b ?c ?d] =>
    destruct (loop_append_only a b c d) as (ev & Hev & Hf & Hs); destruct (loop a b c d) as [st1 r]
  end.
  cbn [fst] in Hev. exists ev.
  destruct r as [e|[a m|m]]; cbn; [| | destruct (last_content m)]; cbn; auto.
Qed.
End Invariant.
