(* ===== verification/AgentScenarios.v ===== *)
(** * Concrete worlds for [runWithTools]: scenarios and witnesses

    Two instances of the [AgentWorld] interface: [Script], a model that
    gives the [n]-th scripted answer at its [n]-th call (and may throw),
    with tools that answer by a function; and [Stub], the same without
    exceptions.  On them the file runs the scenario of the spec's
    section 8 (two rounds, a model that always requests a tool) and
    applies every loop theorem with hypotheses at a concrete input. *)

From Stdlib Require Import String List ZArith Lia.
From S2P Require Import Prelude JsValue ToolResult Messages AgentLoop.
Import ListNotations.
Local Open Scope string_scope.
Local Open Scope agent_scope.

Record Script : Type := mkScript {
  step : nat;
  answer : nat -> js_exn + (jsval * option (list ToolCall));
  result : Tool -> jsval -> js_exn + jsval
}.

#[export] Instance script_world : AgentWorld Script := {|
  invoke_model w _ := (mkScript (S (step w)) (answer w) (result w), answer w (step w));
  invoke_tool w t a := (w, result w t a)
|}.

Record Stub : Type := mkStub {
  stub_step : nat;
  stub_answer : nat -> jsval * option (list ToolCall);
  stub_result : Tool -> jsval -> string
}.

#[export] Instance stub_world : AgentWorld Stub := {|
  invoke_model w _ := (mkStub (S (stub_step w)) (stub_answer w) (stub_result w),
                       inr (stub_answer w (stub_step w)));
  invoke_tool w t a := (w, inr (JStr (stub_result w t a)))
|}.

(** ** Fixtures *)

Definition lookup_call : ToolCall := mkToolCall "lookup" (JObj [("q", JStr "hotel")]) (Some "call_1").
Definition open_call : ToolCall := mkToolCall "open_page" (JObj []) (Some "call_2").
Definition lookup_tool : Tool := mkTool "lookup" 0.

(** A model that requests [lookup] at every call, answering "a1", "a2", ... *)
Definition always_lookup : Script :=
  mkScript 0 (fun n => inr (JStr ("a" ++ number_to_string (Z.of_nat (S n))), Some [lookup_call]))
           (fun _ _ => inr (JStr "r")).

Definition init_history : list Message :=
  [SystemMessage (JStr "res"); HumanMessage (JStr "q")].

(** ** The budget scenario of the spec's section 8 *)

(** With [maxIterations = 2] and a model that always requests a
    tool the registry lacks, the loop calls the model exactly twice,
    invokes no tool, and returns the content of the second assistant
    message, as the spec's scenario says. *)
Theorem budget_scenario_missing_tool :
  let r := runWithTools "res" [] "q" 2 (mkLoopState always_lookup []) in
  model_calls (trace (fst r)) = 2 /\ tool_calls_made (trace (fst r)) = 0 /\
  snd r = inr (JStr "a2").
Proof. vm_compute. repeat split. Qed.

(** ** Witnesses of the loop theorems *)

Definition one_round : Script :=
  mkScript 0 (fun _ => inr (JStr "c", Some [lookup_call; open_call])) (fun _ _ => inr (JStr "r")).

Definition one_round_result : LoopState Script * (js_exn + Outcome) :=
  iteration [lookup_tool] init_history (mkLoopState one_round []).

Definition one_round_outcome : Outcome :=
  Continue (init_history ++ [AIMessage (JStr "c") (Some [lookup_call; open_call]);
                             ToolMessage (JStr "r") (Some "call_1")]).

Lemma iteration_appends_witness :
  iteration [lookup_tool] init_history (mkLoopState one_round [])
  = (fst one_round_result, inr one_round_outcome) /\
  exists w1 c tcs rs,
    invoke_model (world (mkLoopState one_round [])) init_history = (w1, inr (c, tcs)) /\
    map tool_call_id_of rs
      = map (fun tc => Some (tc_id tc)) (dispatched [lookup_tool] (requested_calls tcs)) /\
    match one_round_outcome with
    | Returned answer m' =>
        has_no_tool_calls tcs = true /\ answer = c /\ rs = [] /\
        m' = (init_history ++ [AIMessage c tcs])%list
    | Continue m' =>
        has_no_tool_calls tcs = false /\ m' = (init_history ++ AIMessage c tcs :: rs)%list
    end.
Proof.
  assert (E : iteration [lookup_tool] init_history (mkLoopState one_round [])
              = (fst one_round_result, inr one_round_outcome)) by (vm_compute; reflexivity).
  split; [exact E | exact (iteration_appends _ _ _ _ _ E)].
Defined.

Definition final_answer : Script :=
  mkScript 0 (fun _ => inr (JStr "done", None)) (fun _ _ => inr (JStr "r")).

Lemma runWithTools_first_answer_witness :
  (0 < 30)%Z /\
  invoke_model (world (mkLoopState final_answer [])) init_history
    = (mkScript 1 (answer final_answer) (result final_answer), inr (JStr "done", None)) /\
  has_no_tool_calls None = true /\
  runWithTools "res" [lookup_tool] "q" 30 (mkLoopState final_answer [])
  = (mkLoopState (mkScript 1 (answer final_answer) (result final_answer))
       ([EvLog log_thinking; EvModel init_history; EvLog (log_final (JStr "done"))]),
     inr (JStr "done")).
Proof.
  split; [lia|]. split; [reflexivity|]. split; [reflexivity|].
  eapply (runWithTools_first_answer "res" [lookup_tool] "q" 30 (mkLoopState final_answer []));
    [lia | reflexivity | reflexivity].
Defined.

Definition model_down : Script :=
  mkScript 0 (fun _ => inl (Thrown (JStr "503"))) (fun _ _ => inr (JStr "r")).

Lemma runWithTools_model_error_witness :
  (0 < 30)%Z /\
  invoke_model (world (mkLoopState model_down [])) init_history
    = (mkScript 1 (answer model_down) (result model_down), inl (Thrown (JStr "503"))) /\
  runWithTools "res" [lookup_tool] "q" 30 (mkLoopState model_down [])
  = (mkLoopState (mkScript 1 (answer model_down) (result model_down))
       ([EvLog log_thinking; EvModel init_history]),
     inl (Thrown (JStr "503"))).
Proof.
  split; [lia|]. split; [reflexivity|].
  eapply (runWithTools_model_error "res" [lookup_tool] "q" 30 (mkLoopState model_down []));
    [lia | reflexivity].
Defined.

Definition tool_down : Script :=
  mkScript 0 (fun _ => inr (JStr "c", Some [lookup_call; lookup_call]))
           (fun _ _ => inl (Thrown (JStr "timeout"))).

Lemma iteration_tool_error_witness :
  invoke_model (world (mkLoopState tool_down [])) init_history
    = (mkScript 1 (answer tool_down) (result tool_down),
       inr (JStr "c", Some [lookup_call; lookup_call])) /\
  find_tool [lookup_tool] (tc_name lookup_call) = Some lookup_tool /\
  invoke_tool (mkScript 1 (answer tool_down) (result tool_down)) lookup_tool (tc_args lookup_call)
    = (mkScript 1 (answer tool_down) (result tool_down), inl (Thrown (JStr "timeout"))) /\
  iteration [lookup_tool] init_history (mkLoopState tool_down [])
  = (mkLoopState (mkScript 1 (answer tool_down) (result tool_down))
       ([] ++ [EvLog log_thinking; EvModel init_history;
               EvLog (log_detected (length [lookup_call; lookup_call]));
               EvLog (log_calls [lookup_call; lookup_call]);
               EvTool lookup_tool (tc_args lookup_call)])%list,
     inl (Thrown (JStr "timeout"))).
Proof.
  split; [reflexivity|]. split; [reflexivity|]. split; [reflexivity|].
  eapply (iteration_tool_error [lookup_tool] init_history (mkLoopState tool_down []));
    reflexivity.
Defined.

Definition bad_part : Script :=
  mkScript 0 (fun _ => inr (JStr "c", Some [lookup_call; lookup_call]))
           (fun _ _ => inr (JObj [("content", JArr [JNull])])).

Lemma iteration_normalize_error_witness :
  invoke_model (world (mkLoopState bad_part [])) init_history
    = (mkScript 1 (answer bad_part) (result bad_part),
       inr (JStr "c", Some [lookup_call; lookup_call])) /\
  find_tool [lookup_tool] (tc_name lookup_call) = Some lookup_tool /\
  invoke_tool (mkScript 1 (answer bad_part) (result bad_part)) lookup_tool (tc_args lookup_call)
    = (mkScript 1 (answer bad_part) (result bad_part), inr (JObj [("content", JArr [JNull])])) /\
  normalizeToolResult (JObj [("content", JArr [JNull])]) = inl (read_error "null" "type") /\
  iteration [lookup_tool] init_history (mkLoopState bad_part [])
  = (mkLoopState (mkScript 1 (answer bad_part) (result bad_part))
       ([] ++ [EvLog log_thinking; EvModel init_history;
               EvLog (log_detected (length [lookup_call; lookup_call]));
               EvLog (log_calls [lookup_call; lookup_call]);
               EvTool lookup_tool (tc_args lookup_call)])%list,
     inl (read_error "null" "type")).
Proof.
  split; [reflexivity|]. split; [reflexivity|]. split; [reflexivity|]. split; [vm_compute; reflexivity|].
  eapply (iteration_normalize_error [lookup_tool] init_history (mkLoopState bad_part []));
    [reflexivity | reflexivity | reflexivity | vm_compute; reflexivity].
Defined.

Lemma iteration_unknown_tools_witness :
  invoke_model (world (mkLoopState always_lookup [])) init_history
    = (mkScript 1 (answer always_lookup) (result always_lookup),
       inr (JStr "a1", Some [lookup_call])) /\
  [lookup_call] <> [] /\
  dispatched [] [lookup_call] = [] /\
  iteration [] init_history (mkLoopState always_lookup [])
  = (mkLoopState (mkScript 1 (answer always_lookup) (result always_lookup))
       ([] ++ [EvLog log_thinking; EvModel init_history;
               EvLog (log_detected (length [lookup_call])); EvLog (log_calls [lookup_call])])%list,
     inr (Continue (init_history ++ [AIMessage (JStr "a1") (Some [lookup_call])])%list)).
Proof.
  split; [reflexivity|]. split; [discriminate|]. split; [reflexivity|].
  eapply (iteration_unknown_tools [] init_history (mkLoopState always_lookup []));
    [reflexivity | discriminate | reflexivity].
Defined.

Definition stub_lookup : Stub :=
  mkStub 0 (fun n => (JStr "a", if Nat.ltb n 3 then Some [lookup_call] else None))
         (fun _ _ => "r").

Lemma runWithTools_total_witness :
  (forall (w : Stub) h, exists w' r, invoke_model w h = (w', inr r)) /\
  (forall (w : Stub) t a, exists w' r,
      invoke_tool w t a = (w', inr r) /\ exists s, normalizeToolResult r = inr s) /\
  exists st' v, runWithTools "res" [lookup_tool] "q" 30 (mkLoopState stub_lookup []) = (st', inr v).
Proof.
  assert (Hm : forall (w : Stub) h, exists w' r, invoke_model w h = (w', inr r))
    by (intros; do 2 eexists; reflexivity).
  assert (Ht : forall (w : Stub) t a, exists w' r,
             invoke_tool w t a = (w', inr r) /\ exists s, normalizeToolResult r = inr s)
    by (intros; do 2 eexists; split; [reflexivity | eexists; reflexivity]).
  split; [exact Hm|]. split; [exact Ht|].
  exact (runWithTools_total "res" [lookup_tool] "q" 30 (mkLoopState stub_lookup []) Hm Ht).
Defined.

Lemma runWithTools_no_budget_witness :
  (0 <= 0)%Z /\
  runWithTools "res" [lookup_tool] "q" 0 (mkLoopState always_lookup [])
  = (mkLoopState always_lookup [], inr (JStr "q")).
Proof. split; [lia | apply runWithTools_no_budget; lia]. Defined.

(** A model that requests [lookup] in every answer; the world counts
    the calls. *)
Definition lookup_loop : AgentWorld nat := {|
  invoke_model n _ := (S n, inr (JStr ("a" ++ number_to_string (Z.of_nat (S n))), Some [lookup_call]));
  invoke_tool n _ _ := (n, inr (JStr "r"))
|}.

Lemma runWithTools_exhausted_witness :
  (forall (w : nat) h, exists w' c tcs,
      @invoke_model nat lookup_loop w h = (w', inr (c, tcs)) /\ has_no_tool_calls tcs = false) /\
  (forall (w : nat) t a, exists w' r,
      @invoke_tool nat lookup_loop w t a = (w', inr r) /\ exists s, normalizeToolResult r = inr s) /\
  (0 < 2)%Z /\
  exists st' ev st_n m_n w c tcs rs,
    @runWithTools nat lookup_loop "res" [lookup_tool] "q" 2 (mkLoopState 0 [])
      = (st', inr (content (last rs (AIMessage c tcs)))) /\
    trace st' = (trace (mkLoopState (W := nat) 0 []) ++ ev)%list /\ model_calls ev = Z.to_nat 2 /\
    @invoke_model nat lookup_loop (world st_n) m_n = (w, inr (c, tcs)) /\
    @iteration nat lookup_loop [lookup_tool] m_n st_n
      = (st', inr (Continue (m_n ++ AIMessage c tcs :: rs)%list)) /\
    map tool_call_id_of rs = map (fun tc => Some (tc_id tc)) (dispatched [lookup_tool] (requested_calls tcs)).
Proof.
  assert (Hm : forall (w : nat) h, exists w' c tcs,
             @invoke_model nat lookup_loop w h = (w', inr (c, tcs)) /\ has_no_tool_calls tcs = false)
    by (intros; do 3 eexists; split; reflexivity).
  assert (Ht : forall (w : nat) t a, exists w' r,
             @invoke_tool nat lookup_loop w t a = (w', inr r) /\ exists s, normalizeToolResult r = inr s)
    by (intros; do 2 eexists; split; [reflexivity | eexists; reflexivity]).
  split; [exact Hm|]. split; [exact Ht|]. split; [lia|].
  exact (@runWithTools_exhausted nat lookup_loop "res" [lookup_tool] "q" 2 (mkLoopState 0 []) Hm Ht
           ltac:(lia)).
Defined.
