(* ===== verification/Resources.v ===== *)
(** * Gathering the MCP resources into the system prompt (mcp-test.mjs 39-46)

    Before the conversation starts, the script lists the resources of
    every MCP server, reads each one, and appends the [text] of the first
    part of its content to [resourceContent], which becomes the system
    message of [runWithTools].  The MCP client is reached through the
    type class [McpClient]; the loop is written in the monad [M] of the
    prelude, with the client's world as state. *)

From Stdlib Require Import String List ZArith Lia.
From S2P Require Import Prelude JsValue.
Import ListNotations.
Local Open Scope string_scope.
Local Open Scope agent_scope.

(** The two calls the script makes on [mcpClient]. *)
Class McpClient (W : Type) : Type := {
  (** [await mcpClient.listResources()]: an object from server names to
      arrays of resource descriptors. *)
  list_resources : W -> W * (js_exn + jsval);
  (** [await mcpClient.readResource(serverName, resource.uri)]: the
      array of content parts. *)
  read_resource : W -> string -> jsval -> W * (js_exn + jsval)
}.

Section Gather.
Context {W : Type} `{McpClient W}.

Definition list_resources_m : M W js_exn jsval := fun w => list_resources w.

Definition read_resource_m (serverName : string) (uri : jsval) : M W js_exn jsval :=
  fun w => read_resource w serverName uri.

(** Lines 42-45: the resources of one server, in order.  [acc] is
    [resourceContent]; [+=] appends the ToString of [content[0].text]. *)
Fixpoint read_server (serverName : string) (resources : list jsval) (acc : string)
  : M W js_exn string :=
  match resources with
  | [] => mret acc
  | resource :: rest =>
      uri <- mlift (get_prop resource "uri") ;;
      content <- read_resource_m serverName uri ;;
      first <- mlift (get_index content 0) ;;
      text <- mlift (get_prop first "text") ;;
      read_server serverName rest (acc ++ to_js_string text)
  end.

(** Lines 41-46: the servers in the order of [Object.entries(res)]. *)
Fixpoint read_all (entries : list (string * jsval)) (acc : string) : M W js_exn string :=
  match entries with
  | [] => mret acc
  | (serverName, resources) :: rest =>
      rs <- mlift (js_iterate resources) ;;
      acc' <- read_server serverName rs acc ;;
      read_all rest acc'
  end.

(** Lines 39-46: the final value of [resourceContent]. *)
Definition gather_resources : M W js_exn string :=
  res <- list_resources_m ;;
  entries <- mlift (object_entries res) ;;
  read_all entries "".

End Gather.

(** ** Theorems *)

Section GatherFacts.
Context {W : Type} `{McpClient W}.

(** The first content part of every read is an object whose [text] is
    the string [f serverName uri], whatever the state of the client. *)
Definition reads_first_text (f : string -> jsval -> string) : Prop :=
  forall w s u, exists w' ps rest,
    read_resource w s u = (w', inr (JArr (JObj ps :: rest))) /\ obj_get ps "text" = JStr (f s u).

Lemma read_server_texts f serverName (rs : list (list (string * jsval))) acc (w : W) :
  reads_first_text f ->
  exists w', read_server serverName (map JObj rs) acc w
             = (w', inr (acc ++ String.concat "" (map (fun r => f serverName (obj_get r "uri")) rs))).
Proof.
  intros Hf. revert acc w. induction rs as [|r rs IH]; intros acc w; simpl.
  - exists w. rewrite string_append_empty_r. reflexivity.
  - destruct (Hf w serverName (obj_get r "uri")) as (w1 & ps & rest & Hr & Ht).
    unfold mbind, read_resource_m, mlift. simpl. rewrite Hr. simpl. rewrite Ht. simpl.
    destruct (IH (acc ++ f serverName (obj_get r "uri")) w1) as [w2 E]. exists w2.
    rewrite E. rewrite string_append_assoc. destruct rs; simpl; [rewrite string_append_empty_r|]; reflexivity.
Qed.

Lemma read_all_texts f (servers : list (string * list (list (string * jsval)))) acc (w : W) :
  reads_first_text f ->
  exists w', read_all (map (fun sr => (fst sr, JArr (map JObj (snd sr)))) servers) acc w
             = (w', inr (acc ++ String.concat "" (map (fun sr => String.concat ""
                          (map (fun r => f (fst sr) (obj_get r "uri")) (snd sr))) servers))).
Proof.
  intros Hf. revert acc w. induction servers as [|[s rs] servers IH]; intros acc w; simpl.
  - exists w. rewrite string_append_empty_r. reflexivity.
  - unfold mbind at 1. simpl.
    destruct (read_server_texts f s rs acc w Hf) as [w2 E]. unfold mbind in E |- *. rewrite E.
    destruct (IH (acc ++ String.concat "" (map (fun r => f s (obj_get r "uri")) rs)) w2)
      as [w3 E3].
    exists w3. rewrite E3, string_append_assoc.
    destruct servers; simpl; [rewrite string_append_empty_r|]; reflexivity.
Qed.

(** C21: when no server name is an array index (as for the four named
    servers of the script) and every resource's first content part has a
    string [text], the system prompt is the concatenation of those texts,
    server by server in the order the servers are listed, resource by
    resource in the order of each server's list, with no separator. *)
Theorem gather_resources_concat f (servers : list (string * list (list (string * jsval))))
        (w w1 : W) :
  reads_first_text f ->
  list_resources w = (w1, inr (JObj (map (fun sr => (fst sr, JArr (map JObj (snd sr)))) servers))) ->
  Forall (fun s => array_index s = None) (map fst servers) ->
  exists w', gather_resources w
             = (w', inr (String.concat "" (map (fun sr => String.concat ""
                          (map (fun r => f (fst sr) (obj_get r "uri")) (snd sr))) servers))).
Proof.
  intros Hf Hl Hidx. unfold gather_resources, mbind, list_resources_m, mlift.
  rewrite Hl. simpl. rewrite js_entries_no_index.
  2:{ clear Hl. induction servers as [|[s rs] servers IH]; simpl; [reflexivity|].
      inversion Hidx as [|? ? Hs Hrest]; subst. unfold is_index_key. simpl in *. rewrite Hs.
      exact (IH Hrest). }
  exact (read_all_texts f servers "" w1 Hf).
Qed.

(** C28: a resource whose first content part has no [text] (a binary
    resource carries [blob] instead) does not fail: [+=] appends the
    nine characters "undefined" to the system prompt. *)
Theorem read_server_missing_text serverName r acc (w w' : W) ps rest :
  read_resource w serverName (obj_get r "uri") = (w', inr (JArr (JObj ps :: rest))) ->
  obj_get ps "text" = JUndefined ->
  read_server serverName [JObj r] acc w = (w', inr (acc ++ "undefined")).
Proof.
  intros Hr Ht. unfold read_server, mbind, read_resource_m, mlift. simpl.
  rewrite Hr. simpl. rewrite Ht. reflexivity.
Qed.

(** C29: a resource whose content is an empty array makes [content[0]]
    undefined, so reading its [text] throws a TypeError, which aborts the
    whole gathering: the resources after it are not read. *)
Theorem read_server_empty_content serverName r others acc (w w' : W) :
  read_resource w serverName (obj_get r "uri") = (w', inr (JArr [])) ->
  exists msg, read_server serverName (JObj r :: others) acc w = (w', inl (TypeError msg)).
Proof.
  intros Hr. unfold read_server, mbind, read_resource_m, mlift. simpl.
  rewrite Hr. simpl. eexists. reflexivity.
Qed.
End GatherFacts.

(** ** A concrete client

    A client whose server listing and resource contents are fixed; its
    state counts the reads. *)

Definition fixed_client (res : jsval) (contents : string -> jsval -> jsval) : McpClient nat := {|
  list_resources n := (n, inr res);
  read_resource n s u := (S n, inr (contents s u))
|}.

Definition blob_contents (s : string) (u : jsval) : jsval :=
  JArr [JObj [("uri", u); ("blob", JStr "iVBOR")]].

Definition blob_client : McpClient nat :=
  fixed_client (JObj [("my-mcp-server", JArr [JObj [("uri", JStr "file://logo.png")]])]) blob_contents.

Lemma read_server_missing_text_witness :
  @read_resource nat blob_client 0 "my-mcp-server" (obj_get [("uri", JStr "file://logo.png")] "uri")
    = (1, inr (JArr [JObj [("uri", JStr "file://logo.png"); ("blob", JStr "iVBOR")]])) /\
  obj_get [("uri", JStr "file://logo.png"); ("blob", JStr "iVBOR")] "text" = JUndefined /\
  @read_server nat blob_client "my-mcp-server" [JObj [("uri", JStr "file://logo.png")]] "" 0
    = (1, inr ("" ++ "undefined")).
Proof.
  split; [reflexivity|]. split; [reflexivity|].
  eapply (@read_server_missing_text nat blob_client); reflexivity.
Defined.

Definition empty_client : McpClient nat :=
  fixed_client (JObj [("filesystem", JArr [JObj [("uri", JStr "file://a")]; JObj [("uri", JStr "file://b")]])])
               (fun _ _ => JArr []).

Lemma read_server_empty_content_witness :
  @read_resource nat empty_client 0 "filesystem" (obj_get [("uri", JStr "file://a")] "uri")
    = (1, inr (JArr [])) /\
  exists msg, @read_server nat empty_client "filesystem"
                [JObj [("uri", JStr "file://a")]; JObj [("uri", JStr "file://b")]] "" 0
              = (1, inl (TypeError msg)).
Proof.
  split; [reflexivity|].
  eapply (@read_server_empty_content nat empty_client); reflexivity.
Defined.

Definition uri_text (s : string) (u : jsval) : string := s ++ ":" ++ to_js_string u.

Definition demo_servers : list (string * list (list (string * jsval))) :=
  [("my-mcp-server", [[("uri", JStr "a")]; [("uri", JStr "b")]]);
   ("filesystem", [[("uri", JStr "c")]])].

Definition demo_client : McpClient nat :=
  fixed_client (JObj (map (fun sr => (fst sr, JArr (map JObj (snd sr)))) demo_servers))
               (fun s u => JArr [JObj [("text", JStr (uri_text s u))]]).

Lemma gather_resources_concat_witness :
  @reads_first_text nat demo_client uri_text /\
  @list_resources nat demo_client 0
    = (0, inr (JObj (map (fun sr => (fst sr, JArr (map JObj (snd sr)))) demo_servers))) /\
  Forall (fun s => array_index s = None) (map fst demo_servers) /\
  exists w', @gather_resources nat demo_client 0
             = (w', inr (String.concat "" (map (fun sr => String.concat ""
                   (map (fun r => uri_text (fst sr) (obj_get r "uri")) (snd sr))) demo_servers))).
Proof.
  assert (Hf : @reads_first_text nat demo_client uri_text).
  { intros w s u. do 3 eexists. split; reflexivity. }
  split; [exact Hf|]. split; [reflexivity|]. split; [repeat constructor|].
  eapply (@gather_resources_concat nat demo_client); [exact Hf | reflexivity | repeat constructor].
Defined.
