(* ===== verification/McpMain.v ===== *)
(** * The main program of mcp-test.mjs (lines 39-112)

    The script gathers the MCP resources into [resourceContent]
    (Resources.v), fetches the tools of every server ([getTools], line
    48), binds them to the chat model ([bindTools], line 49), runs
    [runWithTools] (AgentLoop.v) once on a fixed query with the default
    budget of 30 rounds (lines 109-111), and closes the MCP client (line
    112).  The host of these calls is the class [McpHost], over one world
    shared with the MCP client of Resources.v and the services of the
    loop; the whole program runs in the state of the loop, [LoopState],
    and the steps that only touch the world are lifted by [on_world].

    There is no [try]/[finally]: an exception of any step ends the
    program, and [close] only runs after a run that returned. *)

From Stdlib Require Import String List ZArith Lia.
From S2P Require Import Prelude JsValue ToolResult Messages AgentLoop LoopSpec Resources.
Import ListNotations.
Local Open Scope string_scope.
Local Open Scope agent_scope.

Class McpHost (W : Type) : Type := {
  (** [await mcpClient.getTools()]. *)
  get_tools : W -> W * (js_exn + list Tool);
  (** [model.bindTools(tools)]: the model the loop invokes is bound to
      these tools from now on; the call is synchronous and does not fail. *)
  bind_tools : W -> list Tool -> W;
  (** [await mcpClient.close()]. *)
  close : W -> W * (js_exn + unit)
}.

(** Line 110. *)
Definition main_query : string :=
  "广州南站最近的3个酒店，拿到酒店图片，打开浏览器，展示每个酒店的图片，一个tab一个url展示，并且把对应的标题改为酒店名称".

(** Line 51: the default value of the parameter [maxIterations], taken
    when the argument is [undefined] (absent). *)
Definition with_default (maxIterations : option Z) : Z :=
  match maxIterations with Some n => n | None => 30%Z end.

Section Main.
Context {W : Type} `{McpClient W} `{AgentWorld W} `{McpHost W}.

Abbreviation LM := (M (LoopState W) js_exn).

(** A step that only acts on the world. *)
Definition on_world {A} (c : M W js_exn A) : LM A :=
  fun st => let (w', r) := c (world st) in (mkLoopState w' (trace st), r).

Definition get_tools_m : M W js_exn (list Tool) := fun w => get_tools w.

Definition bind_tools_m (tools : list Tool) : M W js_exn unit :=
  fun w => (bind_tools w tools, inr tt).

Definition close_m : M W js_exn unit := fun w => close w.

(** Lines 39-112. *)
Definition mcp_main : LM unit :=
  resourceContent <- on_world gather_resources ;;
  tools <- on_world get_tools_m ;;
  on_world (bind_tools_m tools) ;;;
  _ <- runWithTools resourceContent tools main_query (with_default None) ;;
  on_world close_m.

End Main.

(** ** Theorems *)

Section MainFacts.
Context {W : Type} `{McpClient W} `{AgentWorld W} `{McpHost W}.

(** Once the resources are gathered into [rc] and the tools fetched, the
    program is [runWithTools rc tools query 30] on the world where the
    tools are bound, then [close] when the run returns. *)
Lemma mcp_main_eq (st : LoopState W) w1 rc w2 tools :
  gather_resources (world st) = (w1, inr rc) ->
  get_tools w1 = (w2, inr tools) ->
  mcp_main st =
  let (st', r) := runWithTools rc tools main_query 30 (mkLoopState (bind_tools w2 tools) (trace st)) in
  match r with
  | inl e => (st', inl e)
  | inr _ => let (w', r') := close (world st') in (mkLoopState w' (trace st'), r')
  end.
Proof.
  intros Hg Ht. unfold mcp_main, mbind at 1, on_world at 1. rewrite Hg. cbn [world trace].
  unfold mbind at 1, on_world at 1, get_tools_m. cbn [world trace]. rewrite Ht.
  unfold mbind at 1, on_world at 1, bind_tools_m. cbn [world trace with_default].
  unfold mbind. destruct (runWithTools _ _ _ _ _) as [st' [e|a]]; reflexivity.
Qed.

(** C19: an exception while gathering the resources (an empty content
    array, for instance) ends the program before the tools are fetched:
    the model is never called and the client is not closed. *)
Theorem mcp_main_gather_error (st : LoopState W) w1 e :
  gather_resources (world st) = (w1, inl e) ->
  mcp_main st = (mkLoopState w1 (trace st), inl e).
Proof.
  intros Hg. unfold mcp_main, mbind at 1, on_world at 1. rewrite Hg. reflexivity.
Qed.

(** A loop with rounds left starts by logging and calling the model on
    the history it is given; what follows only appends. *)
Lemma loop_first_call tools n message (st : LoopState W) :
  exists ev, trace (fst (loop tools (S n) message st))
             = (trace st ++ [EvLog log_thinking; EvModel message] ++ ev)%list.
Proof.
  cbn [loop]. unfold mbind at 1.
  destruct (iteration_trace tools message st) as (ev & Hev & _).
  destruct (iteration tools message st) as [st1 [e|[a m|m]]]; cbn [fst mret] in Hev |- *;
    [eauto | eauto |].
  destruct (loop_trace tools n m st1) as (ev' & Hev' & _). rewrite Hev', Hev, <- !app_assoc.
  eauto.
Qed.

(** C10: the resources reach the model: once they are gathered into [rc]
    and the tools fetched, the first events of the program are the
    "waiting" line and a model call whose history is the system message
    [rc] followed by the query of line 110; everything after only
    appends to the trace. *)
Theorem mcp_main_first_prompt (st : LoopState W) w1 rc w2 tools :
  gather_resources (world st) = (w1, inr rc) ->
  get_tools w1 = (w2, inr tools) ->
  exists ev, trace (fst (mcp_main st)) =
             (trace st ++ [EvLog log_thinking;
                           EvModel [SystemMessage (JStr rc); HumanMessage (JStr main_query)]]
                       ++ ev)%list.
Proof.
  intros Hg Ht. rewrite (mcp_main_eq st w1 rc w2 tools Hg Ht).
  unfold runWithTools. cbn [with_default]. change (Z.to_nat 30) with (S 29). unfold mbind.
  match goal with |- context [loop ?a (S 29) ?c ?d] =>
    destruct (loop_first_call a 29 c d) as (ev & Hev); destruct (loop a (S 29) c d) as [st1 r] end.
  cbn [fst trace] in Hev.
  destruct r as [e|[c m|m]]; cbn [mret mlift]; [| | destruct (last_content m)]; cbn;
    try destruct (close (world st1)); cbn; rewrite Hev; eexists; reflexivity.
Qed.

(** C11: the whole program refines the machine of the loop: once the
    resources are gathered into [rc] and the tools fetched, its service
    calls are the labels of a path of the machine from the state awaiting
    the model on the system message [rc] and the query, with 30 rounds
    and the world where the tools are bound, to a terminal configuration
    [(final, w)]; an exception of [final] is the program's exception,
    raised in [w], and an answer or an exhausted budget is followed by
    [close] on [w], whose result and world are the program's. *)
Theorem mcp_main_refines (st : LoopState W) w1 rc w2 tools :
  gather_resources (world st) = (w1, inr rc) ->
  get_tools w1 = (w2, inr tools) ->
  exists ls final w,
    steps tools (initial rc main_query 30 (bind_tools w2 tools)) ls (final, w) /\
    terminal final = true /\
    service_events (trace (fst (mcp_main st))) = (service_events (trace st) ++ map label_event ls)%list /\
    match outcome final with
    | Some (inl e) => snd (mcp_main st) = inl e /\ world (fst (mcp_main st)) = w
    | Some (inr _) => (world (fst (mcp_main st)), snd (mcp_main st)) = close w
    | None => False
    end.
Proof.
  intros Hg Ht. rewrite (mcp_main_eq st w1 rc w2 tools Hg Ht).
  unfold runWithTools, mbind. cbn [with_default]. change (Z.to_nat 30) with 30%nat.
  match goal with |- context [loop ?a 30 ?c ?d] =>
    destruct (loop_terminal_sim a 30 c d) as (ls & final & Hp & Hterm & Ho & He);
    destruct (loop a 30 c d) as [st1 r] end.
  cbn [fst snd trace world] in Hp, Ho, He. exists ls, final, (world st1). rewrite Ho.
  split; [exact Hp|]. split; [exact Hterm|].
  destruct r as [e'|[a m|m]]; cbn [run_result mret mlift].
  - split; [exact He | auto].
  - destruct (close (world st1)) as [w' r'] eqn:Ec. split; [exact He | reflexivity].
  - destruct (last_content m) as [e'|v]; cbn [fst snd trace world].
    + split; [exact He | auto].
    + destruct (close (world st1)) as [w' r'] eqn:Ec. split; [exact He | reflexivity].
Qed.
End MainFacts.

(** ** A concrete host *)

(** A model that answers "done" without tool calls; the world counts the
    calls. *)
Definition answer_world : AgentWorld nat := {|
  invoke_model n _ := (S n, inr (JStr "done", None));
  invoke_tool n _ _ := (n, inr (JStr ""))
|}.

Definition demo_host : McpHost nat := {|
  get_tools n := (n, inr [mkTool "maps_text_search" 0]);
  bind_tools n _ := n;
  close n := (n, inr tt)
|}.

Definition demo_rc : string := "my-mcp-server:amy-mcp-server:bfilesystem:c".

Lemma mcp_main_refines_witness :
  @gather_resources nat demo_client (world (mkLoopState 0 [])) = (3, inr demo_rc) /\
  @get_tools nat demo_host 3 = (3, inr [mkTool "maps_text_search" 0]) /\
  exists ls final w,
    @steps nat answer_world [mkTool "maps_text_search" 0]
           (initial demo_rc main_query 30 (@bind_tools nat demo_host 3 [mkTool "maps_text_search" 0]))
           ls (final, w) /\
    terminal final = true /\
    service_events (trace (fst (@mcp_main nat demo_client answer_world demo_host (mkLoopState 0 []))))
      = (service_events (trace (mkLoopState (W := nat) 0 [])) ++ map label_event ls)%list /\
    match outcome final with
    | Some (inl e) => snd (@mcp_main nat demo_client answer_world demo_host (mkLoopState 0 [])) = inl e /\
                      world (fst (@mcp_main nat demo_client answer_world demo_host (mkLoopState 0 []))) = w
    | Some (inr _) => (world (fst (@mcp_main nat demo_client answer_world demo_host (mkLoopState 0 []))),
                       snd (@mcp_main nat demo_client answer_world demo_host (mkLoopState 0 [])))
                      = @close nat demo_host w
    | None => False
    end.
Proof.
  split; [vm_compute; reflexivity|]. split; [reflexivity|].
  exact (@mcp_main_refines nat demo_client answer_world demo_host (mkLoopState 0 []) 3 demo_rc 3
           [mkTool "maps_text_search" 0] ltac:(vm_compute; reflexivity) eq_refl).
Defined.

Lemma mcp_main_first_prompt_witness :
  @gather_resources nat demo_client (world (mkLoopState 0 [])) = (3, inr demo_rc) /\
  @get_tools nat demo_host 3 = (3, inr [mkTool "maps_text_search" 0]) /\
  exists ev, trace (fst (@mcp_main nat demo_client answer_world demo_host (mkLoopState 0 []))) =
             (trace (mkLoopState (W := nat) 0 []) ++
              [EvLog log_thinking;
               EvModel [SystemMessage (JStr demo_rc); HumanMessage (JStr main_query)]] ++ ev)%list.
Proof.
  split; [vm_compute; reflexivity|]. split; [reflexivity|].
  exact (@mcp_main_first_prompt nat demo_client answer_world demo_host (mkLoopState 0 []) 3 demo_rc 3
           [mkTool "maps_text_search" 0] ltac:(vm_compute; reflexivity) eq_refl).
Defined.

Lemma mcp_main_gather_error_witness :
  @gather_resources nat empty_client (world (mkLoopState 0 [])) = (1, inl (read_error "undefined" "text")) /\
  @mcp_main nat empty_client answer_world demo_host (mkLoopState 0 [])
    = (mkLoopState 1 (trace (mkLoopState (W := nat) 0 [])), inl (read_error "undefined" "text")).
Proof.
  split; [vm_compute; reflexivity|].
  exact (@mcp_main_gather_error nat empty_client answer_world demo_host (mkLoopState 0 []) 1
           (read_error "undefined" "text") ltac:(vm_compute; reflexivity)).
Defined.
