(* ===== verification/Rag.v ===== *)
(** * The retrieval-augmented question loop (loader-and-splitter.mjs 59-107)

    For each question the script retrieves two chunks with the retriever,
    runs a second scored search, prints each retrieved chunk with the
    similarity found for it ([(1 - score).toFixed(4)], or "N/A"), joins
    the chunks into a numbered context, fills the prompt template and
    prints the model's answer.  The retriever, the vector store and the
    chat model are reached through the type class [RagServices]; the
    loop runs in the monad [M] of the prelude over a [RagState] that
    holds the services' world, the trace of service calls and the
    console output.

    Scores are JavaScript numbers; they are modelled as rationals ([Q]).
    [1 - score] is then exact, as the double subtraction is whenever the
    score lies in [1/2, 2] (Sterbenz's lemma), and [toFixed] follows its
    ECMAScript definition on the exact value. *)

From Stdlib Require Import String Ascii List ZArith QArith Qround Qabs Lia Lqa Decimal DecimalString DecimalZ.
From S2P Require Import Prelude JsValue.
Import ListNotations.
Local Open Scope string_scope.
Local Open Scope agent_scope.
Local Open Scope nat_scope.

(** ** Documents and services *)

Record Document : Type := mkDocument {
  pageContent : string;
  metadata : jsval
}.

Class RagServices (W : Type) : Type := {
  (** [await retriever.invoke(question)] (k = 2). *)
  retrieve : W -> string -> W * (js_exn + list Document);
  (** [await vectorStore.similaritySearchVectorWithScore(question, 2)]. *)
  scored_search : W -> string -> nat -> W * (js_exn + list (Document * Q));
  (** [await model.invoke(prompt)]: the answer's [content]. *)
  ask_model : W -> string -> W * (js_exn + jsval)
}.

(** The calls the script makes on the library, in the order it makes
    them: the setup of lines 15-57 (RagPipeline.v) and the three calls of
    each question. *)
Inductive RagEvent : Type :=
| EvLoad (url : string)
| EvSplit (docs : list Document)
| EvStore (docs : list Document)
| EvRetriever (k : nat)
| EvRetrieve (question : string)
| EvScored (question : string) (k : nat)
| EvAsk (prompt : string).

(** [console.log(a1, a2, ...)]: the arguments of one call. *)
Definition ConsoleLine : Type := list jsval.

Record RagState (W : Type) : Type := mkRagState {
  rworld : W;
  calls : list RagEvent;
  console : list ConsoleLine
}.
Arguments mkRagState {W}.
Arguments rworld {W}.
Arguments calls {W}.
Arguments console {W}.

(** ** Pure parts: formatting, lookup, context and prompt *)

(** [s.repeat(n)]. *)
Fixpoint str_repeat (n : nat) (s : string) : string :=
  match n with O => "" | S n' => s ++ str_repeat n' s end.

(** The integer [n] of Number::toFixed(f) for a non-negative [x]: the
    integer closest to [x * 10^f], the larger one on a tie. *)
Definition fixed_round (f : nat) (x : Q) : Z :=
  Qfloor (x * inject_Z (Z.pow 10 (Z.of_nat f)) + (1 # 2))%Q.

(** Number::toFixed(f) on a value of magnitude below 10^21: the sign,
    then the integer [n] closest to [x * 10^f] (the larger on a tie),
    written with at least [f + 1] digits and a point before the last [f]. *)
Definition to_fixed (f : nat) (x : Q) : string :=
  let neg := negb (Qle_bool 0%Q x) in
  let x' := if neg then Qopp x else x in
  let n := fixed_round f x' in
  let m := number_to_string n in
  let m :=
    if Nat.eqb f 0 then m
    else
      let k := String.length m in
      let m := if Nat.leb k f then str_repeat (S f - k) "0" ++ m else m in
      let k := String.length m in
      substring 0 (k - f) m ++ "." ++ substring (k - f) f m in
  (if neg then "-" else "") ++ m.

(** Lines 77-81: the similarity printed for a retrieved document. *)
Definition similarity_of (scoredResults : list (Document * Q)) (doc : Document) : string :=
  match find (fun sd => String.eqb (pageContent (fst sd)) (pageContent doc)) scoredResults with
  | Some (_, score) => to_fixed 4 (1 - score)%Q
  | None => "N/A"
  end.




(** Line 85: [doc.metadata && Object.keys(doc.metadata).length > 0]. *)
Definition has_metadata (m : jsval) : bool :=
  truthy m && match object_entries m with
              | inr es => Nat.ltb 0 (length es)
              | inl _ => false
              end.

Definition fragment_separator : string := nl ++ nl ++ "━━━━━" ++ nl ++ nl.

Definition nat_to_string (n : nat) : string := number_to_string (Z.of_nat n).

(** Line 91: the fragment of the [i]-th retrieved document (from 0). *)
Definition fragment (i : nat) (doc : Document) : string :=
  "[片段" ++ nat_to_string (S i) ++ "]" ++ nl ++ pageContent doc.

Fixpoint fragments_from (i : nat) (docs : list Document) : list string :=
  match docs with
  | [] => []
  | d :: ds => fragment i d :: fragments_from (S i) ds
  end.

(** Lines 90-92. *)
Definition rag_context (docs : list Document) : string :=
  String.concat fragment_separator (fragments_from 0 docs).

(** Lines 94-101. *)
Definition rag_prompt (question context : string) : string :=
  "你是一个文章辅助阅读助手，根据文章内容来解答：" ++ nl ++ nl ++
  "文章内容：" ++ nl ++ context ++ nl ++ nl ++
  "问题: " ++ question ++ nl ++ nl ++ "你的回答:".

(** Line 59. *)
Definition questions : list string := ["父亲的去世对作者的人生态度产生了怎样的根本性逆转？"].

(** ** The loop *)

Section Loop.
Context {W : Type} `{RagServices W}.

Abbreviation RM := (M (RagState W) js_exn).

Definition log (args : list jsval) : RM unit :=
  fun st => (mkRagState (rworld st) (calls st) (console st ++ [args])%list, inr tt).

Definition retrieve_m (question : string) : RM (list Document) :=
  fun st => let (w', r) := retrieve (rworld st) question in
            (mkRagState w' (calls st ++ [EvRetrieve question])%list (console st), r).

Definition scored_search_m (question : string) (k : nat) : RM (list (Document * Q)) :=
  fun st => let (w', r) := scored_search (rworld st) question k in
            (mkRagState w' (calls st ++ [EvScored question k])%list (console st), r).

Definition ask_model_m (prompt : string) : RM jsval :=
  fun st => let (w', r) := ask_model (rworld st) prompt in
            (mkRagState w' (calls st ++ [EvAsk prompt])%list (console st), r).

(** Lines 75-88: [retrievedDocs.forEach((doc, i) => ...)]. *)
Fixpoint report_docs (i : nat) (scoredResults : list (Document * Q)) (docs : list Document)
  : RM unit :=
  match docs with
  | [] => mret tt
  | doc :: rest =>
      log [JStr (nl ++ "[文档 " ++ nat_to_string (S i) ++ "] 相似度: "
                 ++ similarity_of scoredResults doc)] ;;;
      log [JStr ("内容：" ++ pageContent doc)] ;;;
      (if has_metadata (metadata doc) then log [JStr "元数据:"; metadata doc] else mret tt) ;;;
      report_docs (S i) scoredResults rest
  end.

(** Lines 62-107: the body of the loop for one question. *)
Definition answer_question (question : string) : RM unit :=
  log [JStr (str_repeat 80 "=")] ;;;
  log [JStr ("问题: " ++ question)] ;;;
  log [JStr (str_repeat 80 "=")] ;;;
  retrievedDocs <- retrieve_m question ;;
  scoredResults <- scored_search_m question 2 ;;
  log [JStr (nl ++ "【检索到的文档和相似度评分】")] ;;;
  report_docs 0 scoredResults retrievedDocs ;;;
  let context := rag_context retrievedDocs in
  let prompt := rag_prompt question context in
  log [JStr (nl ++ "【AI 回答】")] ;;;
  content <- ask_model_m prompt ;;
  log [content] ;;;
  log [JStr nl].

(** Line 62: [for (const question of questions)]. *)
Fixpoint answer_all (qs : list string) : RM unit :=
  match qs with
  | [] => mret tt
  | q :: rest => answer_question q ;;; answer_all rest
  end.

End Loop.

(** ** Theorems *)

Section RagFacts.
Context {W : Type} `{RagServices W}.

(** Printing the retrieved documents only writes to the console. *)
Lemma report_docs_console i scoredResults docs (st : RagState W) :
  exists out, report_docs i scoredResults docs st
              = (mkRagState (rworld st) (calls st) (console st ++ out)%list, inr tt).
Proof.
  revert i st. induction docs as [|doc docs IH]; intros i st; cbn [report_docs].
  - exists []. destruct st. cbn. rewrite app_nil_r. reflexivity.
  - unfold mbind, log. cbn [rworld calls console].
    destruct (has_metadata (metadata doc)); cbn [mret rworld calls console];
      match goal with |- context [report_docs ?j ?s ?d ?st'] =>
        destruct (IH j st') as [out E]; rewrite E end;
      cbn; eexists; rewrite <- !app_assoc; reflexivity.
Qed.

Lemma retrieve_m_eq q (st : RagState W) w' r :
  retrieve (rworld st) q = (w', r) ->
  retrieve_m q st = (mkRagState w' (calls st ++ [EvRetrieve q]) (console st), r).
Proof. intros E. unfold retrieve_m. rewrite E. reflexivity. Qed.

Lemma scored_search_m_eq q k (st : RagState W) w' r :
  scored_search (rworld st) q k = (w', r) ->
  scored_search_m q k st = (mkRagState w' (calls st ++ [EvScored q k]) (console st), r).
Proof. intros E. unfold scored_search_m. rewrite E. reflexivity. Qed.

Lemma ask_model_m_eq p (st : RagState W) w' r :
  ask_model (rworld st) p = (w', r) ->
  ask_model_m p st = (mkRagState w' (calls st ++ [EvAsk p]) (console st), r).
Proof. intros E. unfold ask_model_m. rewrite E. reflexivity. Qed.

(** C22: when the three services answer, one question makes exactly
    three service calls, in this order: the retrieval, the scored search
    with k = 2, and one model call whose prompt is the template filled
    with the question and the context built from the retrieved documents
    (not from the scored ones). *)
Theorem answer_question_calls q (st : RagState W) w1 docs w2 scored w3 content :
  retrieve (rworld st) q = (w1, inr docs) ->
  scored_search w1 q 2 = (w2, inr scored) ->
  ask_model w2 (rag_prompt q (rag_context docs)) = (w3, inr content) ->
  exists out, answer_question q st
              = (mkRagState w3 (calls st ++ [EvRetrieve q; EvScored q 2;
                                              EvAsk (rag_prompt q (rag_context docs))])%list
                            (console st ++ out)%list, inr tt).
Proof.
  intros Hr Hs Ha. unfold answer_question, mbind at 1 2 3, log at 1 2 3.
  cbn [rworld calls console].
  unfold mbind at 1. erewrite (retrieve_m_eq q) by exact Hr.
  unfold mbind at 1. erewrite (scored_search_m_eq q 2) by exact Hs.
  unfold mbind at 1 2, log at 1. cbn [rworld calls console].
  match goal with |- context [report_docs ?j ?s ?d ?st'] =>
    destruct (report_docs_console j s d st') as [out E]; rewrite E end.
  unfold mbind at 1 2, log at 1. cbn [rworld calls console].
  erewrite (ask_model_m_eq (rag_prompt q (rag_context docs))) by exact Ha.
  unfold mbind, log. cbn [rworld calls console].
  eexists. rewrite <- !app_assoc. reflexivity.
Qed.
(** C20: an exception of the retriever is not caught: the question loop
    stops at the question whose retrieval fails, after printing its
    header, and the remaining questions are never asked. *)
Theorem answer_all_retrieve_error q rest (st : RagState W) w e :
  retrieve (rworld st) q = (w, inl e) ->
  answer_all (q :: rest) st
  = (mkRagState w (calls st ++ [EvRetrieve q])%list
                (console st ++ [[JStr (str_repeat 80 "=")]; [JStr ("问题: " ++ q)];
                                [JStr (str_repeat 80 "=")]])%list, inl e).
Proof.
  intros Hr. cbn [answer_all]. unfold answer_question, mbind at 1 2 3 4 5, log at 1 2 3.
  cbn [rworld calls console]. unfold mbind at 1. erewrite (retrieve_m_eq q) by exact Hr.
  cbn. rewrite <- !app_assoc. reflexivity.
Qed.
End RagFacts.

Lemma substring_length (s : string) (n m : nat) :
  (n + m <= String.length s)%nat -> String.length (substring n m s) = m.
Proof.
  revert n m. induction s as [|c s IH]; intros n m Hle; cbn in Hle.
  - assert (n = 0%nat /\ m = 0%nat) as [-> ->] by lia. reflexivity.
  - destruct n as [|n]; cbn.
    + destruct m as [|m]; cbn; [reflexivity|]. rewrite (IH 0 m) by lia. reflexivity.
    + apply IH. lia.
Qed.

Lemma str_repeat_length n s : String.length (str_repeat n s) = (n * String.length s)%nat.
Proof. induction n as [|n IH]; cbn; [reflexivity|]. rewrite length_append, IH. reflexivity. Qed.

(** [toFixed(4)] writes at least six characters ("0.0000"). *)
Lemma to_fixed_4_length x : (6 <= String.length (to_fixed 4 x))%nat.
Proof.
  unfold to_fixed. cbv zeta. cbn [Nat.eqb].
  set (m := number_to_string _).
  set (m' := if Nat.leb (String.length m) 4 then (str_repeat (S 4 - String.length m) "0" ++ m)%string else m).
  assert (Hm' : (5 <= String.length m')%nat).
  { subst m'. destruct (Nat.leb_spec (String.length m) 4).
    - rewrite length_append, str_repeat_length. change (String.length "0") with 1. lia.
    - lia. }
  destruct (negb _); rewrite ?length_append; cbn [String.length];
    rewrite !substring_length by lia; lia.
Qed.

(** ** Rounding of [toFixed] *)

Section Rounding.
Local Open Scope Q_scope.


End Rounding.

(** ** Reading back what [toFixed] prints *)

















(** C31: the similarity printed for a retrieved document is "N/A"
    exactly when the scored search returned no document with the same
    page content; otherwise it is computed from the first such result. *)
Theorem similarity_of_na scoredResults doc :
  similarity_of scoredResults doc = "N/A" <->
  forall d score, In (d, score) scoredResults -> pageContent d <> pageContent doc.
Proof.
  unfold similarity_of.
  destruct (find _ scoredResults) as [[d score]|] eqn:Hf.
  - apply find_some in Hf. destruct Hf as [Hin Heq]. cbn in Heq.
    apply String.eqb_eq in Heq. split.
    + intros E. pose proof (to_fixed_4_length (1 - score)%Q) as L. rewrite E in L. cbn in L. lia.
    + intros H'. exfalso. exact (H' d score Hin Heq).
  - split; [|reflexivity]. intros _ d' score' Hin Heq.
    apply (find_none _ _ Hf) in Hin. cbn in Hin. rewrite Heq, String.eqb_refl in Hin. discriminate.
Qed.

(** ** Concrete services *)

Definition fixed_rag (docs : list Document) (scored : list (Document * Q)) (answer : jsval)
  : RagServices nat := {|
  retrieve n _ := (S n, inr docs);
  scored_search n _ _ := (S n, inr scored);
  ask_model n _ := (S n, inr answer)
|}.

(** Services whose retriever always throws [e]. *)
Definition failing_rag (e : js_exn) : RagServices nat := {|
  retrieve n _ := (S n, inl e);
  scored_search n _ _ := (S n, inr []);
  ask_model n _ := (S n, inr JUndefined)
|}.

Definition chunk1 : Document := mkDocument "父亲去世后，作者开始珍惜时间。" (JObj [("source", JStr "juejin")]).
Definition chunk2 : Document := mkDocument "作者决定回到家乡。" (JObj []).

Definition demo_rag : RagServices nat :=
  fixed_rag [chunk1; chunk2] [(chunk2, (3 # 4)%Q)] (JStr "answer").

Lemma answer_question_calls_witness :
  @retrieve nat demo_rag (rworld (mkRagState 0 [] [])) (hd "" questions) = (1, inr [chunk1; chunk2]) /\
  @scored_search nat demo_rag 1 (hd "" questions) 2 = (2, inr [(chunk2, (3 # 4)%Q)]) /\
  @ask_model nat demo_rag 2 (rag_prompt (hd "" questions) (rag_context [chunk1; chunk2]))
    = (3, inr (JStr "answer")) /\
  exists out, @answer_question nat demo_rag (hd "" questions) (mkRagState 0 [] [])
              = (mkRagState 3 ([] ++ [EvRetrieve (hd "" questions); EvScored (hd "" questions) 2;
                                      EvAsk (rag_prompt (hd "" questions)
                                               (rag_context [chunk1; chunk2]))])%list
                            ([] ++ out)%list, inr tt).
Proof.
  split; [reflexivity|]. split; [reflexivity|]. split; [reflexivity|].
  eapply (@answer_question_calls nat demo_rag); reflexivity.
Defined.

Lemma answer_all_retrieve_error_witness :
  @retrieve nat (failing_rag (TypeError "fetch failed")) (rworld (mkRagState 0 [] [])) (hd "" questions)
    = (1, inl (TypeError "fetch failed")) /\
  @answer_all nat (failing_rag (TypeError "fetch failed")) questions (mkRagState 0 [] [])
  = (mkRagState 1 (calls (mkRagState (W := nat) 0 [] []) ++ [EvRetrieve (hd "" questions)])%list
                (console (mkRagState (W := nat) 0 [] []) ++
                 [[JStr (str_repeat 80 "=")]; [JStr ("问题: " ++ hd "" questions)];
                  [JStr (str_repeat 80 "=")]])%list, inl (TypeError "fetch failed")).
Proof.
  split; [reflexivity|].
  exact (@answer_all_retrieve_error nat (failing_rag (TypeError "fetch failed")) (hd "" questions) []
           (mkRagState 0 [] []) 1 (TypeError "fetch failed") eq_refl).
Defined.

