(* ===== verification/Config.v ===== *)
(** * Configuration read from the environment (all scripts)

    Every script builds its library objects from constants and from
    [process.env], filled by [dotenv] from the [.env] file.  This file
    models the environment as a finite map from variable names to
    strings (stdpp's [gmap]; a missing variable reads as [undefined]) and
    the configuration objects as records, with the JavaScript semantics
    the code relies on: [a || b] keeps [a] only when it is truthy, and a
    template literal converts [undefined] to the text "undefined".

    - [hello_model_config]: hello-langchain.mjs lines 6-12;
    - [mcp_model_config], [mcp_servers]: mcp-test.mjs lines 11-37;
    - [rag_loader], [rag_splitter], [rag_model_config],
      [rag_embeddings_config]: loader-and-splitter.mjs lines 8-41;
    - [latex_splitter], [markdown_splitter]: the text-splitter scripts. *)

From stdpp Require Import gmap strings.
From Stdlib Require Import String List ZArith Lia.
From S2P Require Import Prelude JsValue.
Import ListNotations.
Local Open Scope string_scope.

(** [process.env]. *)
Abbreviation Env := (gmap string string).

(** [process.env.NAME]: the string, or [undefined]. *)
Definition env_get (env : Env) (name : string) : jsval :=
  match env !! name with Some s => JStr s | None => JUndefined end.

(** [a || b]. *)
Definition js_or (a b : jsval) : jsval := if truthy a then a else b.

(** ** Chat model and embeddings clients *)

Record ClientConfig : Type := mkClientConfig {
  modelName : jsval;
  apiKey : jsval;
  baseURL : jsval;
  temperature : option Z
}.

(** hello-langchain.mjs lines 6-12. *)
Definition hello_model_config (env : Env) : ClientConfig :=
  mkClientConfig (js_or (env_get env "MODEL_NAME") (JStr "qwen-coder-turbo"))
                 (env_get env "OPENAI_API_KEY") (env_get env "OPENAI_BASE_URL") None.

(** mcp-test.mjs lines 11-17. *)
Definition mcp_model_config (env : Env) : ClientConfig :=
  mkClientConfig (JStr "qwen-plus") (env_get env "OPENAI_API_KEY")
                 (env_get env "OPENAI_BASE_URL") None.

(** loader-and-splitter.mjs lines 26-33. *)
Definition rag_model_config (env : Env) : ClientConfig :=
  mkClientConfig (JStr "qwen-plus") (env_get env "OPENAI_API_KEY")
                 (env_get env "OPENAI_BASE_URL") (Some 0%Z).

(** loader-and-splitter.mjs lines 35-41. *)
Definition rag_embeddings_config (env : Env) : ClientConfig :=
  mkClientConfig (JStr "text-embedding-v3") (env_get env "OPENAI_API_KEY")
                 (env_get env "OPENAI_BASE_URL") None.

(** ** MCP servers (mcp-test.mjs lines 19-37) *)

Inductive McpServer : Type :=
| StdioServer (command : string) (args : list string)
| HttpServer (url : string).

Definition amap_url (env : Env) : string :=
  "https://mcp.amap.com/mcp?key=" ++ to_js_string (env_get env "AMAP_API_KEY").

Definition mcp_servers (env : Env) : list (string * McpServer) :=
  [("my-mcp-server", StdioServer "node" ["./src/my-mcp-server.mjs"]);
   ("amap-maps-streamableHTTP", HttpServer (amap_url env));
   ("filesystem", StdioServer "npx" ["-y"; "@modelcontextprotocol/server-filesystem"; "./"]);
   ("chrome-devtools", StdioServer "npx" ["-y"; "chrome-devtools-mcp@latest"])].

(** ** Document loader and text splitters *)

Record LoaderConfig : Type := mkLoaderConfig {
  loader_url : string;
  selector : string
}.

Record SplitterConfig : Type := mkSplitterConfig {
  chunkSize : Z;
  chunkOverlap : Z;
  separators : option (list string)
}.

(** loader-and-splitter.mjs lines 8-13. *)
Definition rag_loader : LoaderConfig :=
  mkLoaderConfig "https://juejin.cn/post/7233327509919547452" ".main-area p".

(** loader-and-splitter.mjs lines 17-21. *)
Definition rag_splitter : SplitterConfig := mkSplitterConfig 400 50 (Some ["。"; "！"; "？"]).

(** LatexTextSplitter-test.mjs lines 17-20. *)
Definition latex_splitter : SplitterConfig := mkSplitterConfig 200 40 None.

(** MarkdownTextSplitter-test.mjs lines 73-76. *)
Definition markdown_splitter : SplitterConfig := mkSplitterConfig 400 80 None.

(** The text splitters refuse a configuration whose overlap is not
    smaller than the chunk size. *)
Definition splitter_ok (c : SplitterConfig) : bool :=
  (0 <? chunkSize c)%Z && (0 <=? chunkOverlap c)%Z && (chunkOverlap c <? chunkSize c)%Z.

(** ** Theorems *)

(** The model name of hello-langchain.mjs is [MODEL_NAME] when that
    variable is set to a non-empty string, and "qwen-coder-turbo" when it
    is unset or empty ([||] treats the empty string as missing); either
    way it is a non-empty string. *)
Theorem hello_model_name (env : Env) :
  modelName (hello_model_config env)
  = match env !! "MODEL_NAME" with
    | Some s => if String.eqb s "" then JStr "qwen-coder-turbo" else JStr s
    | None => JStr "qwen-coder-turbo"
    end /\
  exists s, modelName (hello_model_config env) = JStr s /\ s <> "".
Proof.
  unfold hello_model_config, env_get. cbn [modelName].
  destruct (env !! "MODEL_NAME") as [s|]; cbn [js_or truthy].
  - unfold js_or. cbn [truthy]. destruct (String.eqb_spec s "") as [->|Hs]; cbn.
    + split; [reflexivity|]. eexists; split; [reflexivity | discriminate].
    + split; [reflexivity|]. eexists; split; [reflexivity | exact Hs].
  - split; [reflexivity|]. eexists; split; [reflexivity | discriminate].
Qed.

(** The four MCP servers have distinct names, none of which is an
    array index; so whatever the servers report, [Object.entries] on an
    object keyed by these names lists them in the order they are
    declared, which is the order in which [resourceContent] gathers them. *)
Theorem mcp_servers_entries_in_order (env : Env) (vs : list jsval) :
  NoDup (map fst (mcp_servers env)) /\
  Forall (fun s => array_index s = None) (map fst (mcp_servers env)) /\
  js_entries (combine (map fst (mcp_servers env)) vs) = combine (map fst (mcp_servers env)) vs.
Proof.
  split; [|split].
  - cbn. repeat constructor; cbn; intros H; repeat destruct H as [H|H]; discriminate || contradiction.
  - cbn. repeat constructor.
  - apply js_entries_no_index. cbn.
    destruct vs as [|v1 [|v2 [|v3 [|v4 vs]]]]; reflexivity.
Qed.

(** The three text-splitter configurations of the repository meet
    the splitters' requirement of a positive chunk size larger than a
    non-negative overlap. *)
Theorem splitter_configs_ok :
  Forall (fun c => splitter_ok c = true) [rag_splitter; latex_splitter; markdown_splitter].
Proof. repeat constructor. Qed.
