(* ===== verification/Hello.v ===== *)
(** * The hello script (hello-langchain.mjs)

    The script loads [.env], builds a chat model from the environment
    (Config.v, [hello_model_config]), asks it once to introduce itself
    and prints the answer's [content].  The model is reached through the
    class [ChatModel], whose calls take the configuration the client was
    built with. *)

From stdpp Require Import gmap strings.
From Stdlib Require Import String List ZArith.
From S2P Require Import Prelude JsValue Config.
Import ListNotations.
Local Open Scope string_scope.
Local Open Scope agent_scope.

Class ChatModel (W : Type) : Type := {
  (** [await new ChatOpenAI(config).invoke(prompt)]: the response's
      [content], or the exception of the client. *)
  chat_invoke : W -> ClientConfig -> string -> W * (js_exn + jsval)
}.

Record HelloState (W : Type) : Type := mkHelloState {
  hworld : W;
  hconsole : list (list jsval)
}.
Arguments mkHelloState {W}.
Arguments hworld {W}.
Arguments hconsole {W}.

(** Line 14. *)
Definition hello_prompt : string := "介绍一下自己".

Section Script.
Context {W : Type} `{ChatModel W}.

Abbreviation HM := (M (HelloState W) js_exn).

Definition invoke_m (cfg : ClientConfig) (prompt : string) : HM jsval :=
  fun st => let (w', r) := chat_invoke (hworld st) cfg prompt in
            (mkHelloState w' (hconsole st), r).

Definition hlog (args : list jsval) : HM unit :=
  fun st => (mkHelloState (hworld st) (hconsole st ++ [args]), inr tt).

(** Lines 6-15, with [process.env] as [env]. *)
Definition hello_main (env : Env) : HM unit :=
  response <- invoke_m (hello_model_config env) hello_prompt ;;
  hlog [response].

End Script.

Section ScriptFacts.
Context {W : Type} `{ChatModel W}.

(** C24: the script calls the model once, on the fixed prompt, with a
    client whose model name is [MODEL_NAME] when it is a non-empty string
    and "qwen-coder-turbo" otherwise; it prints the answer's content as
    its only output, or prints nothing and ends with the exception of the
    client. *)
Theorem hello_main_run env (st : HelloState W) :
  exists cfg,
    modelName cfg = match env !! "MODEL_NAME" with
                    | Some s => if String.eqb s "" then JStr "qwen-coder-turbo" else JStr s
                    | None => JStr "qwen-coder-turbo"
                    end /\
    hello_main env st =
    let (w', r) := chat_invoke (hworld st) cfg hello_prompt in
    match r with
    | inl e => (mkHelloState w' (hconsole st), inl e)
    | inr c => (mkHelloState w' (hconsole st ++ [[c]]), inr tt)
    end.
Proof.
  exists (hello_model_config env). split; [apply hello_model_name|].
  unfold hello_main, mbind, invoke_m.
  destruct (chat_invoke (hworld st) (hello_model_config env) hello_prompt) as [w' [e|c]]; reflexivity.
Qed.
End ScriptFacts.
