(* ===== verification/SplitterScripts.v ===== *)
(** * The text-splitter scripts (LatexTextSplitter-test.mjs, MarkdownTextSplitter-test.mjs)

    Each script builds one [Document] from a template literal, splits it
    with a splitter of the library ([LatexTextSplitter], chunk size 200,
    overlap 40; [MarkdownTextSplitter], chunk size 400, overlap 80), and
    prints every chunk with its character length ([pageContent.length],
    UTF-16 code units: [js_length]) and its number of cl100k_base tokens.

    The splitters and the tokenizer are library code: they are reached
    through the classes [TextSplitter] (any behaviour, state and failures
    included) and [Tokenizer].  The two literals are transcribed byte for
    byte from the source; their values are their template values
    ([cooked], JsString.v), which is where the LaTeX script loses its
    commands: in a template literal [\f], [\n], [\r] and [\b] are escape
    sequences and every other [\x] is just [x]. *)

From Stdlib Require Import String Ascii List ZArith Lia.
From S2P Require Import Prelude JsValue JsString Rag Config.
Import ListNotations.
Local Open Scope string_scope.
Local Open Scope agent_scope.

(** ** Library interfaces *)

(** The three splitter classes the repository instantiates. *)
Inductive SplitterKind : Type :=
| RecursiveCharacterTextSplitter
| LatexTextSplitter
| MarkdownTextSplitter.

Class TextSplitter (W : Type) : Type := {
  (** [await new Kind(config).splitDocuments(docs)]. *)
  split_documents : W -> SplitterKind -> SplitterConfig -> list Document
                    -> W * (js_exn + list Document)
}.

(** [getEncoding("cl100k_base")]: [enc.encode(text).length]. *)
Class Tokenizer : Type := {
  token_length : string -> nat
}.

(** [new Document({ pageContent })]: no metadata given, so [{}]. *)
Definition new_document (text : string) : Document := mkDocument text (JObj []).

(** The object [console.log(document)] receives. *)
Definition doc_value (d : Document) : jsval :=
  JObj [("pageContent", JStr (pageContent d)); ("metadata", metadata d); ("id", JUndefined)].

(** ** The literals *)

(** LatexTextSplitter-test.mjs lines 7-11, between the backquotes. *)
Definition latex_raw : string := "\int x^{\mu}\mathrm{d}x=\frac{x^{\mu +1}}{\mu +1}+C, \left({\mu \neq -1}\right) \int \frac{1}{\sqrt{1-x^{2}}}\mathrm{d}x= \arcsin x +C \int \frac{1}{\sqrt{1-x^{2}}}\mathrm{d}x= \arcsin x +C \begin{pmatrix}  
  a_{11} & a_{12} & a_{13} \\  
  a_{21} & a_{22} & a_{23} \\  
  a_{31} & a_{32} & a_{33}  
\end{pmatrix} ".

Definition latexText : string := cooked latex_raw.

(** MarkdownTextSplitter-test.mjs lines 7-67, between the backquotes. *)
Definition readme_raw : string := "# Project Name

> A brief description of your project

[![License](https://img.shields.io/badge/license-MIT-blue.svg)](LICENSE)

## Features

- ✨ Feature 1
- 🚀 Feature 2
- 💡 Feature 3

## Installation

\`\`\`bash
npm install project-name
\`\`\`

## Usage

### Basic Usage

\`\`\`javascript
import { Project } from 'project-name';

const project = new Project();
project.init();
\`\`\`

### Advanced Usage

\`\`\`javascript
const project = new Project({
  config: {
    apiKey: 'your-api-key',
    timeout: 5000,
  }
});

await project.run();
\`\`\`

## API Reference

### \`Project\`

Main class for the project.

#### Methods

- \`init()\`: Initialize the project
- \`run()\`: Run the project
- \`stop()\`: Stop the project

## Contributing

Contributions are welcome! Please read our [contributing guide](CONTRIBUTING.md).

## License

MIT License".

Definition readmeText : string := cooked readme_raw.

(** ** The scripts *)

Record SplitState (W : Type) : Type := mkSplitState {
  sworld : W;
  sconsole : list ConsoleLine
}.
Arguments mkSplitState {W}.
Arguments sworld {W}.
Arguments sconsole {W}.

Section Script.
Context {W : Type} `{TextSplitter W} `{Tokenizer}.

Abbreviation SM := (M (SplitState W) js_exn).

Definition slog (args : list jsval) : SM unit :=
  fun st => (mkSplitState (sworld st) (sconsole st ++ [args])%list, inr tt).

Definition split_m (kind : SplitterKind) (cfg : SplitterConfig) (docs : list Document)
  : SM (list Document) :=
  fun st => let (w', r) := split_documents (sworld st) kind cfg docs in
            (mkSplitState w' (sconsole st), r).

(** The three lines printed for one chunk. *)
Definition chunk_lines (d : Document) : list ConsoleLine :=
  [[doc_value d];
   [JStr "character length: "; JNum (Z.of_nat (js_length (pageContent d)))];
   [JStr "token length: "; JNum (Z.of_nat (token_length (pageContent d)))]].

(** Lines 27-31 (LaTeX) and 85-89 (Markdown): [splitDocuments.forEach]. *)
Fixpoint print_chunks (ds : list Document) : SM unit :=
  match ds with
  | [] => mret tt
  | d :: rest =>
      slog [doc_value d] ;;;
      slog [JStr "character length: "; JNum (Z.of_nat (js_length (pageContent d)))] ;;;
      slog [JStr "token length: "; JNum (Z.of_nat (token_length (pageContent d)))] ;;;
      print_chunks rest
  end.

(** The body shared by both scripts: one document, split, printed. *)
Definition splitter_script (kind : SplitterKind) (cfg : SplitterConfig) (text : string) : SM unit :=
  splitDocuments <- split_m kind cfg [new_document text] ;;
  print_chunks splitDocuments.

(** LatexTextSplitter-test.mjs lines 13-31. *)
Definition latex_main : SM unit := splitter_script LatexTextSplitter latex_splitter latexText.

(** MarkdownTextSplitter-test.mjs lines 69-89. *)
Definition markdown_main : SM unit :=
  splitter_script MarkdownTextSplitter markdown_splitter readmeText.

End Script.

(** ** Theorems *)

Section ScriptFacts.
Context {W : Type} `{TextSplitter W} `{Tokenizer}.

Lemma print_chunks_output ds (st : SplitState W) :
  print_chunks ds st = (mkSplitState (sworld st) (sconsole st ++ flat_map chunk_lines ds)%list, inr tt).
Proof.
  revert st. induction ds as [|d ds IH]; intros st; cbn [print_chunks flat_map].
  - rewrite app_nil_r. destruct st. reflexivity.
  - unfold mbind, slog. cbn [sworld sconsole]. rewrite IH. cbn [sworld sconsole].
    rewrite <- !app_assoc. reflexivity.
Qed.

(** C23: whatever the splitter does, a splitter script prints exactly
    three lines per chunk, chunk by chunk in the order the splitter
    returns them: the document, its length in UTF-16 code units and its
    number of tokens; a splitter that throws makes the script print
    nothing and end with that exception. *)
Theorem splitter_script_run kind cfg text (st : SplitState W) :
  splitter_script kind cfg text st =
  let (w', r) := split_documents (sworld st) kind cfg [new_document text] in
  match r with
  | inl e => (mkSplitState w' (sconsole st), inl e)
  | inr ds => (mkSplitState w' (sconsole st ++ flat_map chunk_lines ds)%list, inr tt)
  end.
Proof.
  unfold splitter_script, mbind, split_m.
  destruct (split_documents (sworld st) kind cfg [new_document text]) as [w' [e|ds]];
    [reflexivity | cbn [mret]; rewrite print_chunks_output; reflexivity].
Qed.
End ScriptFacts.

(** The Markdown literal is valid and its escaped backquotes
    ([\`], 26 of them) are its only escapes: the document holds the
    README text with its code fences, 825 UTF-16 code units long, more
    than the chunk size 400 of its splitter.  Its 837 bytes differ from
    that length because its non-ASCII characters (a sparkle, six
    no-break spaces, and the emoji "rocket" and "bulb", which lie above
    U+FFFF and count two units each) take two to four bytes. *)
Theorem readme_text_value :
  cook_template readme_raw = Some readmeText /\
  count_byte 92 readmeText = 0%nat /\ count_byte 96 readmeText = 26%nat /\
  js_length readmeText = 825%nat /\ String.length readmeText = 837%nat /\
  (chunkSize markdown_splitter < Z.of_nat (js_length readmeText))%Z.
Proof. vm_compute. repeat split. Qed.
