(* ===== verification/RagPipeline.v ===== *)
(** * The whole RAG script: setup and question loop (loader-and-splitter.mjs)

    Lines 15-57 load the article with the web loader, split it with a
    [RecursiveCharacterTextSplitter], check that one document was loaded,
    print its length and the number of chunks, index the chunks in an
    in-memory vector store with the embeddings client, and make a
    retriever returning two chunks; lines 59-107 (Rag.v) then answer the
    questions.  The loader, the vector store and the retriever factory
    are reached through the class [RagSetup], the splitter through
    [TextSplitter] (SplitterScripts.v); all services share one world.

    [console.assert] does not throw: on a false condition Node prints
    "Assertion failed" (on the error stream, which the model does not
    distinguish from the output) and the script goes on, so with no
    document the read of [documents[0].pageContent] on line 44 is what
    stops it. *)

From stdpp Require Import gmap strings.
From Stdlib Require Import String List ZArith Lia.
From S2P Require Import Prelude JsValue JsString Rag Config SplitterScripts.
Import ListNotations.
Local Open Scope string_scope.
Local Open Scope agent_scope.

Class RagSetup (W : Type) : Type := {
  (** [await new CheerioWebBaseLoader(url, { selector }).load()]. *)
  load_documents : W -> LoaderConfig -> W * (js_exn + list Document);
  (** [await MemoryVectorStore.fromDocuments(docs, embeddings)]: the
      store becomes part of the world the retriever and the scored
      search read. *)
  build_store : W -> ClientConfig -> list Document -> W * (js_exn + unit);
  (** [vectorStore.asRetriever({ k })]: synchronous, does not fail. *)
  as_retriever : W -> nat -> W
}.

(** [`Total characters: ${documents[0].pageContent.length}`] (line 44):
    the first document's length, or the TypeError of reading
    [pageContent] of [undefined]. *)
Definition total_characters (documents : list Document) : js_exn + string :=
  match documents with
  | d :: _ => inr ("Total characters: " ++ nat_to_string (js_length (pageContent d)))
  | [] => inl (read_error "undefined" "pageContent")
  end.

(** Line 46 (the [\n] of the template is a line feed). *)
Definition chunks_line (splitDocuments : list Document) : string :=
  "文档分割完成，共 " ++ nat_to_string (length splitDocuments) ++ " 个分块" ++ nl.

Section Pipeline.
Context {W : Type} `{RagServices W} `{TextSplitter W} `{RagSetup W}.

Abbreviation RM := (M (RagState W) js_exn).

Definition load_m (cfg : LoaderConfig) : RM (list Document) :=
  fun st => let (w', r) := load_documents (rworld st) cfg in
            (mkRagState w' (calls st ++ [EvLoad (loader_url cfg)])%list (console st), r).

Definition split_rm (kind : SplitterKind) (cfg : SplitterConfig) (docs : list Document)
  : RM (list Document) :=
  fun st => let (w', r) := split_documents (rworld st) kind cfg docs in
            (mkRagState w' (calls st ++ [EvSplit docs])%list (console st), r).

Definition store_m (cfg : ClientConfig) (docs : list Document) : RM unit :=
  fun st => let (w', r) := build_store (rworld st) cfg docs in
            (mkRagState w' (calls st ++ [EvStore docs])%list (console st), r).

Definition retriever_m (k : nat) : RM unit :=
  fun st => (mkRagState (as_retriever (rworld st) k) (calls st ++ [EvRetriever k])%list
                        (console st), inr tt).

(** [console.assert(cond)]. *)
Definition console_assert (cond : bool) : RM unit :=
  if cond then mret tt else log [JStr "Assertion failed"].

(** Lines 15-107, with [process.env] as [env]. *)
Definition rag_main (env : Env) : RM unit :=
  documents <- load_m rag_loader ;;
  splitDocuments <- split_rm RecursiveCharacterTextSplitter rag_splitter documents ;;
  console_assert (Nat.eqb (length documents) 1) ;;;
  line <- mlift (total_characters documents) ;;
  log [JStr line] ;;;
  log [JStr (chunks_line splitDocuments)] ;;;
  log [JStr "正在创建向量存储..."] ;;;
  store_m (rag_embeddings_config env) splitDocuments ;;;
  log [JStr ("向量存储创建完成！" ++ nl)] ;;;
  retriever_m 2 ;;;
  answer_all questions.

End Pipeline.

(** ** Theorems *)

Section PipelineFacts.
Context {W : Type} `{RagServices W} `{TextSplitter W} `{RagSetup W}.

(** C14: when the article loads as at least one document, splits and is
    indexed, the script makes, in this order, the load of the article's
    URL, the split of the loaded documents, the indexing of the chunks
    and the creation of a retriever with k = 2, prints the first
    document's length in UTF-16 code units and the number of chunks
    (preceded by "Assertion failed" when more than one document was
    loaded), and then runs the question loop from the resulting state. *)
Theorem rag_main_setup env (st : RagState W) w1 d ds w2 chunks w3 :
  load_documents (rworld st) rag_loader = (w1, inr (d :: ds)) ->
  split_documents w1 RecursiveCharacterTextSplitter rag_splitter (d :: ds) = (w2, inr chunks) ->
  build_store w2 (rag_embeddings_config env) chunks = (w3, inr tt) ->
  rag_main env st =
  answer_all questions
    (mkRagState (as_retriever w3 2)
       (calls st ++ [EvLoad (loader_url rag_loader); EvSplit (d :: ds); EvStore chunks;
                     EvRetriever 2])%list
       (console st ++ (if Nat.eqb (length ds) 0 then [] else [[JStr "Assertion failed"]]) ++
        [[JStr ("Total characters: " ++ nat_to_string (js_length (pageContent d)))];
         [JStr (chunks_line chunks)]; [JStr "正在创建向量存储..."];
         [JStr ("向量存储创建完成！" ++ nl)]])%list).
Proof.
  intros Hl Hs Hb. unfold rag_main, mbind, load_m, split_rm, store_m, retriever_m.
  rewrite Hl. cbn [rworld calls console]. rewrite Hs. cbn [rworld calls console].
  destruct ds as [|d' ds]; cbn [length Nat.eqb console_assert mret log mlift total_characters
                                 rworld calls console];
    rewrite Hb; cbn [rworld calls console]; rewrite <- !app_assoc; reflexivity.
Qed.

(** C18: when the loader returns no document, [console.assert] only
    prints "Assertion failed", and the script stops on the TypeError of
    [documents[0].pageContent]: the splitter has been called, but no
    vector store is built and no question reaches the model. *)
Theorem rag_main_no_documents env (st : RagState W) w1 w2 chunks :
  load_documents (rworld st) rag_loader = (w1, inr []) ->
  split_documents w1 RecursiveCharacterTextSplitter rag_splitter [] = (w2, inr chunks) ->
  rag_main env st =
  (mkRagState w2 (calls st ++ [EvLoad (loader_url rag_loader); EvSplit []])%list
              (console st ++ [[JStr "Assertion failed"]])%list,
   inl (read_error "undefined" "pageContent")).
Proof.
  intros Hl Hs. unfold rag_main, mbind, load_m, split_rm.
  rewrite Hl. cbn [rworld calls console]. rewrite Hs. cbn.
  rewrite <- !app_assoc. reflexivity.
Qed.
End PipelineFacts.

(** ** Concrete services *)

Definition article : Document :=
  mkDocument "父亲去世后，作者开始珍惜时间。作者决定回到家乡。"
             (JObj [("source", JStr "https://juejin.cn/post/7233327509919547452")]).

(** A loader that returns [docs] and a store that always builds; the
    world counts the calls. *)
Definition fixed_setup (docs : list Document) : RagSetup nat := {|
  load_documents n _ := (S n, inr docs);
  build_store n _ _ := (S n, inr tt);
  as_retriever n _ := S n
|}.

(** A splitter that keeps each document whole. *)
Definition whole_splitter : TextSplitter nat := {|
  split_documents n _ _ docs := (S n, inr docs)
|}.

Lemma rag_main_setup_witness :
  @load_documents nat (fixed_setup [article]) (rworld (mkRagState 0 [] [])) rag_loader
    = (1, inr [article]) /\
  @split_documents nat whole_splitter 1 RecursiveCharacterTextSplitter rag_splitter [article]
    = (2, inr [article]) /\
  @build_store nat (fixed_setup [article]) 2 (rag_embeddings_config ∅) [article] = (3, inr tt) /\
  @rag_main nat demo_rag whole_splitter (fixed_setup [article]) ∅ (mkRagState 0 [] []) =
  @answer_all nat demo_rag questions
    (mkRagState (@as_retriever nat (fixed_setup [article]) 3 2)
       (calls (mkRagState 0 [] []) ++ [EvLoad (loader_url rag_loader); EvSplit [article];
                                       EvStore [article]; EvRetriever 2])%list
       (console (mkRagState 0 [] []) ++
        (if Nat.eqb (length (@nil Document)) 0 then [] else [[JStr "Assertion failed"]]) ++
        [[JStr ("Total characters: " ++ nat_to_string (js_length (pageContent article)))];
         [JStr (chunks_line [article])]; [JStr "正在创建向量存储..."];
         [JStr ("向量存储创建完成！" ++ nl)]])%list).
Proof.
  split; [reflexivity|]. split; [reflexivity|]. split; [reflexivity|].
  exact (@rag_main_setup nat demo_rag whole_splitter (fixed_setup [article]) ∅
           (mkRagState 0 [] []) 1 article [] 2 [article] 3 eq_refl eq_refl eq_refl).
Defined.

Lemma rag_main_no_documents_witness :
  @load_documents nat (fixed_setup []) (rworld (mkRagState 0 [] [])) rag_loader = (1, inr []) /\
  @split_documents nat whole_splitter 1 RecursiveCharacterTextSplitter rag_splitter [] = (2, inr []) /\
  @rag_main nat demo_rag whole_splitter (fixed_setup []) ∅ (mkRagState 0 [] []) =
  (mkRagState 2 (calls (mkRagState 0 [] []) ++ [EvLoad (loader_url rag_loader); EvSplit []])%list
              (console (mkRagState 0 [] []) ++ [[JStr "Assertion failed"]])%list,
   inl (read_error "undefined" "pageContent")).
Proof.
  split; [reflexivity|]. split; [reflexivity|].
  exact (@rag_main_no_documents nat demo_rag whole_splitter (fixed_setup []) ∅
           (mkRagState 0 [] []) 1 2 [] eq_refl eq_refl).
Defined.
